(** * HiggsFieldAI scrapers: a shallow embedding and its properties

    The Python sources under [src/] are embedded module by module:
    - [Py]: the Python data the scripts manipulate (text as sequences of
      code points, values, insertion-ordered dictionaries, exceptions);
    - [Fs]: the part of the file system the record store touches;
    - [simple_scraper], [range_scraper], [image_scraper], [auto_scraper],
      [metadata_updater], [low_video_count_analysis]: the functions of the
      scripts of the same name.

    Part I holds the definitions, Part II the statements and proofs. *)

From Stdlib Require Import ZArith NArith List Lia Bool Sorted.
From stdpp Require Import gmap strings list sorting.

Local Open Scope N_scope.

(* ===================================================================== *)
(** * Part I: the embedding                                              *)
(* ===================================================================== *)

(** ** Python data *)

Module Py.

(** A Python [str] is a sequence of Unicode code points. *)
Abbreviation str := (list N).

(** ASCII literals of the sources, written as Rocq strings. *)
Definition py (s : string) : str :=
  map (fun a => N.of_nat (Ascii.nat_of_ascii a)) (String.list_ascii_of_string s).

(** [c.isspace()] for one code point (CPython's [_PyUnicode_IsWhitespace]);
    [str.strip] and the regular-expression class [\s] both use it. *)
Definition isspace (c : N) : bool :=
  ((9 <=? c) && (c <=? 13)) || ((28 <=? c) && (c <=? 32))
  || (c =? 133) || (c =? 160) || (c =? 5760)
  || ((8192 <=? c) && (c <=? 8202))
  || (c =? 8232) || (c =? 8233) || (c =? 8239) || (c =? 8287) || (c =? 12288).

(** The Unicode data base is not part of the repository.  What the
    scripts need from it beyond ASCII is taken as a table: [c.isalnum()]
    and the decimal value of a digit ([\d], [int()]). *)
Record unicode_db := {
  uni_isalnum : N -> bool;
  uni_decimal : N -> option N;
  uni_lower : N -> list N
}.

Definition ascii_isalnum (c : N) : bool :=
  ((48 <=? c) && (c <=? 57)) || ((65 <=? c) && (c <=? 90))
  || ((97 <=? c) && (c <=? 122)).

Definition ascii_decimal (c : N) : option N :=
  if (48 <=? c) && (c <=? 57) then Some (c - 48) else None.

(** [c.isalnum()] *)
Definition isalnum (U : unicode_db) (c : N) : bool :=
  if c <? 128 then ascii_isalnum c else uni_isalnum U c.

(** The value of [c] as a decimal digit, if it is one. *)
Definition decimal (U : unicode_db) (c : N) : option N :=
  if c <? 128 then ascii_decimal c else uni_decimal U c.

(** A table with nothing beyond ASCII, to run the definitions. *)
Definition ascii_db : unicode_db :=
  {| uni_isalnum := fun _ => false; uni_decimal := fun _ => None;
     uni_lower := fun c => [c] |}.

(** [s.lower()] *)
Definition lower (U : unicode_db) (s : list N) : list N :=
  mbind (fun c => if c <? 128
                  then [if (65 <=? c) && (c <=? 90) then c + 32 else c]
                  else uni_lower U c) s.

(** [s.split('\n')] *)
Fixpoint split_lines (s : list N) : list (list N) :=
  match s with
  | [] => [[]]
  | c :: s' =>
      match split_lines s' with
      | line :: lines => if c =? 10 then [] :: line :: lines else (c :: line) :: lines
      | [] => [[c]]
      end
  end.

(** [s.startswith(p)] *)
Fixpoint startswith (p s : str) : bool :=
  match p, s with
  | [], _ => true
  | _ :: _, [] => false
  | a :: p', b :: s' => (a =? b) && startswith p' s'
  end.

(** [s.endswith(p)] *)
Definition endswith (p s : str) : bool := startswith (rev p) (rev s).

(** [p in s] for strings: [p] occurs as a substring. *)
Fixpoint contains (p s : str) : bool :=
  startswith p s || match s with [] => false | _ :: s' => contains p s' end.

(** [s.lstrip()], [s.rstrip()], [s.strip()] *)
Fixpoint lstrip (s : str) : str :=
  match s with
  | c :: s' => if isspace c then lstrip s' else s
  | [] => []
  end.

Definition rstrip (s : str) : str := rev (lstrip (rev s)).

Definition strip (s : str) : str := rstrip (lstrip s).

(** [s.replace(old, new)] for a non-empty [old]: occurrences are found
    left to right and do not overlap.  [skip] counts the characters of a
    replaced occurrence that are still to be passed over. *)
Fixpoint replace_go (old new : str) (skip : nat) (s : str) : str :=
  match s with
  | [] => []
  | c :: s' =>
      match skip with
      | S k => replace_go old new k s'
      | O =>
          if startswith old s
          then new ++ replace_go old new (length old - 1) s'
          else c :: replace_go old new 0 s'
      end
  end.

Definition replace (old new s : str) : str := replace_go old new 0 s.

(** [str(n)] for a natural number: its decimal digits.  The fuel is the
    bit length, which bounds the number of decimal digits. *)
Fixpoint digits_go (fuel : nat) (n : N) (acc : str) : str :=
  match fuel with
  | O => acc
  | S f =>
      let acc' := (48 + n mod 10) :: acc in
      if n <? 10 then acc' else digits_go f (n / 10) acc'
  end.

Definition str_of_N (n : N) : str := digits_go (S (N.size_nat n)) n [].

(** [str(z)] for an [int]. *)
Definition str_of_Z (z : Z) : str :=
  match z with
  | Zneg p => 45 :: str_of_N (Npos p)
  | _ => str_of_N (Z.to_N z)
  end.

(** The interpreter refuses to turn an [int] of more than 4300 digits
    into text, and a text of more than 4300 digits into an [int]: both
    raise [ValueError]. *)
Definition int_max_str_digits : nat := 4300.

(** The integers that [str(z)], [f"{z}"] and the writers of [csv] and
    [json] turn into text. *)
Definition printable (z : Z) : bool :=
  (length (str_of_N (Z.abs_N z)) <=? int_max_str_digits)%nat.

(** The text that a file opened with [encoding='utf-8'] takes: UTF-8
    has no encoding for a surrogate code point, and writing one raises
    [UnicodeEncodeError]. *)
Definition surrogate (c : N) : bool := (55296 <=? c) && (c <=? 57343).

Definition encodable (s : str) : bool := forallb (fun c => negb (surrogate c)) s.

(** [int(s)] for a string of decimal digits, which is what the scripts
    convert; an empty string, any other character and more digits than
    the limit raise. *)
Definition int_step (U : unicode_db) (acc : option N) (c : N) : option N :=
  match acc, decimal U c with
  | Some a, Some d => Some (10 * a + d)
  | _, _ => None
  end.

Definition int_of_str (U : unicode_db) (s : str) : option N :=
  match s with
  | [] => None
  | _ => if (length s <=? int_max_str_digits)%nat
         then foldl (int_step U) (Some 0) s
         else None
  end.

(** The digits [0] to [9]. *)
Definition ascii_digit (c : N) : bool := (48 <=? c) && (c <=? 57).

(** What a file opened for reading in text mode hands out: the line
    ends [\r\n] and [\r] are read as [\n]. *)
Fixpoint universal_newlines (s : str) : str :=
  match s with
  | [] => []
  | c :: s' =>
      if c =? 13
      then 10 :: match s' with
                 | d :: s'' => if d =? 10 then universal_newlines s''
                               else universal_newlines s'
                 | [] => []
                 end
      else c :: universal_newlines s'
  end.

(** [f.readlines()]: the lines, each with its line end. *)
Fixpoint readlines (s : str) : list str :=
  match s with
  | [] => []
  | c :: s' =>
      if c =? 10 then [10] :: readlines s'
      else match readlines s' with
           | line :: lines => (c :: line) :: lines
           | [] => [[c]]
           end
  end.

(** [s.split(sep)] for a separator of one character. *)
Fixpoint split_on (sep : N) (s : str) : list str :=
  match s with
  | [] => [[]]
  | c :: s' =>
      match split_on sep s' with
      | part :: parts => if c =? sep then [] :: part :: parts else (c :: part) :: parts
      | [] => [[c]]
      end
  end.

(** [int(s)] for any string.  White space around the number is passed
    over: the ASCII characters that C calls space, and the other
    characters for which [isspace] holds.  Then comes an optional sign
    and the digits, with single underscores between them; the
    interpreter refuses more than 4300 digits.  [None] stands for
    [ValueError]. *)
Definition int_space (c : N) : bool :=
  ((9 <=? c) && (c <=? 13)) || (c =? 32) || ((127 <? c) && isspace c).

Fixpoint int_lstrip (s : str) : str :=
  match s with
  | c :: s' => if int_space c then int_lstrip s' else s
  | [] => []
  end.

Definition int_strip (s : str) : str := rev (int_lstrip (rev (int_lstrip s))).

Fixpoint int_digits (U : unicode_db) (acc : Z) (count : nat) (after_digit : bool)
    (s : str) : option Z :=
  match s with
  | [] => if after_digit && (count <=? 4300)%nat then Some acc else None
  | c :: s' =>
      if c =? 95 then
        if after_digit then int_digits U acc count false s' else None
      else
        match decimal U c with
        | Some d => int_digits U (10 * acc + Z.of_N d) (S count) true s'
        | None => None
        end
  end.

Definition py_int (U : unicode_db) (s : str) : option Z :=
  match int_strip s with
  | [] => None
  | c :: digits =>
      if c =? 45 then Z.opp <$> int_digits U 0 0 false digits
      else if c =? 43 then int_digits U 0 0 false digits
      else int_digits U 0 0 false (c :: digits)
  end.

(** Comparison of strings, code point by code point, as [sorted] uses it. *)
Fixpoint str_leb (a b : str) : bool :=
  match a, b with
  | [], _ => true
  | _ :: _, [] => false
  | x :: a', y :: b' => (x <? y) || ((x =? y) && str_leb a' b')
  end.

Fixpoint insert_sorted (x : str) (l : list str) : list str :=
  match l with
  | [] => [x]
  | y :: l' => if str_leb x y then x :: l else y :: insert_sorted x l'
  end.

(** [sorted(l)] on strings. *)
Definition sorted (l : list str) : list str := foldr insert_sorted [] l.

(** The values the scripts store in records. *)
Inductive pyval :=
| PNone
| PStr (s : str)
| PInt (z : Z).

Global Instance pyval_eq_dec : EqDecision pyval.
Proof. solve_decision. Defined.

Definition pyval_code (v : pyval) : unit + (str + Z) :=
  match v with
  | PNone => inl tt
  | PStr s => inr (inl s)
  | PInt z => inr (inr z)
  end.

Definition pyval_decode (x : unit + (str + Z)) : pyval :=
  match x with
  | inl _ => PNone
  | inr (inl s) => PStr s
  | inr (inr z) => PInt z
  end.

Global Instance pyval_countable : Countable pyval.
Proof.
  apply (inj_countable' pyval_code pyval_decode).
  intros []; reflexivity.
Defined.

(** Truth value of a value in a condition ([if v], [not v], [a or b]). *)
Definition truthy (v : pyval) : bool :=
  match v with
  | PNone => false
  | PStr s => negb (bool_decide (s = []))
  | PInt z => negb (z =? 0)%Z
  end.

(** [a or b] *)
Definition py_or (a b : pyval) : pyval := if truthy a then a else b.

(** A [dict] keeps its keys in insertion order. *)
Abbreviation dict V := (list (str * V)).

Fixpoint dict_get {V} (d : dict V) (k : str) : option V :=
  match d with
  | [] => None
  | (k', v) :: d' => if bool_decide (k' = k) then Some v else dict_get d' k
  end.

(** [d.get(k, dflt)] *)
Definition get_default {V} (d : dict V) (k : str) (dflt : V) : V :=
  default dflt (dict_get d k).

(** [d[k] = v]: an existing key keeps its place, a new key goes last. *)
Fixpoint dict_set {V} (d : dict V) (k : str) (v : V) : dict V :=
  match d with
  | [] => [(k, v)]
  | (k', v') :: d' =>
      if bool_decide (k' = k) then (k', v) :: d' else (k', v') :: dict_set d' k v
  end.

(** [d.keys()] *)
Definition keys {V} (d : dict V) : list str := fst <$> d.

(** What [json.load] returns and [json.dump] takes. *)
Local Unset Elimination Schemes.
Inductive json :=
| JNull
| JBool (b : bool)
| JNum (z : Z)
| JStr (s : str)
| JArr (l : list json)
| JObj (o : list (str * json)).
Local Set Elimination Schemes.

Definition json_of_pyval (v : pyval) : json :=
  match v with
  | PNone => JNull
  | PStr s => JStr s
  | PInt z => JNum z
  end.

Definition json_of_record (r : dict pyval) : json :=
  JObj ((fun kv => (kv.1, json_of_pyval kv.2)) <$> r).

(** The values that [json.dump(..., ensure_ascii=False)] and the [csv]
    writer can write to a file encoded as UTF-8: their strings can be
    encoded and their integers turned into text. *)
Definition writable (v : pyval) : bool :=
  match v with
  | PNone => true
  | PStr s => encodable s
  | PInt z => printable z
  end.

Fixpoint json_writable (j : json) : bool :=
  match j with
  | JNull | JBool _ => true
  | JNum z => printable z
  | JStr s => encodable s
  | JArr l => forallb json_writable l
  | JObj o => forallb (fun kv => match kv with
                                 | (k, v) => encodable k && json_writable v
                                 end) o
  end.

(** Truth value of a loaded JSON value. *)
Definition json_truthy (j : json) : bool :=
  match j with
  | JNull => false
  | JBool b => b
  | JNum z => negb (z =? 0)%Z
  | JStr s => negb (bool_decide (s = []))
  | JArr l => negb (bool_decide (l = []))
  | JObj o => negb (bool_decide (o = []))
  end.

(** [os.path.basename(p)]: what follows the last slash. *)
Fixpoint basename (p : str) : str :=
  match p with
  | [] => []
  | c :: p' => if bool_decide (47 ∈ p') then basename p'
               else if c =? 47 then p' else p
  end.

(** Exceptions, all of them subclasses of [Exception]. *)
Inductive exn :=
| WebDriverException
| TimeoutException
| TypeError
| KeyError
| ValueError
| AttributeError
| OSError.

(** The outcome of a call: a returned value or a raised exception. *)
Inductive outcome (A : Type) :=
| Returned (a : A)
| Raised (e : exn).
Arguments Returned {A} a.
Arguments Raised {A} e.

(** Code that changes a state [S] and may raise: the state after the
    call is kept in both cases, as an [except] clause sees it. *)
Definition M (S A : Type) : Type := S -> outcome A * S.

Definition ret {S A} (a : A) : M S A := fun s => (Returned a, s).

Definition raise {S A} (e : exn) : M S A := fun s => (Raised e, s).

Definition bind {S A B} (m : M S A) (k : A -> M S B) : M S B :=
  fun s =>
    match m s with
    | (Returned a, s') => k a s'
    | (Raised e, s') => (Raised e, s')
    end.

(** [try: m  except Exception as e: h e] *)
Definition try_except {S A} (m : M S A) (h : exn -> M S A) : M S A :=
  fun s =>
    match m s with
    | (Returned a, s') => (Returned a, s')
    | (Raised e, s') => h e s'
    end.

Definition get {S} : M S S := fun s => (Returned s, s).

Definition modify {S} (f : S -> S) : M S unit := fun s => (Returned tt, f s).

(** A value that may have raised, as a step of a computation. *)
Definition lift {S A} (o : outcome A) : M S A := fun s => (o, s).

Notation "'let*' x ':=' m 'in' k" := (bind m (fun x => k))
  (at level 10, x name, m at level 100, k at level 200).
Notation "m ';;' k" := (bind m (fun _ => k))
  (at level 100, k at level 200, right associativity).

End Py.

Import Py.

(** ** The file system under the working directory *)

Module Fs.

(** What a file holds: a JSON text, which [json.load] reads as the
    value [j]; the rows that a [csv] writer has written; a text; or the
    beginning of a JSON text that [json.dump] could not write to its
    end, which is not a JSON text.  Paths are taken as they are
    written: two paths are the same file when they are the same text. *)
Inductive file :=
| JsonFile (j : json)
| CsvFile (rows : list (list str))
| TextFile (t : str)
| CutFile.

Record filesystem := {
  dirs : gset str;
  files : gmap str file
}.

(** [os.path.join(a, b)] on a POSIX system. *)
Definition path_join (a b : str) : str :=
  if startswith (py "/") b then b
  else if bool_decide (a = []) then b
  else if endswith (py "/") a then a ++ b
  else a ++ py "/" ++ b.

(** The directories above a path: what stands before each of its
    slashes, the root apart. *)
Fixpoint ancestors_from (before p : str) : list str :=
  match p with
  | [] => []
  | c :: p' =>
      (if (c =? 47) && negb (bool_decide (before = [])) then [before] else [])
      ++ ancestors_from (before ++ [c]) p'
  end.

Definition ancestors (p : str) : list str := ancestors_from [] p.

(** [os.makedirs(p, exist_ok=True)]: the empty path raises, and so does
    a path that is taken by a file or that has a file among its
    ancestors; the ancestors come with the directory itself. *)
Definition makedirs (p : str) : M filesystem unit :=
  let* fs := get in
  if bool_decide (p = []) then raise OSError
  else if existsb (fun a => bool_decide (is_Some (files fs !! a))) (p :: ancestors p)
  then raise OSError
  else modify (fun fs => {| dirs := list_to_set (p :: ancestors p) ∪ dirs fs;
                            files := files fs |}).

(** [with open(p, 'w', encoding='utf-8') as f: ...] once the file is
    closed, whether the block has run to its end or has raised: the file
    holds what was written to it, and nothing of what it held before.
    A directory cannot be opened. *)
Definition write_file (p : str) (f : file) : M filesystem unit :=
  let* fs := get in
  if bool_decide (p ∈ dirs fs) then raise OSError
  else modify (fun fs => {| dirs := dirs fs; files := <[p := f]> (files fs) |}).

(** [with open(p, 'w', encoding='utf-8') as f: json.dump(j, f, indent=2,
    ensure_ascii=False)]: the text is written piece by piece; a string
    that cannot be encoded or an integer beyond the limit makes the call
    raise when its piece comes, and the file is left with the pieces
    before it. *)
Definition json_dump (p : str) (j : json) : M filesystem unit :=
  if json_writable j then write_file p (JsonFile j)
  else write_file p CutFile ;; raise ValueError.

(** The calls [f.write(text)] of a block, each with its text or with
    the exception that the making of its text raises: the text that the
    file takes, and how the block ends.  A text is encoded when it is
    written; the first call that raises ends the block, and the texts of
    the calls before it are in the file. *)
Fixpoint written (writes : list (outcome str)) : str * outcome unit :=
  match writes with
  | [] => ([], Returned tt)
  | Raised e :: _ => ([], Raised e)
  | Returned t :: rest =>
      if encodable t
      then let '(w, ending) := written rest in (t ++ w, ending)
      else ([], Raised ValueError)
  end.

(** [with open(p, 'w', encoding='utf-8') as f:] around these calls. *)
Definition write_text (p : str) (writes : list (outcome str)) : M filesystem unit :=
  let '(w, ending) := written writes in
  write_file p (TextFile w) ;; lift ending.

(** [os.path.exists(p)] *)
Definition exists_ (p : str) (fs : filesystem) : bool :=
  bool_decide (is_Some (files fs !! p)) || bool_decide (p ∈ dirs fs).

(** [with open(p, 'r') as f: json.load(f)].  A JSON text is read as
    its value; a missing path, a directory and the other files make the
    call raise. *)
Definition json_load (p : str) : M filesystem json :=
  let* fs := get in
  match files fs !! p with
  | Some (JsonFile j) => ret j
  | Some _ => raise ValueError
  | None => raise OSError
  end.

(** [with open(p, 'r', encoding='utf-8') as f: f.read()] for a file
    written as text; the text of the other files is not modelled, and
    reading them raises, as a missing path and a directory do. *)
Definition read_text (p : str) : M filesystem str :=
  let* fs := get in
  match files fs !! p with
  | Some (TextFile t) => ret (universal_newlines t)
  | Some _ => raise ValueError
  | None => raise OSError
  end.

(** The code changes no file but those at [paths], whether it returns
    or raises. *)
Definition touches_only {A} (paths : list str) (m : M filesystem A) : Prop :=
  forall fs p, p ∉ paths -> files (m fs).2 !! p = files fs !! p.

End Fs.

Import Fs.

(** ** Regular expressions

    The part of Python's [re] that the scripts use: literals, a
    character class repeated greedily or lazily, groups and sequences,
    matched by backtracking from the start of the text ([re.match]). *)

Module Re.

Inductive regex :=
| Lit (t : str)
| Rep (p : N -> bool) (least : nat) (greedy : bool)
| Grp (i : nat) (r : regex)
| Cat (r1 r2 : regex).

(** The text of the groups matched so far, the last one first. *)
Abbreviation captures := (list (nat * str)).

(** [p*], [p+]: the longest run first, then shorter ones. *)
Fixpoint rep_greedy {A} (p : N -> bool) (least : nat) (s : str)
    (k : str -> option A) : option A :=
  match s with
  | c :: s' =>
      if p c
      then match rep_greedy p (pred least) s' k with
           | Some a => Some a
           | None => match least with O => k s | S _ => None end
           end
      else match least with O => k s | S _ => None end
  | [] => match least with O => k s | S _ => None end
  end.

(** [p*?], [p+?]: the shortest run first, then longer ones. *)
Fixpoint rep_lazy {A} (p : N -> bool) (least : nat) (s : str)
    (k : str -> option A) : option A :=
  match least with
  | O =>
      match k s with
      | Some a => Some a
      | None =>
          match s with
          | c :: s' => if p c then rep_lazy p 0 s' k else None
          | [] => None
          end
      end
  | S n =>
      match s with
      | c :: s' => if p c then rep_lazy p n s' k else None
      | [] => None
      end
  end.

(** [exec r s caps k] matches [r] at the start of [s] and hands the rest
    of the text and the groups to [k]; when [k] fails the next way to
    match [r] is tried. *)
Fixpoint exec {A} (r : regex) (s : str) (caps : captures)
    (k : str -> captures -> option A) : option A :=
  match r with
  | Lit t => if startswith t s then k (drop (length t) s) caps else None
  | Rep p least greedy =>
      (if greedy then rep_greedy else rep_lazy) p least s (fun s' => k s' caps)
  | Grp i r' =>
      exec r' s caps
        (fun s' caps' => k s' ((i, take (length s - length s') s) :: caps'))
  | Cat r1 r2 => exec r1 s caps (fun s' caps' => exec r2 s' caps' k)
  end.

(** [re.match(r, s)] *)
Definition re_match (r : regex) (s : str) : option captures :=
  exec r s [] (fun _ caps => Some caps).

(** [m.group(i)] *)
Fixpoint group (m : captures) (i : nat) : option str :=
  match m with
  | [] => None
  | (j, t) :: m' => if bool_decide (j = i) then Some t else group m' i
  end.

(** The classes [\s], [.] and [\d]. *)
Definition space : N -> bool := isspace.
Definition dot (c : N) : bool := negb (c =? 10).
Definition digit (U : unicode_db) (c : N) : bool :=
  match decimal U c with Some _ => true | None => false end.

(** The next character is not in the class [p], or there is none. *)
Definition stops (p : N -> bool) (s : str) : Prop :=
  match s with c :: _ => p c = false | [] => True end.

End Re.

(** ** The browser, as the scripts drive it *)

Module Driver.

(** The handle of an element of the page. *)
Abbreviation element := nat.

(** [By.CSS_SELECTOR], [By.TAG_NAME], [By.XPATH] *)
Inductive by_ := CSS_SELECTOR | TAG_NAME | XPATH.

(** The scripts given to [execute_script], by what they do. *)
Inductive script :=
| ScrollHeight      (* return document.body.scrollHeight *)
| ScrollToBottom    (* window.scrollTo(0, document.body.scrollHeight); *)
| ScrollToTop       (* window.scrollTo(0, 0); *)
| ScrollNudge       (* window.scrollBy(0, 100); setTimeout(...) *)
| ScrollIntoView    (* arguments[0].scrollIntoView({...}); *)
| JsClick           (* arguments[0].click(); *)
| AddClickIndicator (* window.addClickIndicator(arguments[0]); *)
| AddActionIndicator. (* window.addActionIndicator('...'); *)

(** The calls of the scripts to the browser. *)
Inductive call :=
| FindElement (parent : option element) (how : by_) (selector : str)
| FindElements (parent : option element) (how : by_) (selector : str)
| WaitPresence (how : by_) (selector : str)
    (* WebDriverWait(driver, t).until(EC.presence_of_element_located(...)) *)
| WaitFind (parent : element) (how : by_) (selector : str)
    (* WebDriverWait(driver, t).until(lambda driver: parent.find_element(...)) *)
| GetAttribute (e : element) (name : str)
| Text (e : element)
| TagName (e : element)
| Click (e : element)
| IsDisplayed (e : element)
| IsEnabled (e : element)
| SendKeys (e : element)                 (* e.send_keys(Keys.ESCAPE) *)
| ExecuteScript (sc : script) (args : list element)
| ActionClick (e : element)              (* ActionChains.move_to_element(e).click().perform() *)
| ActionClickOffset (x y : Z)            (* ActionChains.move_by_offset(x, y).click().perform() *)
| ActionSendKeys                         (* ActionChains.send_keys(Keys.ESCAPE).perform() *)
| GetWindowSize
| Back.

(** What the browser answers.  It may raise on any call. *)
Inductive answer :=
| Raises (e : exn)
| Done
| Elem (e : element)
| Elems (es : list element)
| Str (s : option str)
| Num (z : Z)
| Flag (b : bool)
| Size (width height : Z).

(** What a run leaves behind: the calls with their answers, and the
    lines of the log that the statements below refer to. *)
Inductive log_line :=
| Clicked (figure_index : nat)   (* "Clicked figure link (...)" *)
| Attempt (n : nat).             (* "... on attempt {retry + 1}" *)

Inductive event :=
| Called (c : call) (a : answer)
| Logged (l : log_line).

(** The page is not under the control of the scripts: the answer to a
    call is any function of what has happened so far. *)
Definition browser := list event -> call -> answer.

(** The state of a scrape: the events so far and the list
    [videos_data] (or [images_data]) the item loop appends to. *)
Record dstate := {
  history : list event;
  videos_data : list (dict pyval)
}.

(** The state after one more event. *)
Definition push (s : dstate) (ev : event) : dstate :=
  {| history := history s ++ [ev]; videos_data := videos_data s |}.

Section Calls.

Variable page : browser.

Definition ask (c : call) : M dstate answer :=
  fun s => let a := page (history s) c in (Returned a, push s (Called c a)).

Definition log (l : log_line) : M dstate unit :=
  modify (fun s => push s (Logged l)).

(** The calls by the type of their result.  An answer of another shape
    than the call expects is an error of the browser. *)
Definition expect_elem (c : call) : M dstate element :=
  let* a := ask c in
  match a with
  | Elem e => ret e
  | Raises x => raise x
  | _ => raise WebDriverException
  end.

Definition expect_elems (c : call) : M dstate (list element) :=
  let* a := ask c in
  match a with
  | Elems es => ret es
  | Raises x => raise x
  | _ => raise WebDriverException
  end.

Definition expect_str (c : call) : M dstate (option str) :=
  let* a := ask c in
  match a with
  | Str s => ret s
  | Raises x => raise x
  | _ => raise WebDriverException
  end.

Definition expect_flag (c : call) : M dstate bool :=
  let* a := ask c in
  match a with
  | Flag b => ret b
  | Raises x => raise x
  | _ => raise WebDriverException
  end.

Definition expect_done (c : call) : M dstate unit :=
  let* a := ask c in
  match a with
  | Raises x => raise x
  | _ => ret tt
  end.

Definition find_element parent how selector := expect_elem (FindElement parent how selector).
Definition find_elements parent how selector := expect_elems (FindElements parent how selector).
Definition wait_presence how selector := expect_elem (WaitPresence how selector).
Definition wait_find parent how selector := expect_elem (WaitFind parent how selector).
Definition get_attribute e name := expect_str (GetAttribute e name).
Definition click e := expect_done (Click e).
Definition is_displayed e := expect_flag (IsDisplayed e).
Definition is_enabled e := expect_flag (IsEnabled e).
Definition send_keys e := expect_done (SendKeys e).
Definition execute_script sc args := expect_done (ExecuteScript sc args).
Definition action_click e := expect_done (ActionClick e).
Definition action_click_offset x y := expect_done (ActionClickOffset x y).
Definition action_send_keys := expect_done ActionSendKeys.
Definition back := expect_done Back.

(** [e.text] and [e.tag_name] are strings. *)
Definition text (e : element) : M dstate str :=
  let* s := expect_str (Text e) in
  match s with
  | Some t => ret t
  | None => ret []
  end.

Definition tag_name (e : element) : M dstate str :=
  let* s := expect_str (TagName e) in
  match s with
  | Some t => ret t
  | None => ret []
  end.

(** [driver.execute_script("return document.body.scrollHeight")] *)
Definition scroll_height : M dstate Z :=
  let* a := ask (ExecuteScript ScrollHeight []) in
  match a with
  | Num z => ret z
  | Raises x => raise x
  | _ => raise WebDriverException
  end.

Definition get_window_size : M dstate (Z * Z) :=
  let* a := ask GetWindowSize in
  match a with
  | Size w h => ret (w, h)
  | Raises x => raise x
  | _ => raise WebDriverException
  end.

(** [videos_data.append(record)] *)
Definition append_record (record : dict pyval) : M dstate unit :=
  modify (fun s => {| history := history s; videos_data := videos_data s ++ [record] |}).

End Calls.

(** How a statement of a loop body ends: the body goes on ([Next]), or
    the function returns ([Return]) or the loop is left ([Break]). *)
Inductive flow (A : Type) :=
| Next
| Break
| Return (a : A).
Arguments Next {A}.
Arguments Break {A}.
Arguments Return {A} a.

(** [for x in xs: body x] *)
Fixpoint for_each {S X A} (xs : list X) (body : X -> M S (flow A)) : M S (flow A) :=
  match xs with
  | [] => ret Next
  | x :: rest =>
      let* f := body x in
      match f with
      | Next => for_each rest body
      | Break => ret Next
      | Return a => ret (Return a)
      end
  end.

(** The rest of a function after a statement that may have returned. *)
Definition and_then {S A} (m : M S (flow A)) (k : M S A) : M S A :=
  let* f := m in
  match f with
  | Return a => ret a
  | _ => k
  end.

End Driver.

Import Driver.

(** ** The text that the three scrapers share *)

(** The item loops of simple_scraper.py (lines 246-265 and 309-374),
    range_scraper.py (lines 521-540 and 584-649) and image_scraper.py
    (lines 498-517 and 557-623) repeat the same statements, up to the
    name of the URL field and of the placeholder. *)
Module Cycle.

Section Shared.

Variable page : browser.

(** ['video_url'] or ['image_url']; ['placeholder_video_'] or
    ['placeholder_image_']. *)
Variable url_key : str.
Variable placeholder_prefix : str.

(** [self.extract_prompt_from_popup()] and [self.close_popup()] of the
    scraper at hand. *)
Variable extract_prompt_from_popup : M dstate (option (dict pyval)).
Variable close_popup : M dstate unit.

Definition pyval_of (s : option str) : pyval :=
  match s with
  | Some t => PStr t
  | None => PNone
  end.

(** [extracted_data and extracted_data.get(k)] *)
Definition and_get (extracted_data : option (dict pyval)) (k : str) : pyval :=
  match extracted_data with
  | Some d => get_default d k PNone
  | None => PNone
  end.

(** [[v.get(url_key) for v in videos_data if v.get(url_key)]] *)
Definition existing_urls_of (videos_data : list (dict pyval)) : list pyval :=
  List.filter truthy ((fun v => get_default v url_key PNone) <$> videos_data).

(** The loop [for retry in range(3)] that extracts until the URL is
    new. *)
Fixpoint retry_loop (clickable_link : element) (retries : list nat)
    (extracted_data : option (dict pyval)) : M dstate (option (dict pyval)) :=
  match retries with
  | [] => ret extracted_data
  | retry :: rest =>
      let* extracted_data := extract_prompt_from_popup in
      log (Attempt (retry + 1)) ;;
      if truthy (and_get extracted_data url_key) then
        let current_url := and_get extracted_data url_key in
        let* s := get in
        let existing_urls := existing_urls_of (videos_data s) in
        if bool_decide (existing_urls = []) || bool_decide (current_url ∉ existing_urls)
        then ret extracted_data
        else
          close_popup ;;
          let* reopened :=
            try_except (execute_script page JsClick [clickable_link] ;; ret true)
                       (fun _ => ret false) in
          if reopened then retry_loop clickable_link rest extracted_data
          else ret extracted_data
      else retry_loop clickable_link rest extracted_data
  end.

Definition retry_for_unique (clickable_link : element) : M dstate (option (dict pyval)) :=
  retry_loop clickable_link (seq 0 3) None.

(** The URL of a record that has none: a placeholder made of the
    identifier of the figure or of its position. *)
Definition or_placeholder (final_url : pyval) (figure_id : option str) (index : nat)
    : pyval :=
  if truthy final_url then final_url
  else if truthy (pyval_of figure_id)
       then PStr (placeholder_prefix ++ default [] figure_id)
       else PStr (placeholder_prefix ++ str_of_N (N.of_nat index)).

(** The record for an opened item, from what was extracted or, failing
    that, from the figure itself. *)
Definition append_extracted (extracted_data : option (dict pyval))
    (figure_url : option str) (figure_id : option str) (index : nat) : M dstate unit :=
  if truthy (py_or (and_get extracted_data (py "prompt")) (and_get extracted_data url_key))
  then
    let final_url := py_or (and_get extracted_data url_key) (pyval_of figure_url) in
    append_record
      [(url_key, or_placeholder final_url figure_id index);
       (py "prompt", match extracted_data with
                     | Some d => get_default d (py "prompt") (PStr (py "No prompt found"))
                     | None => PStr (py "No prompt found")
                     end);
       (py "figure_index", PInt (Z.of_nat index));
       (py "figure_id", pyval_of figure_id)]
  else
    append_record
      [(url_key, or_placeholder (pyval_of figure_url) figure_id index);
       (py "prompt", PStr (py "No prompt found"));
       (py "figure_index", PInt (Z.of_nat index));
       (py "figure_id", pyval_of figure_id)].

(** The item whose figure shows its URL, once its detail view is open:
    only the prompt is read from the popup.  [prompt[:50]], for the log,
    needs a string. *)
Definition append_with_figure_url (figure_url : str) (figure_id : option str)
    (index : nat) : M dstate unit :=
  let* extracted_data := extract_prompt_from_popup in
  let prompt :=
    match extracted_data with
    | Some (_ :: _ as d) => get_default d (py "prompt") (PStr (py "No prompt found"))
    | _ => PStr (py "No prompt found")
    end in
  append_record
    [(url_key, PStr figure_url);
     (py "prompt", prompt);
     (py "figure_index", PInt (Z.of_nat index));
     (py "figure_id", pyval_of figure_id)] ;;
  match prompt with
  | PStr _ => close_popup
  | _ => raise TypeError
  end.

(** The figure identifier in the path of a link:
    [re.search(r'/([a-f0-9-]{36}|[a-f0-9]{8,})/?$', href)]. *)
Definition is_hex (c : N) : bool :=
  ((48 <=? c) && (c <=? 57)) || ((97 <=? c) && (c <=? 102)).

Definition id_at_end (t : str) : option str :=
  let x := if endswith (py "/") t then removelast t else t in
  if ((length x =? 36)%nat && forallb (fun c => is_hex c || (c =? 45)) x)
     || ((8 <=? length x)%nat && forallb is_hex x)
  then Some x else None.

Fixpoint id_of_href (href : str) : option str :=
  match href with
  | [] => None
  | c :: rest =>
      if c =? 47 then
        match id_at_end rest with
        | Some x => Some x
        | None => id_of_href rest
        end
      else id_of_href rest
  end.

(** The loop over the attributes that may hold an identifier. *)
Fixpoint id_from_attributes (figure clickable_link : element) (attrs : list str)
    (figure_id : option str) : M dstate (option str) :=
  match attrs with
  | [] => ret figure_id
  | attr :: rest =>
      if truthy (pyval_of figure_id) then id_from_attributes figure clickable_link rest figure_id
      else
        let* figure_id :=
          try_except
            (let* a := get_attribute page figure attr in
             if truthy (pyval_of a) then ret a
             else get_attribute page clickable_link attr)
            (fun _ => ret figure_id) in
        if truthy (pyval_of figure_id) then ret figure_id
        else id_from_attributes figure clickable_link rest figure_id
  end.

(** The identifier of a figure; [None] when the link or its address
    cannot be read. *)
Definition figure_id_of (figure : element) (attrs : list str) : M dstate (option str) :=
  try_except
    (let* clickable_link := find_element page (Some figure) CSS_SELECTOR (py "a") in
     let* href := get_attribute page clickable_link (py "href") in
     let figure_id :=
       if truthy (pyval_of href) then id_of_href (default [] href) else None in
     id_from_attributes figure clickable_link attrs figure_id)
    (fun _ => ret None).

End Shared.

End Cycle.

(** ** simple_scraper.py *)

Module simple_scraper.

Section RecordStore.

Variable U : unicode_db.

(** [category_name.split("_", 1)] when ["_" in category_name]. *)
Fixpoint split_once (c : N) (s : str) : str * str :=
  match s with
  | [] => ([], [])
  | x :: s' =>
      if x =? c then ([], s')
      else let '(a, b) := split_once c s' in (x :: a, b)
  end.

(** Lines 706-714: the folder of a subsection. *)
Definition folder_path_of (category_name : str) : str :=
  if bool_decide (95 ∈ category_name) then
    let '(category, subcategory) := split_once 95 category_name in
    path_join category subcategory
  else
    rstrip (List.filter
              (fun c => isalnum U c || bool_decide (c ∈ [32; 45; 95]))
              category_name).

(** [video.get('video_url', '')] *)
Definition url_of (video : dict pyval) : pyval :=
  get_default video (py "video_url") (PStr []).

(** Lines 719-728: the loop that removes duplicates, with its two
    variables [seen_urls] and [unique_videos]. *)
Fixpoint dedup_loop (videos_data : list (dict pyval))
    (seen_urls : gset pyval) (unique_videos : list (dict pyval))
    : list (dict pyval) :=
  match videos_data with
  | [] => unique_videos
  | video :: rest =>
      let video_url := url_of video in
      if truthy video_url && bool_decide (video_url ∉ seen_urls) then
        dedup_loop rest ({[video_url]} ∪ seen_urls) (unique_videos ++ [video])
      else if negb (truthy video_url) then
        dedup_loop rest seen_urls (unique_videos ++ [video])
      else
        dedup_loop rest seen_urls unique_videos
  end.

Definition unique_videos_of (videos_data : list (dict pyval)) : list (dict pyval) :=
  dedup_loop videos_data ∅ [].

(** Lines 734-737: the provenance fields are left out. *)
Definition provenance_keys : list str := [py "figure_id"; py "figure_index"].

Definition filtered_video (video : dict pyval) : dict pyval :=
  filter (fun kv : str * pyval => kv.1 ∉ provenance_keys) video.

(** Lines 749-752: the header of the CSV file. *)
Definition fieldnames_of (filtered_videos : list (dict pyval)) : list str :=
  sorted (elements
            (foldl (fun (fieldnames : gset str) video =>
                      fieldnames ∪ list_to_set (keys video))
                   ∅ filtered_videos)).

(** A cell as [csv.DictWriter] writes it: a missing key and [None] are
    empty, other values are written with [str]. *)
Definition csv_cell (v : option pyval) : str :=
  match v with
  | None | Some PNone => []
  | Some (PStr s) => s
  | Some (PInt z) => str_of_Z z
  end.

(** A cell that the writer can write. *)
Definition cell_writable (v : option pyval) : bool :=
  match v with
  | Some v => writable v
  | None => true
  end.

(** [writer.writerows]: the rows that are written and how the call
    ends.  The rows are written one by one; a row with a key outside the
    header, with a text that cannot be encoded or with an integer beyond
    the limit raises, and the rows before it are in the file. *)
Fixpoint writerows (fieldnames : list str) (rows : list (dict pyval))
    : list (list str) * outcome unit :=
  match rows with
  | [] => ([], Returned tt)
  | row :: rows' =>
      if forallb (fun k => bool_decide (k ∈ fieldnames)) (keys row)
         && forallb (fun k => cell_writable (dict_get row k)) fieldnames
      then
        let '(out, ending) := writerows fieldnames rows' in
        (((fun k => csv_cell (dict_get row k)) <$> fieldnames) :: out, ending)
      else ([], Raised ValueError)
  end.

(** [writer.writeheader()] and [writer.writerows(rows)] on the file at
    [p], which is open and empty. *)
Definition write_csv (p : str) (fieldnames : list str) (rows : list (dict pyval))
    : M filesystem unit :=
  if forallb encodable fieldnames then
    let '(out, ending) := writerows fieldnames rows in
    write_file p (CsvFile (fieldnames :: out)) ;; lift ending
  else raise ValueError.

(** Lines 700-758. *)
Definition save_videos_data (videos_data : list (dict pyval))
    (category_name : str) : M filesystem unit :=
  if bool_decide (videos_data = []) then ret tt
  else
    let folder_path := folder_path_of category_name in
    makedirs folder_path ;;
    let unique_videos := unique_videos_of videos_data in
    let filtered_videos := filtered_video <$> unique_videos in
    let json_path := path_join folder_path (py "videos.json") in
    json_dump json_path (JArr (json_of_record <$> filtered_videos)) ;;
    let csv_path := path_join folder_path (py "videos.csv") in
    write_file csv_path (CsvFile []) ;;
    if bool_decide (filtered_videos = []) then ret tt
    else write_csv csv_path (fieldnames_of filtered_videos) filtered_videos.

End RecordStore.

Section Browser.

Variable page : browser.

(** Lines 406-417: the loop [while True].  [fuel] bounds the number of
    iterations that are run; [None] says that the loop has not been left
    within them. *)
Fixpoint scroll_loop (fuel : nat) (last_height : Z) : M dstate (option unit) :=
  match fuel with
  | O => ret None
  | S fuel' =>
      execute_script page ScrollToBottom [] ;;
      let* new_height := scroll_height page in
      if (new_height =? last_height)%Z then ret (Some tt)
      else scroll_loop fuel' new_height
  end.

(** Lines 400-425. *)
Definition scroll_to_load_all_content (fuel : nat) : M dstate (option unit) :=
  try_except
    (let* last_height := scroll_height page in
     let* left := scroll_loop fuel last_height in
     match left with
     | None => ret None
     | Some _ => execute_script page ScrollToTop [] ;; ret (Some tt)
     end)
    (fun _ => ret (Some tt)).

(** Lines 490-500: the loop that waits for the address of the video.
    [video_url] is assigned inside the [try] of line 483: when a call of
    the loop raises, the value assigned last goes to the handler of line
    518 with the exception ([true]). *)
Fixpoint src_loop (modal : element) (attempts : nat) (video_element : element)
    (video_url : option str) : M dstate (option str * bool) :=
  match attempts with
  | O => ret (video_url, false)
  | S attempts' =>
      let* read := try_except (let* v := get_attribute page video_element (py "src") in
                               ret (Some v))
                              (fun _ => ret None) in
      match read with
      | None => ret (video_url, true)
      | Some video_url =>
          let url := default [] video_url in
          if truthy (Cycle.pyval_of video_url)
             && negb (endswith (py "placeholder") url)
             && negb (contains (py "blob:") url)
          then ret (video_url, false)
          else
            let* again :=
              try_except (let* e := find_element page (Some modal) CSS_SELECTOR
                                      (py "video[src]") in
                          ret (Some e))
                         (fun _ => ret None) in
            match again with
            | Some video_element => src_loop modal attempts' video_element video_url
            | None => ret (video_url, false)
            end
      end
  end.

(** Lines 503-516: the other places where the address may be. *)
Definition other_sources (modal : element) (video_url : option str)
    : M dstate (option str) :=
  if negb (truthy (Cycle.pyval_of video_url))
     || contains (py "blob:") (default [] video_url)
  then
    try_except
      (let* source_element := find_element page (Some modal) CSS_SELECTOR
                                (py "video source[src]") in
       get_attribute page source_element (py "src"))
      (fun _ =>
         try_except
           (let* video_container := find_element page (Some modal) CSS_SELECTOR
                                      (py "[data-video-url], [data-src]") in
            let* a := get_attribute page video_container (py "data-video-url") in
            if truthy (Cycle.pyval_of a) then ret a
            else get_attribute page video_container (py "data-src"))
           (fun _ => ret video_url))
  else ret video_url.

(** Lines 482-519. *)
Definition video_url_of (modal : element) : M dstate (option str) :=
  try_except
    (let* video_element := wait_find page modal CSS_SELECTOR (py "video[src]") in
     let* r := src_loop modal 5 video_element None in
     let '(video_url, raised) := r in
     if raised then ret video_url else other_sources modal video_url)
    (fun _ => ret None).

(** Lines 522-543. *)
Definition prompt_of (modal : element) : M dstate (option str) :=
  try_except
    (let* copy_button := find_element page (Some modal) CSS_SELECTOR
                           (py "[data-copy-prompt]") in
     let* t := text page copy_button in
     let prompt := strip t in
     if bool_decide (prompt = []) || bool_decide (prompt = py "true") then
       try_except
         (let* prompt_container :=
            find_element page (Some copy_button) XPATH
              (py "./preceding-sibling::*[1] | ./following-sibling::*[1] | ./parent::*/preceding-sibling::*[1]") in
          let* t := text page prompt_container in
          ret (Some (strip t)))
         (fun _ => ret (Some prompt))
     else ret (Some prompt))
    (fun _ =>
       try_except
         (let* prompt_element := find_element page (Some modal) CSS_SELECTOR
                                   (py ".prompt, [data-prompt], .description, p") in
          let* t := text page prompt_element in
          ret (Some (strip t)))
         (fun _ => ret None)).

(** Lines 469-552. *)
Definition extract_prompt_from_popup : M dstate (option (dict pyval)) :=
  try_except
    (let* modal := wait_presence page CSS_SELECTOR
                     (py "[role='dialog'], .modal, [data-modal]") in
     let* video_url := video_url_of modal in
     let* prompt := prompt_of modal in
     ret (Some [(py "video_url", Cycle.pyval_of video_url);
                (py "prompt", Cycle.pyval_of prompt)]))
    (fun _ => ret None).

(** Lines 584-599: the clicks at five places of the window. *)
Definition click_positions (width height : Z) : list (Z * Z) :=
  [(width / 4, height / 4); (3 * width / 4, height / 4); (width / 2, height / 2);
   (width / 4, 3 * height / 4); (3 * width / 4, 3 * height / 4)]%Z.

(** Lines 605-630. *)
Definition close_selectors : list str :=
  [py "[aria-label='Close']"; py "[aria-label='close']";
   py "button[aria-label*='Close' i]"; py "button[aria-label*='close' i]";
   py ".close"; py ".close-button"; py "[class*='close']"; py "button[class*='close']";
   py ".modal-close"; py "[data-testid='close']"; py "[data-testid='Close']";
   py ".x-button"; py "[title='Close']"; py "[title='close']";
   py "svg[class*='close']"; py "button svg";
   py "button[type='button']:not([data-copy-prompt])";
   py "button[aria-label*='back' i]"; py "button[aria-label*='return' i]"].

(** Lines 637-653: the buttons found by one selector. *)
Definition press_close_button (close_button : element) : M dstate (flow bool) :=
  let* shown := is_displayed page close_button in
  let* usable := if shown then is_enabled page close_button else ret false in
  if usable then
    try_except
      (click page close_button ;; ret (Return true))
      (fun _ =>
         try_except
           (execute_script page JsClick [close_button] ;; ret (Return true))
           (fun _ => ret Next))
  else ret Next.

(** Lines 672-680. *)
Definition press_overlay (overlay : element) : M dstate (flow bool) :=
  let* shown := is_displayed page overlay in
  if shown then
    try_except (click page overlay ;; ret (Return true)) (fun _ => ret Next)
  else ret Next.

(** Lines 554-698. *)
Definition close_popup : M dstate bool :=
  try_except
    (and_then
       (try_except
          (let* body := find_element page None TAG_NAME (py "body") in
           click page body ;; ret (Return true))
          (fun _ => ret Next))
    (and_then
       (try_except
          (let* size := get_window_size page in
           let '(width, height) := size in
           for_each (click_positions width height)
             (fun xy =>
                try_except
                  (action_click_offset page (xy.1 - width / 2) (xy.2 - height / 2) ;;
                   ret (Return true))
                  (fun _ => ret Next)))
          (fun _ => ret Next))
    (and_then
       (for_each close_selectors
          (fun selector =>
             try_except
               (let* close_buttons := find_elements page None CSS_SELECTOR selector in
                for_each close_buttons press_close_button)
               (fun _ => ret Next)))
    (and_then
       (try_except
          (let* body := find_element page None TAG_NAME (py "body") in
           send_keys page body ;; send_keys page body ;; send_keys page body ;;
           ret (Return true))
          (fun _ => ret Next))
    (and_then
       (try_except
          (let* overlays := find_elements page None CSS_SELECTOR
                              (py "[class*='overlay'], [class*='backdrop'], [class*='modal-backdrop']") in
           for_each overlays press_overlay)
          (fun _ => ret Next))
    (and_then
       (try_except (back page ;; ret (Return true)) (fun _ => ret Next))
       (ret false)))))))
    (fun _ => ret false).

Definition retry_for_unique :=
  Cycle.retry_for_unique page (py "video_url") extract_prompt_from_popup
    (close_popup ;; ret tt).

Definition append_extracted :=
  Cycle.append_extracted (py "video_url") (py "placeholder_video_").

Definition append_with_figure_url :=
  Cycle.append_with_figure_url (py "video_url") extract_prompt_from_popup
    (close_popup ;; ret tt).

(** Lines 277-296: the three ways to click. *)
Definition click_figure_link (i : nat) (clickable_link : element) : M dstate bool :=
  try_except
    (click page clickable_link ;; log (Clicked (i + 1)) ;; ret true)
    (fun _ =>
       try_except
         (execute_script page JsClick [clickable_link] ;; log (Clicked (i + 1)) ;; ret true)
         (fun _ =>
            try_except
              (action_click page clickable_link ;; log (Clicked (i + 1)) ;; ret true)
              (fun _ => ret false))).

(** Lines 232-244: the two ways to click of an item that shows its URL. *)
Definition click_for_prompt (i : nat) (clickable_link : element) : M dstate bool :=
  try_except
    (click page clickable_link ;; log (Clicked (i + 1)) ;; ret true)
    (fun _ =>
       try_except
         (execute_script page JsClick [clickable_link] ;; log (Clicked (i + 1)) ;; ret true)
         (fun _ => ret false)).

(** Lines 179-380: one item.  [i] counts from 0. *)
Definition process_figure (i : nat) (figure : element) : M dstate unit :=
  let* figure_video_url :=
    try_except
      (let* video_element := find_element page (Some figure) CSS_SELECTOR
                               (py "video[src]") in
       get_attribute page video_element (py "src"))
      (fun _ => ret None) in
  let* figure_id :=
    Cycle.figure_id_of page figure
      [py "data-video-id"; py "data-id"; py "id"; py "data-key"] in
  let* link :=
    try_except
      (let* e := find_element page (Some figure) CSS_SELECTOR (py "a") in ret (Some e))
      (fun _ => ret None) in
  match link with
  | None => ret tt
  | Some clickable_link =>
      let* handled :=
        if truthy (Cycle.pyval_of figure_video_url)
           && startswith (py "http") (default [] figure_video_url)
        then
          let* clicked := click_for_prompt i clickable_link in
          if clicked then
            append_with_figure_url (default [] figure_video_url) figure_id (i + 1) ;;
            ret true
          else ret false
        else ret false in
      if handled then ret tt
      else
        execute_script page ScrollIntoView [figure] ;;
        let* clicked := click_figure_link i clickable_link in
        if clicked then
          let* extracted_data := retry_for_unique clickable_link in
          append_extracted extracted_data figure_video_url figure_id (i + 1) ;;
          close_popup ;;
          ret tt
        else ret tt
  end.

(** Lines 177-389: the loop over the figures.  An exception of an item
    is logged, the popup is closed if it can be, and the loop goes on. *)
Fixpoint process_figures (i : nat) (figures : list element) : M dstate unit :=
  match figures with
  | [] => ret tt
  | figure :: rest =>
      try_except (process_figure i figure)
                 (fun _ => try_except (close_popup ;; ret tt) (fun _ => ret tt)) ;;
      process_figures (i + 1) rest
  end.

End Browser.

(* more of simple_scraper *)

End simple_scraper.

(** ** range_scraper.py *)

Module range_scraper.

(** Lines 998-1056 repeat lines 700-758 of simple_scraper.py word for
    word. *)
Definition save_videos_data := simple_scraper.save_videos_data.

Section Browser.

Variable page : browser.

(** Lines 697-714: the loop [while scroll_attempts < max_scroll_attempts],
    by the attempts that are left. *)
Fixpoint scroll_loop (attempts_left : nat) (last_height : Z) : M dstate unit :=
  match attempts_left with
  | O => ret tt
  | S attempts_left' =>
      execute_script page ScrollToBottom [] ;;
      let* new_height := scroll_height page in
      if (new_height =? last_height)%Z then ret tt
      else scroll_loop attempts_left' new_height
  end.

Definition max_scroll_attempts : nat := 10.

(** Lines 687-721. *)
Definition scroll_to_load_all_content : M dstate unit :=
  try_except
    (let* last_height := scroll_height page in
     scroll_loop max_scroll_attempts last_height ;;
     execute_script page ScrollToTop [])
    (fun _ => ret tt).

(** Lines 795-813 (and lines 813-833 of image_scraper.py): the first
    of the selectors at which a popup is present. *)
Fixpoint first_present (selectors : list str) : M dstate (option element) :=
  match selectors with
  | [] => ret None
  | selector :: rest =>
      let* found := try_except (let* e := wait_presence page CSS_SELECTOR selector in
                                ret (Some e))
                               (fun _ => ret None) in
      match found with
      | Some e => ret (Some e)
      | None => first_present rest
      end
  end.

(** The popup, or the body of the page when no popup is found. *)
Definition popup_element_of (popup_selectors : list str) : M dstate element :=
  let* popup_element := first_present popup_selectors in
  match popup_element with
  | Some e => ret e
  | None => find_element page None TAG_NAME (py "body")
  end.

Definition popup_selectors : list str :=
  [py "[role='dialog']"; py ".modal"; py ".popup"; py ".overlay";
   py "[data-testid*='modal']"; py "[data-testid*='dialog']";
   py ".video-modal"; py ".video-popup"].

Definition video_selectors : list str :=
  [py "video[src]"; py "source[src]"; py "[data-video-url]"; py "[data-src*='.mp4']";
   py "video source[src]"].

Definition prompt_selectors : list str :=
  [py "[data-testid*='prompt']"; py ".prompt"; py ".description";
   py ".video-description"; py ".caption"; py ".video-caption"; py "p"; py ".text";
   py "[class*='prompt']"; py "[class*='description']"].

(** Lines 829-837. *)
Fixpoint video_url_loop (popup_element : element) (selectors : list str)
    (video_url : option str) : M dstate (option str) :=
  match selectors with
  | [] => ret video_url
  | selector :: rest =>
      let* video_url :=
        try_except
          (let* video_element := find_element page (Some popup_element) CSS_SELECTOR
                                   selector in
           let* a := get_attribute page video_element (py "src") in
           if truthy (Cycle.pyval_of a) then ret a
           else get_attribute page video_element (py "data-src"))
          (fun _ => ret video_url) in
      if truthy (Cycle.pyval_of video_url) then ret video_url
      else video_url_loop popup_element rest video_url
  end.

(** Lines 857-862 (and 936-942 of image_scraper.py): the first text,
    among the elements found, that [accepts] takes. *)
Fixpoint first_text (accepts : str -> bool) (elements : list element)
    : M dstate (option str) :=
  match elements with
  | [] => ret None
  | e :: rest =>
      let* t := text page e in
      let t := strip t in
      if negb (bool_decide (t = [])) && accepts t then ret (Some t)
      else first_text accepts rest
  end.

(** Lines 854-866 (and 933-949 of image_scraper.py). *)
Fixpoint prompt_loop (accepts : str -> bool) (popup_element : element)
    (selectors : list str) : M dstate (option str) :=
  match selectors with
  | [] => ret None
  | selector :: rest =>
      let* prompt :=
        try_except
          (let* prompt_elements := find_elements page (Some popup_element) CSS_SELECTOR
                                     selector in
           first_text accepts prompt_elements)
          (fun _ => ret None) in
      match prompt with
      | Some t => ret (Some t)
      | None => prompt_loop accepts popup_element rest
      end
  end.

Variable U : unicode_db.

(** Lines 873-878: the lines of the popup that may be a prompt. *)
Definition ui_texts : list str :=
  [py "close"; py "share"; py "download"; py "like"; py "follow"; py "subscribe";
   py "view"; py "play"].

Definition meaningful (line : str) : bool :=
  (15 <? length line)%nat
  && negb (existsb (fun ui_text => contains ui_text (lower U line)) ui_texts).

Definition stripped_lines (all_text : str) : list str :=
  List.filter (fun line => negb (bool_decide (line = []))) (strip <$> split_lines all_text).

(** Lines 786-898. *)
Definition extract_prompt_from_popup : M dstate (option (dict pyval)) :=
  try_except
    (let* popup_element := popup_element_of popup_selectors in
     let* video_url := video_url_loop popup_element video_selectors None in
     let* prompt := prompt_loop (fun t => (10 <? length t)%nat) popup_element
                      prompt_selectors in
     let* prompt :=
       match prompt with
       | Some t => ret (Some t)
       | None =>
           try_except
             (let* all_text := text page popup_element in
              ret (head (List.filter meaningful (stripped_lines (strip all_text)))))
             (fun _ => ret None)
       end in
     ret (Some [(py "video_url", Cycle.pyval_of video_url);
                (py "prompt", py_or (Cycle.pyval_of prompt) (PStr (py "No prompt found")))]))
    (fun _ => ret (Some [(py "video_url", PNone);
                         (py "prompt", PStr (py "Error extracting prompt"))])).

(** Lines 938-964: [_click_close_button]. *)
Definition close_button_selectors : list str :=
  [py "[aria-label*='close' i]"; py "[title*='close' i]"; py ".close"; py ".close-button";
   py ".modal-close"; py ".popup-close"; py "button[class*='close']";
   py "[data-testid*='close']"; py "svg[class*='close']"; py ".icon-close"].

(** The last two selectors of the list, [button:contains('x')] with a
    multiplication sign and with a ballot sign, are not ASCII. *)
Definition times_button : str := py "button:contains('" ++ [215] ++ py "')".
Definition ballot_button : str := py "button:contains('" ++ [10005] ++ py "')".

Fixpoint click_first_shown (how_to_click : element -> M dstate unit)
    (selectors : list str) : M dstate bool :=
  match selectors with
  | [] => raise WebDriverException
  | selector :: rest =>
      let* clicked :=
        try_except
          (let* e := find_element page None CSS_SELECTOR selector in
           let* shown := is_displayed page e in
           if shown then how_to_click e ;; ret true else ret false)
          (fun _ => ret false) in
      if clicked then ret true else click_first_shown how_to_click rest
  end.

Definition _click_close_button : M dstate bool :=
  click_first_shown (click page) (close_button_selectors ++ [times_button; ballot_button]).

(** Lines 966-987: [_click_overlay]. *)
Definition overlay_selectors : list str :=
  [py ".overlay"; py ".backdrop"; py ".modal-backdrop"; py ".popup-overlay";
   py "[class*='overlay']"; py "[class*='backdrop']"].

Definition _click_overlay : M dstate bool :=
  click_first_shown (action_click page) overlay_selectors.

(** Lines 989-996: [_is_popup_closed]. *)
Definition _is_popup_closed : M dstate bool :=
  try_except
    (let* figures := find_elements page None CSS_SELECTOR (py "figure") in
     ret (0 <? length figures)%nat)
    (fun _ => ret false).

(** Lines 906-915: the four ways to close. *)
Definition close_methods : list (M dstate unit) :=
  [_click_close_button ;; ret tt;
   (let* body := find_element page None TAG_NAME (py "body") in send_keys page body);
   _click_overlay ;; ret tt;
   back page].

(** Lines 900-936. *)
Definition close_popup : M dstate bool :=
  try_except
    (and_then
       (for_each close_methods
          (fun method =>
             try_except
               (method ;;
                let* closed := _is_popup_closed in
                if closed then ret (Return true) else ret Next)
               (fun _ => ret Next)))
       (ret false))
    (fun _ => ret false).

(** Lines 584-610. *)
Definition retry_for_unique :=
  Cycle.retry_for_unique page (py "video_url") extract_prompt_from_popup
    (close_popup ;; ret tt).

End Browser.

(** *** The low-count report as a worklist (lines 41-99) *)

(** An entry of a parsed category (lines 81-84). *)
Record low_count_entry := {
  name : str;
  video_count : Z
}.

Record parse_state := {
  low_count_data : dict (list low_count_entry);
  current_category : option str
}.

Section LowCountFile.

Import Re.

Variable U : unicode_db.

(** Line 79: [\s*•\s*(.+?)\s*\(Count:\s*(\d+)\)] *)
Definition count_pattern : regex :=
  Cat (Rep space 0 true)
    (Cat (Lit (py "(Count:"))
       (Cat (Rep space 0 true)
          (Cat (Grp 2 (Rep (digit U) 1 true)) (Lit (py ")"))))).

Definition subcategory_pattern : regex :=
  Cat (Rep space 0 true)
    (Cat (Lit [8226])
       (Cat (Rep space 0 true)
          (Cat (Grp 1 (Rep dot 1 false)) count_pattern))).

(** Lines 79-85. *)
Definition parse_subcategory (st : parse_state) (category line : str)
    : outcome parse_state :=
  match re_match subcategory_pattern line with
  | Some m =>
      match group m 1, group m 2 with
      | Some g1, Some g2 =>
          match int_of_str U g2 with
          | Some n =>
              match dict_get (low_count_data st) category with
              | Some entries =>
                  Returned
                    {| low_count_data :=
                         dict_set (low_count_data st) category
                           (entries ++ [{| name := strip g1; video_count := Z.of_N n |}]);
                       current_category := current_category st |}
              | None => Raised KeyError
              end
          | None => Raised ValueError
          end
      | _, _ => Raised AttributeError
      end
  | None => Returned st
  end.

(** Lines 58-86: one turn of the loop over the lines. *)
Definition parse_line (st : parse_state) (raw : str) : outcome parse_state :=
  let line := strip raw in
  if bool_decide (line = []) || startswith (py "=") line || startswith (py "-") line
     || startswith (py "CATEGORIES") line || startswith (py "SUMMARY") line
  then Returned st
  else if startswith (py "CATEGORY:") line
  then
    let category := strip (replace (py "CATEGORY:") [] line) in
    Returned {| low_count_data := dict_set (low_count_data st) category [];
                current_category := Some category |}
  else if startswith (py "Total subcategories:") line
          || startswith (py "Low count subcategories:") line
  then Returned st
  else
    match current_category st with
    | Some (c :: category) =>
        if startswith [8226] line
        then parse_subcategory st (c :: category) line
        else Returned st
    | _ => Returned st
    end.

Fixpoint parse_lines (st : parse_state) (lines : list str) : outcome parse_state :=
  match lines with
  | [] => Returned st
  | line :: lines' =>
      match parse_line st line with
      | Returned st' => parse_lines st' lines'
      | Raised e => Raised e
      end
  end.

(** Line 89. *)
Definition with_subcategories (data : dict (list low_count_entry))
    : dict (list low_count_entry) :=
  List.filter (fun kv => negb (bool_decide (kv.2 = []))) data.

(** Lines 41-99. *)
Definition parse_low_video_count_file (file_path : str)
    : M filesystem (dict (list low_count_entry)) :=
  try_except
    (let* fs := get in
     if negb (exists_ file_path fs) then ret []
     else
       let* text := read_text file_path in
       let* st := lift (parse_lines {| low_count_data := []; current_category := None |}
                          (readlines text)) in
       ret (with_subcategories (low_count_data st)))
    (fun _ => ret []).

End LowCountFile.

(** *** The selection of videos (lines 306-364) *)

Section RangeInput.

Variable U : unicode_db.

(** Lines 340-342: [for i in range(start, end + 1)]. *)
Definition add_range (max_videos : Z) (indices : gset Z) (start end_ : Z) : gset Z :=
  foldl (fun (indices : gset Z) i =>
           if (1 <=? i)%Z && (i <=? max_videos)%Z then {[i]} ∪ indices else indices)
        indices (seqZ start (end_ + 1 - start)).

(** Lines 328-356: one turn of the loop over the parts. *)
Definition add_part (max_videos : Z) (indices : gset Z) (part : str) : gset Z :=
  if bool_decide (45 ∈ part) && negb (startswith (py "-") part) then
    let '(start, end_) := simple_scraper.split_once 45 part in
    match py_int U (strip start) with
    | None => indices
    | Some start =>
        match py_int U (strip end_) with
        | None => indices
        | Some end_ =>
            if (end_ <? start)%Z then add_range max_videos indices end_ start
            else add_range max_videos indices start end_
        end
    end
  else
    match py_int U part with
    | None => indices
    | Some num =>
        if (1 <=? num)%Z && (num <=? max_videos)%Z then {[num]} ∪ indices else indices
    end.

(** Lines 306-364.  Nothing but the conversions can raise, and their
    [ValueError] is caught part by part. *)
Definition parse_range_input (range_input : str) (max_videos : Z) : list Z :=
  let range_input := lower U (strip range_input) in
  if bool_decide (range_input ∈ [py "0"; py "all"]) then seqZ 1 max_videos
  else
    let parts := strip <$> split_on 44 range_input in
    merge_sort Z.le (elements (foldl (add_part max_videos) ∅ parts)).

End RangeInput.

(* more of range_scraper *)

End range_scraper.

(** ** image_scraper.py *)

Module image_scraper.

(** Line 1108: the header of images.csv. *)
Definition fieldnames : list str :=
  [py "image_url"; py "prompt"; py "figure_index"; py "figure_id"].

(** Lines 1113-1118: one row, every field read with [.get(key, '')]. *)
Definition row_of (image_data : dict pyval) : dict pyval :=
  (fun k => (k, get_default image_data k (PStr []))) <$> fieldnames.

Definition csv_row (image_data : dict pyval) : list str :=
  (fun k => simple_scraper.csv_cell (Some (get_default image_data k (PStr []))))
    <$> fieldnames.

(** Lines 1139 and 1146: the counts of the summary.  A truthy URL that
    is not a string has no [startswith]. *)
Definition summary (images_data : list (dict pyval)) : M filesystem unit :=
  if existsb (fun img =>
                match get_default img (py "image_url") PNone with
                | PInt z => truthy (PInt z)
                | _ => false
                end) images_data
  then raise AttributeError
  else ret tt.

(** Lines 1089-1150.  [timestamp] is the formatted reading of the clock. *)
Definition save_images_data (timestamp : str) (images_data : list (dict pyval))
    (category_name : str) : M filesystem unit :=
  try_except
    (if bool_decide (images_data = []) then ret tt
     else
       let category_folder :=
         replace (py "/") (py "_") (replace (py " ") (py "_") category_name) in
       makedirs category_folder ;;
       let csv_filename := path_join category_folder (py "images.csv") in
       write_file csv_filename (CsvFile []) ;;
       simple_scraper.write_csv csv_filename fieldnames (row_of <$> images_data) ;;
       let json_filename := path_join category_folder (py "images.json") in
       json_dump json_filename
         (JObj [(py "timestamp", JStr timestamp);
                (py "category", JStr category_name);
                (py "total_images", JNum (Z.of_nat (length images_data)));
                (py "images", JArr (json_of_record <$> images_data))]) ;;
       summary images_data)
    (fun _ => ret tt).

Section Browser.

Variable page : browser.

Definition indicator : M dstate unit := execute_script page AddActionIndicator [].

(** Lines 677-698: the loop [while scroll_attempts < max_scroll_attempts
    and consecutive_same_height < 3], by the attempts that are left. *)
Fixpoint scroll_loop (attempts_left : nat) (last_height : Z)
    (consecutive_same_height : nat) : M dstate unit :=
  match attempts_left with
  | O => ret tt
  | S attempts_left' =>
      if (consecutive_same_height <? 3)%nat then
        execute_script page ScrollToBottom [] ;;
        indicator ;;
        let* new_height := scroll_height page in
        let consecutive_same_height :=
          if (new_height =? last_height)%Z then S consecutive_same_height else 0%nat in
        scroll_loop attempts_left' new_height consecutive_same_height
      else ret tt
  end.

Definition max_scroll_attempts : nat := 15.

(** Lines 705-711: the three rounds of waiting at the bottom. *)
Fixpoint final_waits (cycles : nat) : M dstate unit :=
  match cycles with
  | O => ret tt
  | S cycles' =>
      indicator ;;
      execute_script page ScrollNudge [] ;;
      final_waits cycles'
  end.

(** Lines 656-735.  The handler of the exception calls the browser
    again. *)
Definition scroll_to_load_all_content : M dstate unit :=
  try_except
    (indicator ;;
     let* initial_height := scroll_height page in
     indicator ;;
     scroll_loop max_scroll_attempts initial_height 0 ;;
     indicator ;;
     final_waits 3 ;;
     let* final_height := scroll_height page in
     indicator ;;
     execute_script page ScrollToTop [] ;;
     indicator)
    (fun _ => indicator).

(** Lines 213-231: [visual_click]; its handler raises again. *)
Definition visual_click (e : element) : M dstate unit :=
  execute_script page ScrollIntoView [e] ;;
  execute_script page AddClickIndicator [e] ;;
  indicator ;;
  click page e.

Definition popup_selectors : list str :=
  [py "[role='dialog']"; py ".modal"; py ".popup"; py ".overlay";
   py "[data-testid*='modal']"; py "[data-testid*='dialog']"; py ".MuiDialog-root";
   py ".ant-modal"; py "[class*='Modal']"; py "[class*='Dialog']"].

Definition image_selectors : list str :=
  [py "img[src*='http']"; py "img[src]"; py "img[srcset]";
   py "[style*='background-image']"; py "picture img"; py ".image img"; py "[data-src]";
   py "img[data-sentry-element='Image']"; py "img[class*='object-cover']"].

Definition prompt_selectors : list str :=
  [py "button[type='button'] .text-left"; py "button[class*='text-left']";
   py "div[class*='font-light'] button"; py ".text-caption-m button";
   py "button:has(.text-left)"; py "[data-testid*='prompt']"; py "[class*='prompt']";
   py "[class*='description']"; py "[class*='caption']"; py "p"; py ".text";
   py "[role='textbox']"; py "textarea"; py "input[type='text']";
   py "[contenteditable='true']"; py ".content p"; py ".description"; py ".prompt-text"].

(** The regular expressions of lines 872-876 and 891 belong to the
    library: [srcset_best] is the address of the widest entry of a
    [srcset], [background_url] the address in a [background-image]. *)
Variable srcset_best : str -> option str.
Variable background_url : str -> option str.

Definition usable_url (u : str) : bool :=
  startswith (py "http") u && negb (endswith (py ".svg") u).

(** Lines 858-897: the address of one image element, if it has one. *)
Definition image_url_of (img : element) : M dstate (option str) :=
  let* src := get_attribute page img (py "src") in
  if truthy (Cycle.pyval_of src) && usable_url (default [] src) then ret src
  else
    let* srcset := get_attribute page img (py "srcset") in
    match (if truthy (Cycle.pyval_of srcset) then srcset_best (default [] srcset)
           else None) with
    | Some best => ret (Some best)
    | None =>
        let* data_src := get_attribute page img (py "data-src") in
        if truthy (Cycle.pyval_of data_src) && usable_url (default [] data_src)
        then ret data_src
        else
          let* style := get_attribute page img (py "style") in
          if truthy (Cycle.pyval_of style)
             && contains (py "background-image") (default [] style)
          then
            match background_url (default [] style) with
            | Some bg_url => if usable_url bg_url then ret (Some bg_url) else ret None
            | None => ret None
            end
          else ret None
    end.

Fixpoint first_image_url (image_elements : list element) : M dstate (option str) :=
  match image_elements with
  | [] => ret None
  | img :: rest =>
      let* image_url := image_url_of img in
      match image_url with
      | Some u => ret (Some u)
      | None => first_image_url rest
      end
  end.

(** Lines 855-904. *)
Fixpoint image_url_loop (popup_element : element) (selectors : list str)
    : M dstate (option str) :=
  match selectors with
  | [] => ret None
  | selector :: rest =>
      let* image_url :=
        try_except
          (let* image_elements := find_elements page (Some popup_element) CSS_SELECTOR
                                    selector in
           first_image_url image_elements)
          (fun _ => ret None) in
      if truthy (Cycle.pyval_of image_url) then ret image_url
      else image_url_loop popup_element rest
  end.

Variable U : unicode_db.

(** Lines 939 and 960: a text long enough that does not start like a
    control of the page. *)
Definition looks_like_prompt (labels : list str) (t : str) : bool :=
  (20 <? length t)%nat
  && negb (existsb (fun label => startswith label (lower U t)) labels).

Definition control_labels : list str :=
  [py "close"; py "share"; py "download"; py "like"; py "save"].

(** Lines 804-978. *)
Definition extract_prompt_from_popup : M dstate (option (dict pyval)) :=
  try_except
    (let* popup_element := range_scraper.popup_element_of page popup_selectors in
     let* image_url := image_url_loop popup_element image_selectors in
     let* prompt_text :=
       range_scraper.prompt_loop page
         (looks_like_prompt (control_labels ++ [py "prompt"])) popup_element
         prompt_selectors in
     let* prompt_text :=
       match prompt_text with
       | Some t => ret (Some t)
       | None =>
           try_except
             (let* all_text := text page popup_element in
              let all_text := strip all_text in
              if (10 <? length all_text)%nat then
                ret (head (List.filter (looks_like_prompt control_labels)
                             (range_scraper.stripped_lines all_text)))
              else ret None)
             (fun _ => ret None)
       end in
     ret (Some [(py "image_url", Cycle.pyval_of image_url);
                (py "prompt",
                 py_or (Cycle.pyval_of prompt_text) (PStr (py "No prompt found")))]))
    (fun _ => ret (Some [(py "image_url", PNone);
                         (py "prompt", PStr (py "Error extracting prompt"))])).

Definition close_selectors : list str :=
  [py "[aria-label*='close' i]"; py "[title*='close' i]"; py ".close"; py ".close-button";
   py "[data-testid*='close']"; py "[class*='close']"; py "button[aria-label*='Close']";
   py "button[title*='Close']"; py "[role='button'][aria-label*='close' i]";
   py ".modal-close"; py ".popup-close"; py ".overlay-close"; py "svg[class*='close']";
   py "[class*='CloseIcon']"; py ".MuiIconButton-root"; py ".ant-modal-close"].

(** Lines 1011-1027: the buttons found by one selector; the result is
    [popup_closed]. *)
Fixpoint press_close_buttons (close_elements : list element) : M dstate bool :=
  match close_elements with
  | [] => ret false
  | close_btn :: rest =>
      let* shown := is_displayed page close_btn in
      let* usable := if shown then is_enabled page close_btn else ret false in
      if usable then
        let* popup_closed :=
          try_except
            (visual_click close_btn ;; ret true)
            (fun _ =>
               try_except
                 (execute_script page AddClickIndicator [close_btn] ;;
                  indicator ;;
                  execute_script page JsClick [close_btn] ;;
                  ret true)
                 (fun _ => ret false)) in
        if popup_closed then ret true else press_close_buttons rest
      else press_close_buttons rest
  end.

(** Lines 1008-1034. *)
Fixpoint close_with_buttons (selectors : list str) : M dstate bool :=
  match selectors with
  | [] => ret false
  | selector :: rest =>
      let* popup_closed :=
        try_except
          (let* close_elements := find_elements page None CSS_SELECTOR selector in
           press_close_buttons close_elements)
          (fun _ => ret false) in
      if popup_closed then ret true else close_with_buttons rest
  end.

(** Lines 1054-1062. *)
Fixpoint click_overlays (selectors : list str) : M dstate bool :=
  match selectors with
  | [] => ret false
  | selector :: rest =>
      let* popup_closed :=
        try_except
          (let* overlay := find_element page None CSS_SELECTOR selector in
           let* shown := is_displayed page overlay in
           if shown then visual_click overlay ;; ret true else ret false)
          (fun _ => ret false) in
      if popup_closed then ret true else click_overlays rest
  end.

(** Lines 980-1087. *)
Definition close_popup : M dstate unit :=
  try_except
    (let* popup_closed := close_with_buttons close_selectors in
     let* popup_closed :=
       if popup_closed then ret true
       else try_except (indicator ;; action_send_keys page ;; ret true)
                       (fun _ => ret false) in
     let* popup_closed :=
       if popup_closed then ret true
       else try_except
              (indicator ;;
               click_overlays [py ".overlay"; py ".backdrop"; py ".modal-backdrop";
                               py "[class*='Backdrop']"])
              (fun _ => ret false) in
     let* popup_closed :=
       if popup_closed then ret true
       else try_except (indicator ;; action_click_offset page 10 10 ;; ret true)
                       (fun _ => ret false) in
     indicator)
    (fun _ => ret tt).

Definition retry_for_unique :=
  Cycle.retry_for_unique page (py "image_url") extract_prompt_from_popup close_popup.

Definition append_extracted :=
  Cycle.append_extracted (py "image_url") (py "placeholder_image_").

Definition append_with_figure_url :=
  Cycle.append_with_figure_url (py "image_url") extract_prompt_from_popup close_popup.

(** Lines 529-535 (and 489-494): the click by script, with its marks. *)
Definition marked_js_click (clickable_link : element) : M dstate unit :=
  execute_script page AddClickIndicator [clickable_link] ;;
  indicator ;;
  execute_script page JsClick [clickable_link].

(** Lines 522-544: the three ways to click. *)
Definition click_figure_link (index : nat) (clickable_link : element) : M dstate bool :=
  try_except
    (visual_click clickable_link ;; log (Clicked index) ;; ret true)
    (fun _ =>
       try_except
         (marked_js_click clickable_link ;; log (Clicked index) ;; ret true)
         (fun _ =>
            try_except
              (action_click page clickable_link ;; log (Clicked index) ;; ret true)
              (fun _ => ret false))).

(** Lines 482-496: the two ways to click of an item that shows its URL. *)
Definition click_for_prompt (index : nat) (clickable_link : element) : M dstate bool :=
  try_except
    (visual_click clickable_link ;; log (Clicked index) ;; ret true)
    (fun _ =>
       try_except
         (marked_js_click clickable_link ;; log (Clicked index) ;; ret true)
         (fun _ => ret false)).

(** Lines 403-632: one item.  [i] counts from 0 in the reversed list,
    [actual_index] is the position of the figure on the page. *)
Definition process_figure (total_images i : nat) (figure : element) : M dstate unit :=
  let actual_index := (total_images - i)%nat in
  indicator ;;
  try_except (execute_script page ScrollIntoView [figure]) (fun _ => ret tt) ;;
  let* figure_image_url :=
    try_except
      (let* image_element := find_element page (Some figure) CSS_SELECTOR (py "img[src]") in
       get_attribute page image_element (py "src"))
      (fun _ => ret None) in
  let* figure_id :=
    Cycle.figure_id_of page figure
      [py "data-image-id"; py "data-id"; py "id"; py "data-key"] in
  let* clickable_link :=
    try_except
      (let* tag := tag_name page figure in
       if bool_decide (tag = py "a") then ret figure
       else find_element page (Some figure) CSS_SELECTOR (py "a"))
      (fun _ => ret figure) in
  let* handled :=
    if truthy (Cycle.pyval_of figure_image_url)
       && startswith (py "http") (default [] figure_image_url)
    then
      let* clicked := click_for_prompt actual_index clickable_link in
      if clicked then
        append_with_figure_url (default [] figure_image_url) figure_id actual_index ;;
        ret true
      else ret false
    else ret false in
  if handled then ret tt
  else
    let* clicked := click_figure_link actual_index clickable_link in
    if clicked then
      let* extracted_data := retry_for_unique clickable_link in
      append_extracted extracted_data figure_image_url figure_id (i + 1) ;;
      close_popup
    else ret tt.

(** Lines 401-641: the loop over the figures, from the last to the
    first. *)
Fixpoint process_figures_from (total_images i : nat) (figures : list element)
    : M dstate unit :=
  match figures with
  | [] => ret tt
  | figure :: rest =>
      try_except (process_figure total_images i figure)
                 (fun _ => try_except close_popup (fun _ => ret tt)) ;;
      process_figures_from total_images (i + 1) rest
  end.

Definition process_figures (figures : list element) : M dstate unit :=
  process_figures_from (length figures) 0 (rev figures).

End Browser.

(* more of image_scraper *)

End image_scraper.

(** ** auto_scraper.py *)

Module auto_scraper.

Inductive status := missing | empty | single_item | invalid | populated.

Global Instance status_eq_dec : EqDecision status.
Proof. solve_decision. Defined.

(** Lines 35-57. *)
Definition check_videos_json (videos_json_path : str) : M filesystem (status * nat) :=
  let* fs := get in
  if negb (exists_ videos_json_path fs) then ret (missing, 0%nat)
  else
    try_except
      (let* data := json_load videos_json_path in
       match data with
       | JArr data =>
           let count := length data in
           if (count =? 0)%nat then ret (empty, 0%nat)
           else if (count <=? 2)%nat then ret (single_item, count)
           else ret (populated, count)
       | _ => ret (invalid, 0%nat)
       end)
      (fun _ => ret (invalid, 0%nat)).

(** Lines 93, 152 and 171: [status in ['missing', 'empty',
    'single_item', 'invalid']]. *)
Definition needs_scraping (st : status) : bool :=
  bool_decide (st ∈ [missing; empty; single_item; invalid]).

(** An entry of the worklist (lines 94-101). *)
Record worklist_entry := {
  category : json;
  subcategory : str;
  url : json;
  path : str;
  entry_status : status;
  current_count : nat
}.

(** [d.get(k, dflt)] on a loaded value: only an object has [get]. *)
Definition json_get (d : json) (k : str) (dflt : json) : outcome json :=
  match d with
  | JObj o => Returned (get_default o k dflt)
  | _ => Raised AttributeError
  end.

(** The state of [find_missing_subcategories]: the files and the list
    [missing_subcategories] it appends to. *)
Record scan_state := {
  scan_fs : filesystem;
  missing_subcategories : list worklist_entry
}.

(** A call that only looks at the files. *)
Definition on_fs {A} (m : M filesystem A) : M scan_state A :=
  fun s =>
    let '(r, fs') := m (scan_fs s) in
    (r, {| scan_fs := fs'; missing_subcategories := missing_subcategories s |}).

Definition append_entry (e : worklist_entry) : M scan_state unit :=
  modify (fun s => {| scan_fs := scan_fs s;
                      missing_subcategories := missing_subcategories s ++ [e] |}).

(** Lines 77-104: one subsection of the catalog.  A name that is not a
    string cannot be joined to the directory. *)
Definition scan_subcategory (root_dir : str) (root_category_name subcat : json)
    : M scan_state unit :=
  let* subcat_name := lift (json_get subcat (py "name") (JStr (py "Unknown"))) in
  let* subcat_link := lift (json_get subcat (py "link") (JStr [])) in
  if negb (json_truthy subcat_link) then ret tt
  else
    match subcat_name with
    | JStr name =>
        let subcat_path := path_join root_dir name in
        let videos_json_path := path_join subcat_path (py "videos.json") in
        let* sc := on_fs (check_videos_json videos_json_path) in
        let '(st, count) := sc in
        if needs_scraping st then
          append_entry {| category := root_category_name; subcategory := name;
                          url := subcat_link; path := subcat_path;
                          entry_status := st; current_count := count |}
        else ret tt
    | _ => raise TypeError
    end.

Fixpoint scan_subcategories (root_dir : str) (root_category_name : json)
    (root_subcategories : list json) : M scan_state unit :=
  match root_subcategories with
  | [] => ret tt
  | subcat :: rest =>
      scan_subcategory root_dir root_category_name subcat ;;
      scan_subcategories root_dir root_category_name rest
  end.

(** What a [for] loop runs over when it is given a loaded value. *)
Definition json_iter (j : json) : outcome (list json) :=
  match j with
  | JArr l => Returned l
  | JObj o => Returned ((fun kv => JStr kv.1) <$> o)
  | JStr s => Returned ((fun c => JStr [c]) <$> s)
  | _ => Raised TypeError
  end.

(** Lines 66-110: the catalog index at the scan root.  The result tells
    whether the function has returned its list (line 107); otherwise it
    goes on to the directories below the root (lines 112-203), where
    lines 136-163 repeat the loop above for the index of each of them. *)
Definition scan_root_metadata (root_dir : str) : M scan_state bool :=
  let root_metadata_path := path_join root_dir (py "metadata.json") in
  let* s := get in
  if exists_ root_metadata_path (scan_fs s) then
    try_except
      (let* root_metadata := on_fs (json_load root_metadata_path) in
       let* root_category_name :=
         lift (json_get root_metadata (py "category_name") (JStr (basename root_dir))) in
       let* subs := lift (json_get root_metadata (py "sub_categories") (JArr [])) in
       let* root_subcategories := lift (json_iter subs) in
       scan_subcategories root_dir root_category_name root_subcategories ;;
       ret true)
      (fun _ => ret false)
  else ret false.

End auto_scraper.

(** ** metadata_updater.py *)

Module metadata_updater.

(** What [analyze_videos_json] returns for one record file (lines 89-93). *)
Record analysis := {
  video_count : Z;
  subcategory_path : str;
  category_path : str
}.

(** Lines 138-141: the analyses by subsection name; a later analysis of
    the same name takes the place of the earlier one. *)
Definition video_data_map_of (video_analyses : list analysis) : dict analysis :=
  foldl (fun m a => dict_set m (subcategory_path a) a) [] video_analyses.

(** Lines 149-153: the first analysis whose name is that of the entry,
    spaces apart.  Only a string has [replace]. *)
Fixpoint matching_data_of (video_data_map : dict analysis) (subcategory_name : json)
    : outcome (option analysis) :=
  match video_data_map with
  | [] => Returned None
  | (key, data) :: rest =>
      match subcategory_name with
      | JStr name =>
          if bool_decide (key = name)
             || bool_decide (replace (py " ") [] key = replace (py " ") [] name)
          then Returned (Some data)
          else matching_data_of rest subcategory_name
      | _ => Raised AttributeError
      end
  end.

(** [subcategory['name']] *)
Definition subscript_name (subcategory : json) : outcome json :=
  match subcategory with
  | JObj o =>
      match dict_get o (py "name") with
      | Some v => Returned v
      | None => Raised KeyError
      end
  | _ => Raised TypeError
  end.

(** Lines 145-162 for one entry: the entry with its count set. *)
Definition update_subcategory (video_data_map : dict analysis) (subcategory : json)
    : outcome json :=
  match subscript_name subcategory with
  | Raised e => Raised e
  | Returned subcategory_name =>
      match matching_data_of video_data_map subcategory_name with
      | Raised e => Raised e
      | Returned matching_data =>
          match subcategory with
          | JObj o =>
              Returned (JObj (dict_set o (py "video_count")
                                (JNum (match matching_data with
                                       | Some data => video_count data
                                       | None => 0%Z
                                       end))))
          | _ => Raised TypeError
          end
      end
  end.

Fixpoint update_subcategories (video_data_map : dict analysis) (subs : list json)
    : outcome (list json) :=
  match subs with
  | [] => Returned []
  | subcategory :: rest =>
      match update_subcategory video_data_map subcategory with
      | Raised e => Raised e
      | Returned subcategory' =>
          match update_subcategories video_data_map rest with
          | Raised e => Raised e
          | Returned rest' => Returned (subcategory' :: rest')
          end
      end
  end.

(** The loop of line 145 over [metadata['sub_categories']]: the entries
    of a list are updated in place; an object or a string that is not
    empty yields strings, which have no ['name']; other values cannot be
    iterated. *)
Definition update_sub_categories_value (video_data_map : dict analysis) (subs : json)
    : outcome json :=
  match subs with
  | JArr l =>
      match update_subcategories video_data_map l with
      | Returned l' => Returned (JArr l')
      | Raised e => Raised e
      end
  | JObj [] | JStr [] => Returned subs
  | _ => Raised TypeError
  end.

(** Lines 117-173. *)
Definition update_metadata_json (metadata_path : str) (video_analyses : list analysis)
    : M filesystem bool :=
  try_except
    (let* metadata := json_load metadata_path in
     match metadata with
     | JObj o =>
         match dict_get o (py "sub_categories") with
         | None => ret false
         | Some subs =>
             let video_data_map := video_data_map_of video_analyses in
             let* subs' := lift (update_sub_categories_value video_data_map subs) in
             json_dump metadata_path (JObj (dict_set o (py "sub_categories") subs')) ;;
             ret true
         end
     | JArr l =>
         if existsb (fun j => match j with
                              | JStr t => bool_decide (t = py "sub_categories")
                              | _ => false
                              end) l
         then raise TypeError
         else ret false
     | JStr t =>
         if contains (py "sub_categories") t then raise TypeError else ret false
     | _ => raise TypeError
     end)
    (fun _ => ret false).

End metadata_updater.

(** ** low_video_count_analysis.py *)

Module low_video_count_analysis.

(** An entry of [low_count_subcategories] (lines 31-35). *)
Record subcategory := {
  name : str;
  video_count : Z;
  link : str
}.

(** A value of [results] (lines 38-42). *)
Record data := {
  total_subcategories : N;
  low_count_subcategories : list subcategory;
  low_count_total : N
}.

Definition output_file : str := py "low_video_count_categories.txt".

(** Line 66. *)
Definition subcategory_line (s : subcategory) : str :=
  py "  " ++ [8226] ++ py " " ++ name s ++ py " (Count: "
  ++ str_of_Z (video_count s) ++ py ")" ++ [10].

(** Lines 60-69: what the loop writes for one category. *)
Definition category_block (kv : str * data) : str :=
  py "CATEGORY: " ++ kv.1 ++ [10]
  ++ py "Total subcategories: " ++ str_of_N (total_subcategories kv.2) ++ [10]
  ++ py "Low count subcategories: " ++ str_of_N (low_count_total kv.2) ++ [10]
  ++ repeat 45 40 ++ [10]
  ++ concat (subcategory_line <$> low_count_subcategories kv.2)
  ++ [10].

(** The bullet lines written, which line 67 counts. *)
Definition total_low_count (results : dict data) : N :=
  foldl (fun n kv => n + N.of_nat (length (low_count_subcategories kv.2))) 0 results.

(** Lines 55-56. *)
Definition heading : str :=
  py "CATEGORIES AND SUBCATEGORIES WITH 0 OR 1 VIDEO COUNTS" ++ [10]
  ++ repeat 61 60 ++ [10; 10].

(** Lines 71-75. *)
Definition summary (results : dict data) : str :=
  py "SUMMARY" ++ [10]
  ++ repeat 61 20 ++ [10]
  ++ py "Total categories analyzed: " ++ str_of_N (N.of_nat (length results)) ++ [10]
  ++ py "Categories with low count subcategories: "
  ++ str_of_N (N.of_nat (length results)) ++ [10]
  ++ py "Total subcategories with 0 or 1 videos: "
  ++ str_of_N (total_low_count results) ++ [10].

(** The text of the report, when it is written to its end. *)
Definition report (results : dict data) : str :=
  heading ++ concat (category_block <$> results) ++ summary results.

(** A call [f.write(f"...{z}...")]: the text cannot be made when [z] is
    beyond the limit of the interpreter. *)
Definition write_of (z : Z) (text : str) : outcome str :=
  if printable z then Returned text else Raised ValueError.

(** Lines 55-56, 60-69 and 71-75 as the calls of [f.write] that they
    are.  The numbers that [len] gives are within the limit. *)
Definition heading_writes : list (outcome str) :=
  [Returned (py "CATEGORIES AND SUBCATEGORIES WITH 0 OR 1 VIDEO COUNTS" ++ [10]);
   Returned (repeat 61 60 ++ [10; 10])].

Definition category_writes (kv : str * data) : list (outcome str) :=
  [Returned (py "CATEGORY: " ++ kv.1 ++ [10]);
   write_of (Z.of_N (total_subcategories kv.2))
     (py "Total subcategories: " ++ str_of_N (total_subcategories kv.2) ++ [10]);
   write_of (Z.of_N (low_count_total kv.2))
     (py "Low count subcategories: " ++ str_of_N (low_count_total kv.2) ++ [10]);
   Returned (repeat 45 40 ++ [10])]
  ++ ((fun s => write_of (video_count s) (subcategory_line s))
        <$> low_count_subcategories kv.2)
  ++ [Returned [10]].

Definition summary_writes (results : dict data) : list (outcome str) :=
  [Returned (py "SUMMARY" ++ [10]);
   Returned (repeat 61 20 ++ [10]);
   Returned (py "Total categories analyzed: "
             ++ str_of_N (N.of_nat (length results)) ++ [10]);
   Returned (py "Categories with low count subcategories: "
             ++ str_of_N (N.of_nat (length results)) ++ [10]);
   Returned (py "Total subcategories with 0 or 1 videos: "
             ++ str_of_N (total_low_count results) ++ [10])].

Definition writes (results : dict data) : list (outcome str) :=
  heading_writes ++ (results ≫= category_writes) ++ summary_writes results.

(** Lines 50-79. *)
Definition save_results_to_file (results : dict data) : M filesystem str :=
  write_text output_file (writes results) ;;
  ret output_file.

End low_video_count_analysis.

(** ** The report and what is read back from it, in the words of the
       specification *)

Module Report.

Import low_video_count_analysis.

(** "The same subcategory names with the same item counts, and nothing
    else": what the parser has to give back for [results]. *)
Definition entry_of (s : subcategory) : range_scraper.low_count_entry :=
  {| range_scraper.name := name s; range_scraper.video_count := video_count s |}.

Definition recovered (results : dict data) : dict (list range_scraper.low_count_entry) :=
  (fun kv => (kv.1, entry_of <$> low_count_subcategories kv.2)) <$> results.

(** The lines of the report, without their line ends. *)
Definition subcategory_text (s : subcategory) : str :=
  py "  " ++ [8226] ++ py " " ++ name s ++ py " (Count: "
  ++ str_of_Z (video_count s) ++ py ")".

Definition block_lines (kv : str * data) : list str :=
  [py "CATEGORY: " ++ kv.1;
   py "Total subcategories: " ++ str_of_N (total_subcategories kv.2);
   py "Low count subcategories: " ++ str_of_N (low_count_total kv.2);
   repeat 45 40]
  ++ (subcategory_text <$> low_count_subcategories kv.2)
  ++ [[]].

Definition heading_lines : list str :=
  [py "CATEGORIES AND SUBCATEGORIES WITH 0 OR 1 VIDEO COUNTS"; repeat 61 60; []].

Definition summary_lines (results : dict data) : list str :=
  [py "SUMMARY";
   repeat 61 20;
   py "Total categories analyzed: " ++ str_of_N (N.of_nat (length results));
   py "Categories with low count subcategories: "
   ++ str_of_N (N.of_nat (length results));
   py "Total subcategories with 0 or 1 videos: " ++ str_of_N (total_low_count results)].

Definition report_lines (results : dict data) : list str :=
  heading_lines ++ (results ≫= block_lines) ++ summary_lines results.

Definition unlines (lines : list str) : str :=
  concat ((fun l => l ++ [10]) <$> lines).

(** The texts that the calls of [f.write] are given, when each of them
    can be made. *)
Definition block_texts (kv : str * data) : list str :=
  [py "CATEGORY: " ++ kv.1 ++ [10];
   py "Total subcategories: " ++ str_of_N (total_subcategories kv.2) ++ [10];
   py "Low count subcategories: " ++ str_of_N (low_count_total kv.2) ++ [10];
   repeat 45 40 ++ [10]]
  ++ (subcategory_line <$> low_count_subcategories kv.2)
  ++ [[10]].

Definition report_texts (results : dict data) : list str :=
  [py "CATEGORIES AND SUBCATEGORIES WITH 0 OR 1 VIDEO COUNTS" ++ [10];
   repeat 61 60 ++ [10; 10]]
  ++ (results ≫= block_texts)
  ++ [py "SUMMARY" ++ [10];
      repeat 61 20 ++ [10];
      py "Total categories analyzed: " ++ str_of_N (N.of_nat (length results)) ++ [10];
      py "Categories with low count subcategories: "
      ++ str_of_N (N.of_nat (length results)) ++ [10];
      py "Total subcategories with 0 or 1 videos: "
      ++ str_of_N (total_low_count results) ++ [10]].

(** Names that the line format can carry: a name is not empty, has no
    white space at either end, holds no line end and not the text that
    the parser looks for, and can be encoded; a count is not negative
    and within the limit of the interpreter. *)
Definition one_line (s : str) : bool :=
  forallb (fun c => negb ((c =? 10) || (c =? 13))) s.

Definition trimmed (s : str) : bool :=
  match s with [] => false | c :: _ => negb (isspace c) end
  && match last s with Some c => negb (isspace c) | None => false end.

Definition plain_category (s : str) : bool :=
  trimmed s && one_line s && negb (contains (py "CATEGORY:") s) && encodable s.

Definition plain_subcategory (s : subcategory) : bool :=
  trimmed (name s) && one_line (name s) && negb (contains (py "(Count:") (name s))
  && (0 <=? video_count s)%Z && encodable (name s) && printable (video_count s).

(** The totals of a category are within the limit. *)
Definition plain_totals (d : data) : bool :=
  printable (Z.of_N (total_subcategories d)) && printable (Z.of_N (low_count_total d)).

Definition plain_results (results : dict data) : Prop :=
  NoDup (keys results)
  ∧ Forall (fun kv => plain_category kv.1
                      ∧ Forall (fun s => plain_subcategory s) (low_count_subcategories kv.2))
      results
  ∧ Forall (fun kv => plain_totals kv.2) results.

(** The text ends with something else than white space and does not
    hold the opening of a count. *)
Definition no_count (m : str) : Prop :=
  (m = [] ∨ exists m0 z, m = m0 ++ [z] ∧ isspace z = false)
  ∧ forallb Re.dot m = true
  ∧ contains (py "(Count:") m = false.

(** [t] and [p] differ at a place that both have. *)
Fixpoint mismatch (t p : str) : bool :=
  match t, p with
  | a :: t', b :: p' => negb (a =? b) || mismatch t' p'
  | _, _ => false
  end.

End Report.

(** ** The URLs of a list of records *)

Module Urls.

Import simple_scraper.

(** The non-empty URLs of a list of records, in order. *)
Definition nonempty_urls (l : list (dict pyval)) : list pyval :=
  filter (fun v : pyval => truthy v) (url_of <$> l).

(** The records without a URL, in order. *)
Definition without_url (l : list (dict pyval)) : list (dict pyval) :=
  filter (fun r : dict pyval => ¬ truthy (url_of r)) l.

End Urls.

Import Urls.

(** ** Inputs of the scenarios of the specification *)

Module Scenario.

(** A record that has a URL and nothing else. *)
Definition url_record (u : string) : dict pyval := [(py "video_url", PStr (py u))].

(** A record as the item loop appends it. *)
Definition full_record (u p : string) (i : Z) : dict pyval :=
  [(py "video_url", PStr (py u)); (py "prompt", PStr (py p));
   (py "figure_index", PInt i); (py "figure_id", PNone)].

(** Scenario E: [{url:"u1"},{url:"u1"},{url:""},{url:""}]. *)
Definition scenario_E : list (dict pyval) :=
  [url_record "u1"; url_record "u1"; url_record ""; url_record ""].

(** Two items whose URL is the same placeholder token. *)
Definition same_placeholder_twice : list (dict pyval) :=
  [url_record "placeholder_video_1"; url_record "placeholder_video_1"].

Definition empty_fs : filesystem := {| dirs := ∅; files := ∅ |}.

(** A record of the image scraper. *)
Definition image_record : dict pyval :=
  [(py "image_url", PStr (py "https://cdn/i.png")); (py "prompt", PStr (py "a cat"));
   (py "figure_index", PInt 1); (py "figure_id", PStr (py "abcdef12"))].

(** A catalog index with two subsections, and the analysis of the
    record file of the first one only. *)
Definition catalog_entry (name link : string) (count : Z) : json :=
  JObj [(py "name", JStr (py name)); (py "link", JStr (py link));
        (py "video_count", JNum count)].

Definition two_entries : list json :=
  [catalog_entry "A" "https://site/a" 5; catalog_entry "B" "https://site/b" 7].

Definition catalog : json :=
  JObj [(py "category_name", JStr (py "Cat")); (py "sub_categories", JArr two_entries)].

Definition catalog_fs : filesystem :=
  {| dirs := {[py "Cat"]}; files := {[py "Cat/metadata.json" := JsonFile catalog]} |}.

Definition analysis_of_A : metadata_updater.analysis :=
  {| metadata_updater.video_count := 3;
     metadata_updater.subcategory_path := py "A";
     metadata_updater.category_path := py "Cat" |}.

(** An analysis with two categories, and one whose only subcategory
    has the text of a count in its name. *)
Definition low_count (name : string) (count : Z) : low_video_count_analysis.subcategory :=
  {| low_video_count_analysis.name := py name;
     low_video_count_analysis.video_count := count;
     low_video_count_analysis.link := py "https://site/x" |}.

Definition low_counts : dict low_video_count_analysis.data :=
  [(py "Effects",
    {| low_video_count_analysis.total_subcategories := 12;
       low_video_count_analysis.low_count_subcategories :=
         [low_count "Zoom In" 0; low_count "Raven Transition" 1];
       low_video_count_analysis.low_count_total := 2 |});
   (py "Camera Control",
    {| low_video_count_analysis.total_subcategories := 3;
       low_video_count_analysis.low_count_subcategories := [low_count "Dolly (slow)" 1];
       low_video_count_analysis.low_count_total := 1 |})].

Definition remix_counts : dict low_video_count_analysis.data :=
  [(py "Effects",
    {| low_video_count_analysis.total_subcategories := 4;
       low_video_count_analysis.low_count_subcategories :=
         [low_count "Intro (Count: 5) remix" 0];
       low_video_count_analysis.low_count_total := 1 |})].

End Scenario.

(** ** The classification of a subsection, in the words of the
       specification *)

Module Classification.

Import auto_scraper.

(** What there is at the path of a record file. *)
Inductive record_file :=
| NoRecordFile
| Unparsable
| Parsed (j : json).

Definition record_file_at (fs : filesystem) (p : str) : record_file :=
  match files fs !! p with
  | Some (JsonFile j) => Parsed j
  | Some _ => Unparsable
  | None => if bool_decide (p ∈ dirs fs) then Unparsable else NoRecordFile
  end.

(** "[missing] (no record file) | [empty] (0 records) | [single_item]
    (1-2 records) | [invalid] (unparsable record file) | [populated]
    (>2 records)", with the count each status is reported with. *)
Definition classify (f : record_file) : status * nat :=
  match f with
  | NoRecordFile => (missing, 0%nat)
  | Unparsable => (invalid, 0%nat)
  | Parsed (JArr records) =>
      match length records with
      | 0%nat => (empty, 0%nat)
      | 1%nat | 2%nat => (single_item, length records)
      | _ => (populated, length records)
      end
  | Parsed _ => (invalid, 0%nat)
  end.

End Classification.

(** ** What a write to the catalog preserves *)

Module CatalogWrite.

Import metadata_updater.

(** The object [o'] has the fields of [o], in the same places and with
    the same values, except for the value of [key], which goes last if
    [o] does not have it. *)
Definition same_fields_but (key : str) (o o' : dict json) : Prop :=
  (forall k, k ≠ key -> dict_get o' k = dict_get o k)
  ∧ (keys o' = if bool_decide (key ∈ keys o) then keys o else keys o ++ [key]).

(** An analysis is for the entry of this name when its subsection has
    the name, or has it once the spaces of both are removed. *)
Definition same_name (name key : str) : bool :=
  bool_decide (key = name)
  || bool_decide (replace (py " ") [] key = replace (py " ") [] name).

Definition is_for (name : str) (a : analysis) : bool :=
  same_name name (subcategory_path a).

(** The matching analysis of an entry: the first of the analyses that is
    for its name tells the subsection, and the last analysis of that
    subsection is the one that counts. *)
Definition analysis_for (video_analyses : list analysis) (name : str) : option analysis :=
  match head (filter (fun a => is_for name a) video_analyses) with
  | None => None
  | Some first =>
      last (filter (fun a => subcategory_path a = subcategory_path first) video_analyses)
  end.

(** The count that an entry of this name is given: that of its matching
    analysis, and 0 when it has none. *)
Definition count_for (video_analyses : list analysis) (name : json) : Z :=
  match name with
  | JStr t =>
      match analysis_for video_analyses t with
      | Some a => video_count a
      | None => 0%Z
      end
  | _ => 0%Z
  end.

(** The entry [e'] is the entry [e] with its count written. *)
Definition count_written (video_analyses : list analysis) (e e' : json) : Prop :=
  exists (fields fields' : dict json) (name : json),
    e = JObj fields ∧ e' = JObj fields'
    ∧ same_fields_but (py "video_count") fields fields'
    ∧ dict_get fields (py "name") = Some name
    ∧ dict_get fields' (py "video_count")
      = Some (JNum (count_for video_analyses name)).

End CatalogWrite.

(** ** What a piece of code does to the records and to the log *)

Module Effects.

(** The code returns, whatever the state: it does not raise. *)
Definition returns {S A} (m : M S A) : Prop :=
  forall s, exists a s', m s = (Returned a, s').

(** The lines of the log among the events. *)
Definition log_lines (hist : list event) : list log_line :=
  omap (fun ev => match ev with Logged l => Some l | Called _ _ => None end) hist.

(** The code appends no record and logs nothing. *)
Definition silent {A} (m : M dstate A) : Prop :=
  forall s,
    videos_data (m s).2 = videos_data s
    ∧ log_lines (history (m s).2) = log_lines (history s).

(** The items that were opened, and the attempts that were made. *)
Definition clicked_items (hist : list event) : list nat :=
  omap (fun l => match l with Clicked i => Some i | Attempt _ => None end) (log_lines hist).

Definition attempts (hist : list event) : list nat :=
  omap (fun l => match l with Attempt n => Some n | Clicked _ => None end) (log_lines hist).

(** What an extractor hands back is [None] or a dictionary with the
    URL and the prompt, in this order. *)
Definition url_and_prompt (url_key : str) (r : option (dict pyval)) : Prop :=
  match r with
  | None => True
  | Some d => exists u p, d = [(url_key, u); (py "prompt", p)]
  end.

(** Every value that the code returns satisfies [Q]. *)
Definition yields {S A} (m : M S A) (Q : A -> Prop) : Prop :=
  forall s a s', m s = (Returned a, s') -> Q a.

(** The record of an opened item: the URL, the prompt, the position of
    the item and the identifier of its figure, in this order. *)
Definition record_of (url_key : str) (url prompt : pyval) (index : nat)
    (figure_id : option str) : dict pyval :=
  [(url_key, url); (py "prompt", prompt);
   (py "figure_index", PInt (Z.of_nat index));
   (py "figure_id", Cycle.pyval_of figure_id)].

(** "Either a real extraction or a synthesized placeholder": the URL of
    the record of an item that a click has opened.  It is the URL that
    the detail view gave; without one, the URL that the figure shows;
    without either, a placeholder made of the identifier of the figure
    or, without one, of the position of the item. *)
Definition placeholder_url (placeholder_prefix : str) (figure_id : option str)
    (index : nat) : pyval :=
  PStr (placeholder_prefix ++ match figure_id with
                              | Some (c :: id) => c :: id
                              | _ => str_of_N (N.of_nat index)
                              end).

Definition record_url (url_key placeholder_prefix : str)
    (extracted_data : option (dict pyval)) (figure_url figure_id : option str)
    (index : nat) : pyval :=
  let extracted := match extracted_data with
                   | Some d => default PNone (dict_get d url_key)
                   | None => PNone
                   end in
  if truthy extracted then extracted
  else match figure_url with
       | Some (c :: u) => PStr (c :: u)
       | _ => placeholder_url placeholder_prefix figure_id index
       end.

(** Its prompt: the one that the detail view gave, when it gave a
    prompt or a URL, and the text "No prompt found" otherwise. *)
Definition record_prompt (url_key : str) (extracted_data : option (dict pyval)) : pyval :=
  match extracted_data with
  | Some d =>
      if truthy (default PNone (dict_get d (py "prompt")))
         || truthy (default PNone (dict_get d url_key))
      then default (PStr (py "No prompt found")) (dict_get d (py "prompt"))
      else PStr (py "No prompt found")
  | None => PStr (py "No prompt found")
  end.

(** The record of an item that shows its URL, an address that starts
    with "http": it keeps this URL. *)
Definition shown_record (url_key : str) (index : nat) (r : dict pyval) : Prop :=
  exists figure_url prompt figure_id,
    startswith (py "http") figure_url = true
    ∧ r = record_of url_key (PStr figure_url) prompt index figure_id.

(** The record of an item that was opened for its URL: it is made of
    what an extraction has returned, [extract] being the extraction
    with its retries, and of the URL and the identifier of a figure. *)
Definition extracted_record (url_key placeholder_prefix : str)
    (extract : element -> M dstate (option (dict pyval))) (index : nat)
    (r : dict pyval) : Prop :=
  exists link s extracted_data s' figure_url figure_id,
    extract link s = (Returned extracted_data, s')
    ∧ r = record_of url_key
            (record_url url_key placeholder_prefix extracted_data figure_url figure_id index)
            (record_prompt url_key extracted_data) index figure_id.

(** The record of an opened item is one or the other.  The two hold the
    position of the item, which the two may count differently. *)
Definition item_record (url_key placeholder_prefix : str)
    (extract : element -> M dstate (option (dict pyval)))
    (shown_index extracted_index : nat) (r : dict pyval) : Prop :=
  shown_record url_key shown_index r
  ∨ extracted_record url_key placeholder_prefix extract extracted_index r.

(** The records of the two scrapers.  A record of the image scraper
    holds the position of its item as the log has it, counted from the
    start of the page, when the item shows its URL, and counted from
    the other end when it was opened for its URL. *)
Definition video_record (page : browser) (index : nat) (r : dict pyval) : Prop :=
  item_record (py "video_url") (py "placeholder_video_")
    (simple_scraper.retry_for_unique page) index index r.

Definition image_record (page : browser) (srcset_best background_url : str -> option str)
    (U : unicode_db) (total index : nat) (r : dict pyval) : Prop :=
  item_record (py "image_url") (py "placeholder_image_")
    (image_scraper.retry_for_unique page srcset_best background_url U)
    index (total + 1 - index) r.

(** From one state to another: nothing new ([same]); one record more,
    which is as [Q] says ([recorded]); one such record more for an item
    newly opened ([one_more]). *)
Definition same (s s' : dstate) : Prop :=
  videos_data s' = videos_data s
  ∧ clicked_items (history s') = clicked_items (history s).

Definition recorded (Q : dict pyval -> Prop) (s s' : dstate) : Prop :=
  (exists r, Q r ∧ videos_data s' = videos_data s ++ [r])
  ∧ clicked_items (history s') = clicked_items (history s).

Definition one_more (Q : dict pyval -> Prop) (index : nat) (s s' : dstate) : Prop :=
  (exists r, Q r ∧ videos_data s' = videos_data s ++ [r])
  ∧ clicked_items (history s') = clicked_items (history s) ++ [index].

(** The code takes every state to one that is so related to it,
    whether it returns or raises. *)
Definition always {A} (R : dstate -> dstate -> Prop) (m : M dstate A) : Prop :=
  forall s, R s (m s).2.

(** The code of one item: no record and no opening, or one of each. *)
Definition item_effect {A} (Q : dict pyval -> Prop) (index : nat) (m : M dstate A)
    : Prop :=
  always (fun s s' => same s s' ∨ one_more Q index s s') m.

(** A click: it returns whether the item was opened, and logs it. *)
Definition opens (index : nat) (m : M dstate bool) : Prop :=
  forall s, exists b s',
    m s = (Returned b, s')
    ∧ videos_data s' = videos_data s
    ∧ clicked_items (history s')
      = clicked_items (history s) ++ (if b then [index] else []).

(** A part of an item that says whether it has dealt with it: if not,
    nothing has changed. *)
Definition block_effect (Q : dict pyval -> Prop) (index : nat) (m : M dstate bool)
    : Prop :=
  forall s,
    match (m s).1 with
    | Returned false => same s (m s).2
    | _ => same s (m s).2 ∨ one_more Q index s (m s).2
    end.

(** Every item of the [N] was opened. *)
Definition all_opened (N : nat) (hist : list event) : Prop :=
  forall i, (1 <= i <= N)%nat -> i ∈ clicked_items hist.

(** A page on which an item can be opened at any time: the link of a
    figure is found, the scripts that scroll to a figure and that show
    the action answer, and the click by the mouse goes through. *)
Definition can_open (page : browser) : Prop :=
  forall hist,
    (forall figure, exists link,
        page hist (FindElement (Some figure) CSS_SELECTOR (py "a")) = Elem link)
    ∧ (forall figure, page hist (ExecuteScript ScrollIntoView [figure]) = Done)
    ∧ page hist (ExecuteScript AddActionIndicator []) = Done
    ∧ (forall link, page hist (ActionClick link) = Done).

(** A page on which every call raises, and a page on which the popup is
    found and every other call raises. *)
Definition dead_page : browser := fun _ _ => Raises WebDriverException.

(** A page on which every call succeeds: elements are found, attributes
    are not set, texts are empty. *)
Definition plain_page : browser :=
  fun _ c =>
    match c with
    | FindElement _ _ _ | WaitPresence _ _ | WaitFind _ _ _ => Elem 1
    | FindElements _ _ _ => Elems []
    | GetAttribute _ _ => Str None
    | Text _ | TagName _ => Str (Some [])
    | IsDisplayed _ | IsEnabled _ => Flag true
    | GetWindowSize => Size 800 600
    | ExecuteScript ScrollHeight _ => Num 1000
    | _ => Done
    end.

Definition empty_popup_page : browser :=
  fun _ c =>
    match c with
    | WaitPresence _ _ => Elem 0
    | _ => Raises WebDriverException
    end.

End Effects.

(** ** Scrolling, in the words of the specification *)

Module Scrolling.

(** A page that answers every call and whose height at the [k]-th
    reading is [h k]: [h 0] before the first scroll, [h k] after the
    [k]-th. *)
Definition is_height_reading (ev : event) : bool :=
  match ev with
  | Called (ExecuteScript ScrollHeight _) _ => true
  | _ => false
  end.

Definition heights_read (hist : list event) : nat :=
  length (List.filter is_height_reading hist).

Definition height_page (h : nat -> Z) : browser :=
  fun hist c =>
    match c with
    | ExecuteScript ScrollHeight _ => Num (h (heights_read hist))
    | _ => Done
    end.

(** The scroll attempts of a run: the scrolls to the bottom. *)
Definition is_scroll_to_bottom (ev : event) : bool :=
  match ev with
  | Called (ExecuteScript ScrollToBottom _) _ => true
  | _ => false
  end.

Definition scroll_attempts (hist : list event) : nat :=
  length (List.filter is_scroll_to_bottom hist).

(** The last movement of the page is the scroll back to the top. *)
Definition moves_page (ev : event) : bool :=
  match ev with
  | Called (ExecuteScript ScrollToBottom _) _
  | Called (ExecuteScript ScrollToTop _) _
  | Called (ExecuteScript ScrollNudge _) _ => true
  | _ => false
  end.

Definition ends_at_top (hist : list event) : Prop :=
  exists a, last (List.filter moves_page hist) = Some (Called (ExecuteScript ScrollToTop []) a).

(** The number of consecutive attempts, up to attempt [n], that left the
    height as it was. *)
Fixpoint unchanged_run (h : nat -> Z) (n : nat) : nat :=
  match n with
  | O => O
  | S m => if (h (S m) =? h m)%Z then S (unchanged_run h m) else O
  end.

(** "Terminate when the extent is unchanged across [need] consecutive
    scroll attempts, or after a hard cap of scroll attempts, whichever
    comes first": the first [n], from [n0] on, that is the cap or ends a
    run of [need] unchanged attempts. *)
Fixpoint stop_from (remaining : nat) (need : nat) (h : nat -> Z) (n0 : nat) : nat :=
  match remaining with
  | O => n0
  | S remaining' =>
      if (need <=? unchanged_run h n0)%nat then n0
      else stop_from remaining' need h (S n0)
  end.

Definition stop_point (cap need : nat) (h : nat -> Z) : nat := stop_from cap need h 0.

Definition start : dstate := {| history := []; videos_data := [] |}.

End Scrolling.

(** ** The claims of the specification that the code does not meet, as
       the specification words them *)

Module AsStated.

Import simple_scraper.

(** "Entries with empty or placeholder URLs are permitted to coexist
    and are never treated as colliding duplicates of each other": every
    record whose URL is empty or a placeholder token survives the pass. *)
Definition is_placeholder (v : pyval) : bool :=
  match v with
  | PStr s => startswith (py "placeholder_") s
  | _ => false
  end.

Definition empty_or_placeholder (video : dict pyval) : Prop :=
  ¬ truthy (url_of video) ∨ is_placeholder (url_of video).

Global Instance empty_or_placeholder_dec video : Decision (empty_or_placeholder video).
Proof. unfold empty_or_placeholder. apply _. Defined.

Definition placeholders_coexist (videos_data : list (dict pyval)) : Prop :=
  filter empty_or_placeholder (unique_videos_of videos_data)
  = filter empty_or_placeholder videos_data.



(** "Updating [item_count] on one subsection entry leaves all sibling
    entries' fields unchanged": every entry but the one of the updated
    subsection is after the update what it was before. *)
Definition siblings_untouched (touched : str) (before after : list json) : Prop :=
  forall (i : nat) (e : json),
    before !! i = Some e ->
    metadata_updater.subscript_name e ≠ Returned (JStr touched) ->
    after !! i = Some e.

(** "Terminate when the extent is unchanged across 3 consecutive scroll
    attempts, or after a hard cap of scroll attempts": what this says of
    the attempts of a run on a page of heights [h]. *)
Definition stops_as_specified (cap : nat) (h : nat -> Z) (run : outcome unit * dstate)
    : Prop :=
  Scrolling.scroll_attempts (history run.2) = Scrolling.stop_point cap 3 h.

(** "Writing the report and then parsing it back is a faithful round
    trip": the parser gives back the categories of [results], each with
    the names and counts of its subcategories. *)
Definition faithful_round_trip (U : unicode_db)
    (results : dict low_video_count_analysis.data) : Prop :=
  forall fs,
    low_video_count_analysis.output_file ∉ dirs fs ->
    (range_scraper.parse_low_video_count_file U low_video_count_analysis.output_file
       (low_video_count_analysis.save_results_to_file results fs).2).1
    = Returned (Report.recovered results).

End AsStated.

(** ** More of the scripts: the catalog index as the scrapers read it *)

Module Catalog.

Import auto_scraper.

(** range_scraper.py, lines 139-144: the loop over the entries.  An
    entry that is not an object has no [get]. *)
Fixpoint url_loop (sub_categories : list json) (subcategory_name : str)
    : outcome (option json) :=
  match sub_categories with
  | [] => Returned None
  | subcategory :: rest =>
      match json_get subcategory (py "name") JNull with
      | Raised e => Raised e
      | Returned name =>
          if match name with
             | JStr t => bool_decide (t = subcategory_name)
             | _ => false
             end
          then
            match json_get subcategory (py "link") (JStr []) with
            | Raised e => Raised e
            | Returned url =>
                if json_truthy url then Returned (Some url)
                else url_loop rest subcategory_name
            end
          else url_loop rest subcategory_name
      end
  end.

(** range_scraper.py, lines 131-151.  [category_metadata] is what
    [load_metadata_for_category] has returned: a loaded index or
    [None]. *)
Definition get_subcategory_url (category_metadata : option json)
    (subcategory_name : str) : option json :=
  match category_metadata with
  | None => None
  | Some metadata =>
      if negb (json_truthy metadata) then None
      else
        match json_get metadata (py "sub_categories") (JArr []) with
        | Raised _ => None
        | Returned sub_categories =>
            match json_iter sub_categories with
            | Raised _ => None
            | Returned entries =>
                match url_loop entries subcategory_name with
                | Returned url => url
                | Raised _ => None
                end
            end
        end
  end.

(** simple_scraper.py, lines 760-776, and range_scraper.py, lines
    1058-1077.  The line of the log takes [len(subcategories)]: a value
    without a length makes the function return the empty list. *)
Definition load_subcategories_from_metadata (category_folder : str)
    : M filesystem json :=
  let metadata_path := path_join category_folder (py "metadata.json") in
  let* fs := get in
  if negb (exists_ metadata_path fs) then ret (JArr [])
  else
    try_except
      (let* data := json_load metadata_path in
       let* subcategories := lift (json_get data (py "sub_categories") (JArr [])) in
       match subcategories with
       | JArr _ | JObj _ | JStr _ => ret subcategories
       | _ => raise TypeError
       end)
      (fun _ => ret (JArr [])).

End Catalog.

(** ** More of metadata_updater.py: the analysis of a record file *)

Module Analysis.

Import metadata_updater.

(** The parts of a path as [pathlib] sees them: empty parts and [.]
    are left out. *)
Definition path_parts (p : str) : list str :=
  List.filter (fun part => negb (bool_decide (part = [])) && negb (bool_decide (part = py ".")))
    (split_on 47 p).

(** [Path(p).parent.name] and [Path(p).parent.parent.name] *)
Definition parent_name (p : str) : str :=
  match rev (path_parts p) with
  | _ :: name :: _ => name
  | _ => []
  end.

Definition grandparent_name (p : str) : str :=
  match rev (path_parts p) with
  | _ :: _ :: name :: _ => name
  | _ => []
  end.

(** Lines 60-100.  [None] stands for the empty dictionary that is
    returned for a file that cannot be read or is not a list. *)
Definition analyze_videos_json (videos_json_path : str) : M filesystem (option analysis) :=
  try_except
    (let* videos_data := json_load videos_json_path in
     match videos_data with
     | JArr videos =>
         ret (Some {| video_count := Z.of_nat (length videos);
                      subcategory_path := parent_name videos_json_path;
                      category_path := grandparent_name videos_json_path |})
     | _ => ret None
     end)
    (fun _ => ret None).

End Analysis.

(** ** More of auto_scraper.py: a subsection scraped with retries *)

Module Retry.

Section Retry.

(** The scraper that the automated scraper inherits, on any state [St]:
    [self.scrape_single_subcategory(url)], [self.save_videos_data(videos,
    name)], and the name [f"{category}_{subcategory}"] of an entry. *)
Context {St : Type}.
Variable scrape_single_subcategory : json -> M St (list (dict pyval)).
Variable save_videos_data : list (dict pyval) -> str -> M St unit.
Variable category_name_of : auto_scraper.worklist_entry -> str.

(** Lines 214-239: the loop over the attempts that are left; [attempt]
    counts from 0. *)
Fixpoint attempts_loop (subcategory_info : auto_scraper.worklist_entry)
    (max_retries : Z) (attempts_left : nat) (attempt : Z) : M St bool :=
  match attempts_left with
  | O => ret false
  | S attempts_left' =>
      let* tried :=
        try_except
          (let* videos_data := scrape_single_subcategory (auto_scraper.url subcategory_info) in
           if negb (bool_decide (videos_data = [])) then
             save_videos_data videos_data (category_name_of subcategory_info) ;;
             ret (Some true)
           else ret (Some false))
          (fun _ => if (attempt <? max_retries)%Z then ret None else ret (Some false)) in
      match tried with
      | Some result => ret result
      | None => attempts_loop subcategory_info max_retries attempts_left' (attempt + 1)
      end
  end.

(** Lines 208-241. *)
Definition scrape_subcategory_with_retry (subcategory_info : auto_scraper.worklist_entry)
    (max_retries : Z) : M St bool :=
  attempts_loop subcategory_info max_retries (Z.to_nat (max_retries + 1)) 0.

End Retry.

End Retry.

(** ** What the scan of auto_scraper.py does to its worklist *)

Module Scan.

Import auto_scraper.

(** An entry as the scan of the directory [root_dir] lists it. *)
Definition listed (root_dir : str) (e : worklist_entry) : Prop :=
  entry_status e ≠ populated
  ∧ json_truthy (url e) = true
  ∧ path e = path_join root_dir (subcategory e).

(** The scan has left the files alone and has only added entries. *)
Definition scanned (root_dir : str) (s s' : scan_state) : Prop :=
  scan_fs s' = scan_fs s
  ∧ exists new, missing_subcategories s' = missing_subcategories s ++ new
                ∧ Forall (listed root_dir) new.

End Scan.

(* ===================================================================== *)
(** * Part II: properties                                                *)
(* ===================================================================== *)

(** ** The monad of stateful code that may raise *)

Section Monad.

Context {S : Type}.

Lemma bind_returned {A B} (m : M S A) (k : A -> M S B) s b s' :
  bind m k s = (Returned b, s') ->
  exists a s1, m s = (Returned a, s1) /\ k a s1 = (Returned b, s').
Proof.
  unfold bind. destruct (m s) as [[a|e] s1]; [eauto|discriminate].
Qed.

Lemma bind_ret_l {A B} (a : A) (k : A -> M S B) s : bind (ret a) k s = k a s.
Proof. reflexivity. Qed.

Lemma bind_assoc {A B C} (m : M S A) (f : A -> M S B) (g : B -> M S C) s :
  bind (bind m f) g s = bind m (fun x => bind (f x) g) s.
Proof. unfold bind. by destruct (m s) as [[a|e] s1]. Qed.

End Monad.

(** ** The record store: deduplication (simple_scraper.py, range_scraper.py) *)

Section Dedup.

Import simple_scraper Urls.

Lemma nonempty_urls_app l k :
  nonempty_urls (l ++ k) = nonempty_urls l ++ nonempty_urls k.
Proof. unfold nonempty_urls. by rewrite fmap_app, filter_app. Qed.

Lemma elem_of_nonempty_urls v l :
  v ∈ nonempty_urls l ↔ truthy v ∧ v ∈ url_of <$> l.
Proof. unfold nonempty_urls. by rewrite list_elem_of_filter. Qed.

Lemma nonempty_urls_snoc_truthy l r :
  truthy (url_of r) → nonempty_urls (l ++ [r]) = nonempty_urls l ++ [url_of r].
Proof.
  intros Hr. rewrite nonempty_urls_app. f_equal.
  unfold nonempty_urls. simpl. by rewrite filter_cons_True.
Qed.

Lemma nonempty_urls_snoc_falsy l r :
  ¬ truthy (url_of r) → nonempty_urls (l ++ [r]) = nonempty_urls l.
Proof.
  intros Hr. rewrite nonempty_urls_app.
  unfold nonempty_urls at 2. simpl. rewrite filter_cons_False by done.
  by rewrite filter_nil, app_nil_r.
Qed.

(** The loop invariant: [seen_urls] holds the non-empty URLs kept so
    far, and these are pairwise distinct. *)
Lemma dedup_loop_spec videos : forall seen acc,
  (forall v, v ∈ seen ↔ v ∈ nonempty_urls acc) ->
  NoDup (nonempty_urls acc) ->
  exists kept,
    dedup_loop videos seen acc = acc ++ kept
    /\ kept `sublist_of` videos
    /\ NoDup (nonempty_urls (acc ++ kept))
    /\ (forall v, v ∈ nonempty_urls videos -> v ∈ nonempty_urls (acc ++ kept))
    /\ without_url kept = without_url videos.
Proof.
  induction videos as [|video rest IH]; intros seen acc Hseen Hnd; simpl.
  - exists []. rewrite app_nil_r. repeat split; try done.
    intros v Hv. by apply elem_of_nil in Hv.
  - destruct (truthy (url_of video)) eqn:Ht; simpl.
    + case_bool_decide as Hin; simpl.
      * destruct (IH ({[url_of video]} ∪ seen) (acc ++ [video])) as (kept & E & Hsub & Hnd' & Hall & Hwo).
        { intros v. rewrite nonempty_urls_snoc_truthy by by rewrite Ht.
          rewrite elem_of_union, elem_of_singleton, elem_of_app, list_elem_of_singleton.
          rewrite Hseen. tauto. }
        { rewrite nonempty_urls_snoc_truthy by by rewrite Ht.
          apply NoDup_app. split_and!; [done| |apply NoDup_singleton].
          intros v Hv ->%list_elem_of_singleton. by apply Hin, Hseen. }
        exists (video :: kept). rewrite <- app_assoc in *. simpl in *.
        split_and!; [done|by apply sublist_skip|done| |].
        -- intros v Hv. apply elem_of_nonempty_urls in Hv as [Hv1 Hv2].
           rewrite fmap_cons in Hv2. apply elem_of_cons in Hv2 as [->|Hv2].
           ++ apply elem_of_nonempty_urls. split; [done|].
              rewrite fmap_app, fmap_cons, elem_of_app. right. by left.
           ++ apply Hall, elem_of_nonempty_urls. done.
        -- unfold without_url in *. rewrite !filter_cons_False; [done|..];
             rewrite Ht; simpl; tauto.
      * destruct (IH seen acc Hseen Hnd) as (kept & E & Hsub & Hnd' & Hall & Hwo).
        exists kept. split_and!; [done|by apply sublist_cons|done| |].
        -- intros v Hv. apply elem_of_nonempty_urls in Hv as [Hv1 Hv2].
           rewrite fmap_cons in Hv2. apply elem_of_cons in Hv2 as [->|Hv2].
           ++ rewrite nonempty_urls_app. apply elem_of_app. left.
              by apply Hseen.
           ++ apply Hall, elem_of_nonempty_urls. done.
        -- unfold without_url in *. rewrite filter_cons_False; [done|].
           rewrite Ht; simpl; tauto.
    + destruct (IH seen (acc ++ [video])) as (kept & E & Hsub & Hnd' & Hall & Hwo).
      { intros v. rewrite nonempty_urls_snoc_falsy; [done|]. rewrite Ht. exact id. }
      { rewrite nonempty_urls_snoc_falsy; [done|]. rewrite Ht. exact id. }
      exists (video :: kept). rewrite <- app_assoc in *. simpl in *.
      split_and!; [done|by apply sublist_skip|done| |].
      * intros v Hv. apply elem_of_nonempty_urls in Hv as [Hv1 Hv2].
        rewrite fmap_cons in Hv2. apply elem_of_cons in Hv2 as [->|Hv2].
        -- by rewrite Ht in Hv1.
        -- apply Hall, elem_of_nonempty_urls. done.
      * unfold without_url in *. rewrite !filter_cons_True; [by f_equal|..];
          rewrite Ht; exact id.
Qed.

End Dedup.

(** The stripped record has the URL of the record it comes from. *)
Lemma dict_get_filtered_video (r : dict pyval) k :
  k ∉ simple_scraper.provenance_keys ->
  dict_get (simple_scraper.filtered_video r) k = dict_get r k.
Proof.
  intros Hk. unfold simple_scraper.filtered_video.
  induction r as [|[k' v] r IH]; [done|].
  rewrite filter_cons. simpl. destruct (decide _) as [Hin|Hin]; simpl;
    case_bool_decide as E; subst; done.
Qed.

Lemma url_of_filtered_video r :
  simple_scraper.url_of (simple_scraper.filtered_video r) = simple_scraper.url_of r.
Proof.
  unfold simple_scraper.url_of, get_default.
  rewrite dict_get_filtered_video; [done|]. compute_done.
Qed.


(** ** [sorted] returns its argument in ascending order *)







(** ** The record store: what a save writes *)

Section Save.

Import simple_scraper.

Variable U : unicode_db.




(** When [writerows] returns, every row has been written. *)
Lemma writerows_returned fieldnames (rows : list (dict pyval)) : forall out,
  writerows fieldnames rows = (out, Returned tt) ->
  out = (fun row => (fun k => csv_cell (dict_get row k)) <$> fieldnames) <$> rows.
Proof.
  induction rows as [|row rows IH]; intros out; cbn [writerows].
  - by intros [= <-].
  - destruct (_ && _); [|done].
    destruct (writerows fieldnames rows) as [out' ending].
    intros [= <- ->]. by rewrite (IH out').
Qed.

(** [writerows] writes every row when no row has a key outside the
    header and every cell can be written. *)
Lemma writerows_all fieldnames (rows : list (dict pyval)) :
  (forall r k, r ∈ rows -> k ∈ keys r -> k ∈ fieldnames) ->
  (forall r k, r ∈ rows -> cell_writable (dict_get r k) = true) ->
  writerows fieldnames rows
  = ((fun row => (fun k => csv_cell (dict_get row k)) <$> fieldnames) <$> rows,
     Returned tt).
Proof.
  induction rows as [|row rows IH]; intros Hk Hw; cbn [writerows]; [done|].
  rewrite (proj2 (forallb_forall _ _)), (proj2 (forallb_forall _ _)).
  - cbn [andb]. rewrite IH; [done| |].
    + intros r k Hr. apply Hk. by right.
    + intros r k Hr. apply Hw. by right.
  - intros k _. apply Hw. by left.
  - intros k Hin. apply bool_decide_eq_true, (Hk row); [by left|].
    by apply list_elem_of_In.
Qed.

Lemma write_file_returned p f fs fs' :
  write_file p f fs = (Returned tt, fs') ->
  files fs' = <[p := f]> (files fs).
Proof.
  unfold write_file, bind, get, raise, modify.
  case_bool_decide; [discriminate|]. by intros [= <-].
Qed.

Lemma json_dump_returned p j fs fs' :
  json_dump p j fs = (Returned tt, fs') ->
  json_writable j = true ∧ files fs' = <[p := JsonFile j]> (files fs).
Proof.
  unfold json_dump. destruct (json_writable j).
  - intros H%write_file_returned. by split.
  - unfold bind, raise. by destruct (write_file p CutFile fs) as [[[]|e] fs1].
Qed.

Lemma write_csv_returned p fieldnames rows fs fs' :
  write_csv p fieldnames rows fs = (Returned tt, fs') ->
  files fs'
  = <[p := CsvFile (fieldnames
                      :: ((fun row => (fun k => csv_cell (dict_get row k)) <$> fieldnames)
                            <$> rows))]> (files fs).
Proof.
  unfold write_csv. destruct (forallb encodable fieldnames); [|done].
  destruct (writerows fieldnames rows) as [out ending] eqn:Hrows.
  unfold bind, lift. destruct (write_file p _ fs) as [[[]|e] fs1] eqn:Hw; [|done].
  intros [= -> <-]. apply write_file_returned in Hw.
  by rewrite (writerows_returned _ _ _ Hrows) in Hw.
Qed.

(** The two files of a subsection have different paths. *)
Lemma path_join_app folder (name : str) :
  startswith (py "/") name = false ->
  exists pre, path_join folder name = pre ++ name
    ∧ forall name', startswith (py "/") name' = false ->
                    path_join folder name' = pre ++ name'.
Proof.
  intros Hn. unfold path_join.
  destruct (bool_decide (folder = [])) eqn:E1; [|destruct (endswith (py "/") folder) eqn:E2].
  - exists []. rewrite Hn. split; [done|]. by intros name' ->.
  - exists folder. rewrite Hn. split; [done|]. by intros name' ->.
  - exists (folder ++ py "/"). rewrite Hn, <- app_assoc. split; [done|].
    intros name' ->. by rewrite <- app_assoc.
Qed.

Lemma json_path_ne_csv_path folder :
  path_join folder (py "videos.json") ≠ path_join folder (py "videos.csv").
Proof.
  destruct (path_join_app folder (py "videos.json")) as (pre & -> & H); [done|].
  rewrite H by done. intros E%app_inv_head. discriminate.
Qed.

End Save.

(** *** Deduplication *)

Section DedupClaims.

Import simple_scraper Scenario AsStated.

Lemma nonempty_urls_filtered l :
  nonempty_urls (filtered_video <$> l) = nonempty_urls l.
Proof.
  unfold nonempty_urls. rewrite <- list_fmap_compose. f_equal.
  apply list_fmap_ext. intros _ r _. apply url_of_filtered_video.
Qed.

(** A record with a URL that the loop keeps is the first record of the
    input with that URL; [processed] are the records that the loop has
    gone through. *)
Lemma dedup_loop_first videos : forall processed seen acc r,
  (forall v, v ∈ seen ↔ v ∈ nonempty_urls processed) ->
  r ∈ dedup_loop videos seen acc ->
  truthy (url_of r) = true ->
  r ∈ acc
  ∨ exists before after,
      videos = before ++ r :: after
      ∧ forall r', r' ∈ processed ++ before -> url_of r' ≠ url_of r.
Proof.
  induction videos as [|video rest IH]; intros processed seen acc r Hseen Hr Ht;
    cbn [dedup_loop] in Hr; [by left|].
  assert (forall seen' acc',
            (forall v, v ∈ seen' ↔ v ∈ nonempty_urls (processed ++ [video])) ->
            r ∈ dedup_loop rest seen' acc' ->
            r ∈ acc'
            ∨ exists before after,
                video :: rest = before ++ r :: after
                ∧ forall r', r' ∈ processed ++ before -> url_of r' ≠ url_of r) as Hrest.
  { intros seen' acc' Hseen' Hr'.
    destruct (IH (processed ++ [video]) seen' acc' r Hseen' Hr' Ht)
      as [?|(before & after & -> & Hb)]; [by left|right].
    exists (video :: before), after. split; [done|].
    intros r' Hr''. apply Hb. by rewrite <- app_assoc. }
  destruct (truthy (url_of video)) eqn:Hv; cbn [andb negb] in Hr.
  - case_bool_decide as Hnew.
    + destruct (Hrest ({[url_of video]} ∪ seen) (acc ++ [video])) as [Hin|?];
        [|done| |by right].
      * intros v. rewrite nonempty_urls_snoc_truthy by by rewrite Hv.
        rewrite elem_of_union, elem_of_singleton, elem_of_app, list_elem_of_singleton.
        rewrite Hseen. tauto.
      * apply elem_of_app in Hin as [?| ->%list_elem_of_singleton]; [by left|right].
        exists [], rest. split; [done|]. rewrite app_nil_r.
        intros r' Hr' E. apply Hnew, Hseen, elem_of_nonempty_urls.
        split; [by rewrite Hv|]. rewrite <- E. apply list_elem_of_fmap. by exists r'.
    + apply (Hrest seen acc); [|done].
      intros v. rewrite nonempty_urls_snoc_truthy by by rewrite Hv.
      rewrite elem_of_app, list_elem_of_singleton, <- Hseen.
      split; [by left|]. intros [?| ->]; [done|].
      done.
  - destruct (Hrest seen (acc ++ [video])) as [Hin|?]; [|done| |by right].
    + intros v. rewrite nonempty_urls_snoc_falsy by (rewrite Hv; exact id). apply Hseen.
    + apply elem_of_app in Hin as [?| ->%list_elem_of_singleton]; [by left|].
      by rewrite Hv in Ht.
Qed.

Lemma unique_videos_of_spec videos_data :
  unique_videos_of videos_data `sublist_of` videos_data
  ∧ NoDup (nonempty_urls (unique_videos_of videos_data))
  ∧ (forall v, v ∈ nonempty_urls (unique_videos_of videos_data)
               ↔ v ∈ nonempty_urls videos_data)
  ∧ without_url (unique_videos_of videos_data) = without_url videos_data.
Proof.
  unfold unique_videos_of.
  destruct (dedup_loop_spec videos_data ∅ []) as (kept & -> & Hsub & Hnd & Hall & Hwo).
  - intros v. split; intros H; [by apply elem_of_empty in H|by apply elem_of_nil in H].
  - constructor.
  - simpl in *. split_and!; try done.
    intros v. split; [|apply Hall].
    intros [Ht Hv]%elem_of_nonempty_urls. apply elem_of_nonempty_urls. split; [done|].
    apply list_elem_of_fmap in Hv as (r & -> & Hr).
    apply list_elem_of_fmap. exists r. split; [done|].
    by eapply elem_of_sublist.
Qed.

(** C1, as amended: the pass keeps records of the input, in the order
    of the input; the persisted non-empty URLs are pairwise distinct
    and are the non-empty URLs of the input; a record with a non-empty
    URL that is kept is the first record of the input with that URL;
    every record without a URL is kept; a placeholder token is a
    non-empty URL like any other.  On the input of scenario E three
    records are left. *)
Theorem dedup_unique_urls_keeps_empty (videos_data : list (dict pyval)) :
  let unique_videos := unique_videos_of videos_data in
  let persisted := filtered_video <$> unique_videos in
  unique_videos `sublist_of` videos_data
  ∧ NoDup (nonempty_urls persisted)
  ∧ (forall v, v ∈ nonempty_urls persisted ↔ v ∈ nonempty_urls videos_data)
  ∧ (forall r, r ∈ unique_videos -> truthy (url_of r) = true ->
       exists before after,
         videos_data = before ++ r :: after
         ∧ forall r', r' ∈ before -> url_of r' ≠ url_of r)
  ∧ without_url unique_videos = without_url videos_data
  ∧ unique_videos_of scenario_E
    = [url_record "u1"; url_record ""; url_record ""].
Proof.
  intros unique_videos persisted. unfold persisted.
  rewrite nonempty_urls_filtered.
  destruct (unique_videos_of_spec videos_data) as (H1 & H2 & H3 & H4).
  split_and!; try done.
  intros r Hr Ht.
  destruct (dedup_loop_first videos_data [] ∅ [] r) as [Hin|H]; try done.
  - intros v. by rewrite elem_of_empty, elem_of_nil.
  - by apply elem_of_nil in Hin.
Qed.

(** C1, as the specification states it, fails: two records with the same
    placeholder URL are treated as duplicates of each other. *)
Lemma same_placeholder_collides : ¬ placeholders_coexist same_placeholder_twice.
Proof.
  unfold placeholders_coexist. intros H.
  apply (f_equal length) in H. vm_compute in H. discriminate.
Qed.

End DedupClaims.

(** *** What a save writes *)

Section SaveClaims.

Import simple_scraper Scenario AsStated.

(** C10: with no records the save returns at once: no directory is
    made and no file is opened, so the file system is as it was. *)
Theorem save_without_records_is_a_no_op (U : unicode_db) (timestamp category_name : str)
    (fs : filesystem) :
  simple_scraper.save_videos_data U [] category_name fs = (Returned tt, fs)
  ∧ range_scraper.save_videos_data U [] category_name fs = (Returned tt, fs)
  ∧ image_scraper.save_images_data timestamp [] category_name fs = (Returned tt, fs).
Proof. done. Qed.

Lemma makedirs_returned p fs fs' :
  makedirs p fs = (Returned tt, fs') ->
  files fs' = files fs.
Proof.
  unfold makedirs, bind, get, raise, modify.
  case_bool_decide; [discriminate|].
  destruct (existsb _ _); [discriminate|]. by intros [= <-].
Qed.




End SaveClaims.

(** *** The classification of a subsection and the worklist *)

Section ClassificationClaims.

Import auto_scraper Classification.

Lemma json_load_eq (p : str) (fs : filesystem) :
  json_load p fs
  = (match files fs !! p with
     | Some (JsonFile j) => Returned j
     | Some _ => Raised ValueError
     | None => Raised OSError
     end, fs).
Proof.
  unfold json_load, bind, get. simpl.
  by destruct (files fs !! p) as [[j|rows|t|]|].
Qed.

Lemma check_videos_json_classify (p : str) (fs : filesystem) :
  check_videos_json p fs = (Returned (classify (record_file_at fs p)), fs).
Proof.
  unfold check_videos_json, bind, get. simpl.
  destruct (exists_ p fs) eqn:Ee; simpl.
  - unfold try_except, bind. rewrite json_load_eq. unfold record_file_at.
    destruct (files fs !! p) as [[j|rows|t|]|] eqn:E; simpl; try done.
    + destruct j as [| | | |l|]; try done.
      destruct l as [|? [|? [|? l]]]; done.
    + unfold exists_ in Ee. rewrite E in Ee.
      rewrite bool_decide_eq_false_2 in Ee by (by intros [? ?]).
      simpl in Ee. by rewrite Ee.
  - unfold exists_ in Ee. apply orb_false_iff in Ee as [E1 E2].
    unfold record_file_at. rewrite E2.
    destruct (files fs !! p) eqn:E; [|done].
    rewrite bool_decide_eq_true_2 in E1 by eauto. done.
Qed.

Lemma needs_scraping_iff (st : status) : needs_scraping st = false ↔ st = populated.
Proof. destruct st; split; intros H; try done; vm_compute in H; done. Qed.

(** An entry of the catalog with a name and a link goes on the worklist
    exactly when its record file is not classified [populated]. *)
Lemma scan_subcategory_appends root_dir cat (fields : dict json) (name : str)
    (link : json) (s : scan_state) :
  dict_get fields (py "name") = Some (JStr name) ->
  dict_get fields (py "link") = Some link ->
  json_truthy link = true ->
  let subcat_path := path_join root_dir name in
  let '(st, count) :=
    classify (record_file_at (scan_fs s) (path_join subcat_path (py "videos.json"))) in
  scan_subcategory root_dir cat (JObj fields) s
  = (Returned tt,
     {| scan_fs := scan_fs s;
        missing_subcategories :=
          missing_subcategories s ++
          (if bool_decide (st = populated) then []
           else [{| category := cat; subcategory := name; url := link;
                    path := subcat_path; entry_status := st;
                    current_count := count |}]) |}).
Proof.
  intros Hname Hlink Ht subcat_path.
  destruct (classify _) as [st count] eqn:Hc.
  unfold scan_subcategory, json_get, get_default, lift, bind.
  rewrite Hname, Hlink. simpl. rewrite Ht. simpl.
  unfold on_fs. fold subcat_path. rewrite check_videos_json_classify, Hc.
  destruct s as [fs ms]. simpl.
  destruct st; simpl; try done.
  unfold ret. by rewrite app_nil_r.
Qed.

(** C3: [check_videos_json] returns the status the specification gives
    for what is at the path of the record file ([missing], [invalid],
    [empty], [single_item] for 1 or 2 records, [populated] beyond), and
    leaves the files alone; with 0, 1, 2 and 3 records the statuses are
    [empty], [single_item], [single_item], [populated]; a status keeps a
    subsection off the worklist exactly when it is [populated], and
    [invalid] is listed as [missing] is: the scan of an entry of the
    catalog that has a name and a link appends the entry to the
    worklist, with its status and count, unless its record file is
    classified [populated], and then it appends nothing. *)
Theorem classification_and_worklist (p : str) (fs : filesystem) (r1 r2 r3 : json) :
  check_videos_json p fs = (Returned (classify (record_file_at fs p)), fs)
  ∧ classify NoRecordFile = (missing, 0%nat)
  ∧ classify Unparsable = (invalid, 0%nat)
  ∧ classify (Parsed (JArr [])) = (empty, 0%nat)
  ∧ classify (Parsed (JArr [r1])) = (single_item, 1%nat)
  ∧ classify (Parsed (JArr [r1; r2])) = (single_item, 2%nat)
  ∧ classify (Parsed (JArr [r1; r2; r3])) = (populated, 3%nat)
  ∧ (forall records, (2 < length records)%nat ->
       classify (Parsed (JArr records)) = (populated, length records))
  ∧ (forall j, (forall records, j ≠ JArr records) -> classify (Parsed j) = (invalid, 0%nat))
  ∧ (forall st, needs_scraping st = false ↔ st = populated)
  ∧ needs_scraping invalid = needs_scraping missing
  ∧ (forall root_dir cat (fields : dict json) (name : str) (link : json) (s : scan_state),
       dict_get fields (py "name") = Some (JStr name) ->
       dict_get fields (py "link") = Some link ->
       json_truthy link = true ->
       let subcat_path := path_join root_dir name in
       let '(st, count) :=
         classify (record_file_at (scan_fs s)
                     (path_join subcat_path (py "videos.json"))) in
       scan_subcategory root_dir cat (JObj fields) s
       = (Returned tt,
          {| scan_fs := scan_fs s;
             missing_subcategories :=
               missing_subcategories s ++
               (if bool_decide (st = populated) then []
                else [{| category := cat; subcategory := name; url := link;
                         path := subcat_path; entry_status := st;
                         current_count := count |}]) |})).
Proof.
  split_and!; try done.
  - apply check_videos_json_classify.
  - intros [|? [|? [|? l]]] Hl; simpl in *; try lia. done.
  - intros [| | | |l|] Hj; try done. by destruct (Hj l).
  - apply needs_scraping_iff.
  - apply scan_subcategory_appends.
Qed.

End ClassificationClaims.

(** *** The write to the catalog index *)

Section CatalogClaims.

Import metadata_updater CatalogWrite Scenario AsStated.

Lemma dict_get_set_eq {V} (d : dict V) k v : dict_get (dict_set d k v) k = Some v.
Proof.
  induction d as [|[k' v'] d IH]; simpl.
  - by rewrite bool_decide_eq_true_2.
  - case_bool_decide as E; simpl; [by rewrite bool_decide_eq_true_2|].
    by rewrite bool_decide_eq_false_2.
Qed.

Lemma dict_get_set_ne {V} (d : dict V) k k' v :
  k' ≠ k -> dict_get (dict_set d k v) k' = dict_get d k'.
Proof.
  intros Hne. induction d as [|[k0 v0] d IH]; simpl.
  - by rewrite bool_decide_eq_false_2.
  - case_bool_decide as E; simpl.
    + subst. by rewrite !bool_decide_eq_false_2.
    + by rewrite IH.
Qed.

Lemma keys_dict_set {V} (d : dict V) k v :
  keys (dict_set d k v) = if bool_decide (k ∈ keys d) then keys d else keys d ++ [k].
Proof.
  unfold keys. induction d as [|[k0 v0] d IH]; [done|].
  cbn [dict_set]. destruct (decide (k0 = k)) as [->|Hne].
  - rewrite bool_decide_eq_true_2 by done. rewrite fmap_cons. simpl.
    rewrite bool_decide_eq_true_2; [done|]. by left.
  - rewrite bool_decide_eq_false_2 by done. rewrite !fmap_cons, IH. simpl.
    destruct (decide (k ∈ d.*1)) as [Hin|Hin].
    + rewrite !bool_decide_eq_true_2; [done|by right|done].
    + rewrite !bool_decide_eq_false_2; [done| |done].
      intros [?|?]%elem_of_cons; [by subst|done].
Qed.

Lemma dict_get_Some_keys {V} (d : dict V) k v : dict_get d k = Some v -> k ∈ keys d.
Proof.
  unfold keys. induction d as [|[k0 v0] d IH]; simpl; [done|].
  case_bool_decide as E; [subst; by left|]. intros H. right. by apply IH.
Qed.

Lemma same_fields_but_set (o : dict json) key v :
  same_fields_but key o (dict_set o key v).
Proof.
  split; [intros k Hk; by apply dict_get_set_ne|apply keys_dict_set].
Qed.

Lemma dict_get_Some_elem {V} (d : dict V) k v : dict_get d k = Some v -> (k, v) ∈ d.
Proof.
  induction d as [|[k0 v0] d IH]; simpl; [done|].
  case_bool_decide as E; [intros [= ->]; subst; by left|]. intros H. right. by apply IH.
Qed.

Lemma elem_of_dict_set {V} (d : dict V) k v k' v' :
  (k', v') ∈ dict_set d k v -> (k', v') ∈ d ∨ v' = v.
Proof.
  induction d as [|[k0 v0] d IH]; simpl.
  - intros ?%list_elem_of_singleton. right. congruence.
  - case_bool_decide as E.
    + intros [?|?]%elem_of_cons; [right; congruence|left; by right].
    + intros [->|?]%elem_of_cons; [left; by left|].
      destruct IH as [?|?]; [done|left; by right|by right].
Qed.

Lemma dict_set_app_l {V} (d1 d2 : dict V) k v :
  k ∈ keys d1 -> dict_set (d1 ++ d2) k v = dict_set d1 k v ++ d2.
Proof.
  unfold keys. induction d1 as [|[k0 v0] d1 IH]; cbn [dict_set app fmap list_fmap].
  - by intros ?%elem_of_nil.
  - case_bool_decide as E; [done|].
    intros [?|Hin]%elem_of_cons; [by subst|]. by rewrite IH.
Qed.

Lemma dict_set_app_r {V} (d1 d2 : dict V) k v :
  k ∉ keys d1 -> dict_set (d1 ++ d2) k v = d1 ++ dict_set d2 k v.
Proof.
  unfold keys. induction d1 as [|[k0 v0] d1 IH]; cbn [dict_set app fmap list_fmap];
    [done|].
  intros [Hne Hin]%not_elem_of_cons.
  rewrite bool_decide_eq_false_2 by done. by rewrite IH.
Qed.

Lemma Forall_keys_dict_set {V} (P : str -> Prop) (d : dict V) k v :
  Forall (fun kv => P kv.1) d -> P k -> Forall (fun kv => P kv.1) (dict_set d k v).
Proof.
  intros Hd Hk. induction Hd as [|[k0 v0] d H0 Hd IH]; cbn [dict_set].
  - by constructor.
  - destruct (bool_decide (k0 = k)); by constructor.
Qed.

(** The key of an analysis is for a name, whatever the analysis. *)
Lemma is_for_path name a b :
  subcategory_path a = subcategory_path b -> is_for name a = is_for name b.
Proof. unfold is_for. by intros ->. Qed.

(** The search of the map: the first key that is for the name. *)
Lemma matching_data_of_found (m1 m2 : dict analysis) k v name :
  Forall (fun kv => same_name name kv.1 = false) m1 ->
  same_name name k = true ->
  matching_data_of (m1 ++ (k, v) :: m2) (JStr name) = Returned (Some v).
Proof.
  intros Hm1 Hk. induction Hm1 as [|[k0 v0] m1 H0 Hm1 IH]; cbn [app matching_data_of].
  - unfold same_name in Hk. by rewrite Hk.
  - cbn [fst] in H0. unfold same_name in H0. by rewrite H0.
Qed.

Lemma matching_data_of_none (m : dict analysis) name :
  Forall (fun kv => same_name name kv.1 = false) m ->
  matching_data_of m (JStr name) = Returned None.
Proof.
  induction 1 as [|[k0 v0] m H0 Hm IH]; cbn [matching_data_of]; [done|].
  cbn [fst] in H0. unfold same_name in H0. by rewrite H0.
Qed.

Lemma last_cons_default {A} (x : A) l : last (x :: l) = Some (default x (last l)).
Proof.
  revert x. induction l as [|y l IH]; intros x; [done|].
  change (last (x :: y :: l)) with (last (y :: l)). rewrite IH.
  by destruct l.
Qed.

(** The map once more analyses have been put into it, when one of its
    keys is for the name already. *)
Lemma video_data_map_found name (l : list analysis) : forall (m1 m2 : dict analysis) k v,
  Forall (fun kv => same_name name kv.1 = false) m1 ->
  same_name name k = true ->
  matching_data_of
    (foldl (fun m a => dict_set m (subcategory_path a) a) (m1 ++ (k, v) :: m2) l)
    (JStr name)
  = Returned (Some (default v (last (filter (fun a => subcategory_path a = k) l)))).
Proof.
  induction l as [|a l IH]; intros m1 m2 k v Hm1 Hk; cbn [foldl].
  - rewrite filter_nil. by apply matching_data_of_found.
  - assert (k ∉ keys m1) as Hfresh.
    { unfold keys. intros ([k' v'] & -> & Hin)%list_elem_of_fmap.
      rewrite Forall_forall in Hm1. specialize (Hm1 _ Hin). cbn [fst] in *. congruence. }
    destruct (decide (subcategory_path a = k)) as [E|E].
    + rewrite filter_cons_True by done. rewrite last_cons_default.
      rewrite dict_set_app_r by by rewrite E. cbn [dict_set].
      rewrite bool_decide_eq_true_2 by done. by rewrite (IH m1 m2 k a).
    + rewrite filter_cons_False by done.
      destruct (decide (subcategory_path a ∈ keys m1)) as [Hin|Hin].
      * rewrite dict_set_app_l by done. apply IH; [|done].
        apply (Forall_keys_dict_set (fun key => same_name name key = false)); [done|].
        unfold keys in Hin. apply list_elem_of_fmap in Hin as ([k' v'] & -> & Hin).
        rewrite Forall_forall in Hm1. apply (Hm1 _ Hin).
      * rewrite dict_set_app_r by done. cbn [dict_set].
        rewrite bool_decide_eq_false_2 by done.
        by apply (IH m1 (dict_set m2 (subcategory_path a) a) k v).
Qed.

Lemma analysis_for_cons_found name a l :
  is_for name a = true ->
  analysis_for (a :: l) name
  = Some (default a (last (filter (fun b => subcategory_path b = subcategory_path a) l))).
Proof.
  intros Ha. unfold analysis_for.
  rewrite filter_cons_True by by rewrite Ha. cbn [head].
  rewrite filter_cons_True by done. apply last_cons_default.
Qed.

Lemma analysis_for_cons_other name a l :
  is_for name a = false -> analysis_for (a :: l) name = analysis_for l name.
Proof.
  intros Ha. unfold analysis_for.
  rewrite filter_cons_False by (rewrite Ha; exact id).
  destruct (head _) as [first|] eqn:Hfirst; [|done].
  rewrite filter_cons_False; [done|]. intros E.
  apply head_Some_elem_of, list_elem_of_filter in Hfirst as [Hfor _].
  rewrite (is_for_path name a first E) in Ha. by rewrite Ha in Hfor.
Qed.

(** The map once more analyses have been put into it, when none of its
    keys is for the name. *)
Lemma video_data_map_none name (l : list analysis) : forall (m : dict analysis),
  Forall (fun kv => same_name name kv.1 = false) m ->
  matching_data_of (foldl (fun m a => dict_set m (subcategory_path a) a) m l) (JStr name)
  = Returned (analysis_for l name).
Proof.
  induction l as [|a l IH]; intros m Hm; cbn [foldl].
  - by apply matching_data_of_none.
  - destruct (is_for name a) eqn:Ha.
    + rewrite analysis_for_cons_found by done.
      assert (subcategory_path a ∉ keys m) as Hfresh.
      { unfold keys. intros ([k' v'] & E & Hin)%list_elem_of_fmap.
        rewrite Forall_forall in Hm. specialize (Hm _ Hin). cbn [fst] in *.
        unfold is_for in Ha. rewrite E in Ha. congruence. }
      rewrite <- (app_nil_r m) at 1. rewrite dict_set_app_r by done. cbn [dict_set].
      by apply (video_data_map_found name l m [] (subcategory_path a) a).
    + rewrite analysis_for_cons_other by done. apply IH.
      by apply (Forall_keys_dict_set (fun key => same_name name key = false)).
Qed.

(** The search of the map of the analyses finds the matching analysis. *)
Lemma matching_data_of_analysis_for video_analyses name :
  matching_data_of (video_data_map_of video_analyses) (JStr name)
  = Returned (analysis_for video_analyses name).
Proof. apply video_data_map_none. constructor. Qed.

Lemma matching_data_of_not_a_name video_analyses name matching_data :
  (forall t, name ≠ JStr t) ->
  matching_data_of (video_data_map_of video_analyses) name = Returned matching_data ->
  matching_data = None.
Proof.
  intros Hname. destruct (video_data_map_of video_analyses) as [|[k v] m];
    cbn [matching_data_of]; [congruence|].
  destruct name; try done. by destruct (Hname s).
Qed.

(** The update of an entry, when it returns. *)
Lemma update_subcategory_eq video_analyses e e' :
  update_subcategory (video_data_map_of video_analyses) e = Returned e' ->
  exists fields name,
    e = JObj fields
    ∧ dict_get fields (py "name") = Some name
    ∧ e' = JObj (dict_set fields (py "video_count")
                   (JNum (count_for video_analyses name))).
Proof.
  unfold update_subcategory, subscript_name.
  destruct e as [| | | | |fields]; try done.
  destruct (dict_get fields (py "name")) as [name|] eqn:Hname; [|done].
  destruct (matching_data_of _ name) as [matching_data|] eqn:Hm; [|done].
  intros [= <-]. exists fields, name. split_and!; [done|done|].
  do 3 f_equal. unfold count_for.
  assert ((exists t, name = JStr t) ∨ forall t, name ≠ JStr t) as [[t ->]|Hname'].
  { destruct name; try (by right); left; by eexists. }
  - rewrite matching_data_of_analysis_for in Hm. by injection Hm as <-.
  - rewrite (matching_data_of_not_a_name video_analyses name matching_data) by done.
    destruct name as [| | |t| |]; try done. by destruct (Hname' t).
Qed.

Lemma update_subcategory_written video_analyses e e' :
  update_subcategory (video_data_map_of video_analyses) e = Returned e' ->
  count_written video_analyses e e'.
Proof.
  intros (fields & name & -> & Hname & ->)%update_subcategory_eq.
  eexists fields, _, name.
  split_and!; [done|done|apply same_fields_but_set|done|apply dict_get_set_eq].
Qed.

Lemma update_subcategories_written video_analyses l : forall l',
  update_subcategories (video_data_map_of video_analyses) l = Returned l' ->
  Forall2 (count_written video_analyses) l l'.
Proof.
  induction l as [|e l IH]; simpl; intros l'.
  - intros [= <-]. constructor.
  - destruct (update_subcategory _ e) as [e'|] eqn:He; [|done].
    destruct (update_subcategories _ l) as [r|]; [|done].
    intros [= <-]. constructor; [by apply update_subcategory_written|by apply IH].
Qed.

(** The ways in which [update_metadata_json] ends: nothing is written;
    or the index is written with its new list of entries; or the index
    cannot be written to its end, and the file is left cut. *)
Lemma update_metadata_json_cases metadata_path video_analyses fs :
  update_metadata_json metadata_path video_analyses fs = (Returned false, fs)
  ∨ exists (o : dict json) (subs subs' : json),
      files fs !! metadata_path = Some (JsonFile (JObj o))
      ∧ dict_get o (py "sub_categories") = Some subs
      ∧ update_sub_categories_value (video_data_map_of video_analyses) subs = Returned subs'
      ∧ (metadata_path ∉ dirs fs)
      ∧ ((json_writable (JObj (dict_set o (py "sub_categories") subs')) = true
          ∧ update_metadata_json metadata_path video_analyses fs
            = (Returned true,
               {| dirs := dirs fs;
                  files := <[metadata_path :=
                               JsonFile (JObj (dict_set o (py "sub_categories") subs'))]>
                             (files fs) |}))
         ∨ (json_writable (JObj (dict_set o (py "sub_categories") subs')) = false
            ∧ update_metadata_json metadata_path video_analyses fs
              = (Returned false,
                 {| dirs := dirs fs;
                    files := <[metadata_path := CutFile]> (files fs) |}))).
Proof.
  unfold update_metadata_json, try_except, bind. rewrite json_load_eq.
  destruct (files fs !! metadata_path) as [[metadata|rows|t|]|] eqn:Hfile;
    try (by left).
  destruct metadata as [|b|z|t|l|o]; try (by left).
  - simpl. destruct (contains _ t); by left.
  - simpl. destruct (existsb _ l); by left.
  - simpl. destruct (dict_get o (py "sub_categories")) as [subs|] eqn:Hsubs;
      [|by left].
    unfold lift.
    destruct (update_sub_categories_value _ subs) as [subs'|] eqn:Hup;
      [|by left].
    unfold json_dump.
    destruct (json_writable (JObj (dict_set o (py "sub_categories") subs'))) eqn:Hw;
      unfold write_file, bind, get, raise, modify; simpl;
      (case_bool_decide; [by left|]); simpl; right; exists o, subs, subs';
      split_and!; try done; [by left|by right].
Qed.

(** The update that succeeds. *)
Lemma update_metadata_json_eq metadata_path video_analyses fs (o : dict json) subs subs' :
  files fs !! metadata_path = Some (JsonFile (JObj o)) ->
  dict_get o (py "sub_categories") = Some subs ->
  update_sub_categories_value (video_data_map_of video_analyses) subs = Returned subs' ->
  metadata_path ∉ dirs fs ->
  json_writable (JObj (dict_set o (py "sub_categories") subs')) = true ->
  update_metadata_json metadata_path video_analyses fs
  = (Returned true,
     {| dirs := dirs fs;
        files := <[metadata_path := JsonFile (JObj (dict_set o (py "sub_categories") subs'))]>
                   (files fs) |}).
Proof.
  intros Hfile Hsubs Hup Hdir Hw.
  destruct (update_metadata_json_cases metadata_path video_analyses fs)
    as [E|(o2 & subs2 & subs2' & Hfile2 & Hsubs2 & Hup2 & _ & H)].
  - exfalso. revert E.
    unfold update_metadata_json, try_except, bind. rewrite json_load_eq, Hfile.
    simpl. rewrite Hsubs. unfold lift. rewrite Hup. unfold json_dump. rewrite Hw.
    unfold write_file, bind, get, raise, modify. simpl.
    by rewrite bool_decide_eq_false_2.
  - rewrite Hfile in Hfile2. injection Hfile2 as <-.
    rewrite Hsubs in Hsubs2. injection Hsubs2 as <-.
    rewrite Hup in Hup2. injection Hup2 as <-.
    destruct H as [[_ E]|[Hw' _]]; [done|congruence].
Qed.

(** What a successful update has read and written. *)
Lemma update_metadata_json_true metadata_path video_analyses fs fs' :
  update_metadata_json metadata_path video_analyses fs = (Returned true, fs') ->
  exists (o : dict json) (subs subs' : json),
    files fs !! metadata_path = Some (JsonFile (JObj o))
    ∧ dict_get o (py "sub_categories") = Some subs
    ∧ update_sub_categories_value (video_data_map_of video_analyses) subs = Returned subs'
    ∧ (metadata_path ∉ dirs fs)
    ∧ json_writable (JObj (dict_set o (py "sub_categories") subs')) = true
    ∧ fs' = {| dirs := dirs fs;
               files := <[metadata_path := JsonFile (JObj (dict_set o (py "sub_categories") subs'))]>
                          (files fs) |}.
Proof.
  intros H.
  destruct (update_metadata_json_cases metadata_path video_analyses fs)
    as [E|(o & subs & subs' & Hfile & Hsubs & Hup & Hdir & [[Hw E]|[Hw E]])];
    rewrite E in H; try done.
  injection H as <-. by exists o, subs, subs'.
Qed.

(** C4, as amended: a successful [update_metadata_json] rewrites the
    catalog index file and nothing else; the index keeps its fields and
    their order, and all their values but the list of entries (which,
    if it is not a list, is empty and stays as it is); the list keeps
    its length and order, and in every entry -- the entries that have
    an analysis and those that have none alike -- the count is written:
    the count of the matching analysis of the entry's name, and 0 when
    no analysis matches; every other field of the entry keeps its place
    and its value. *)
Theorem update_metadata_json_preserves (metadata_path : str)
    (video_analyses : list analysis) (fs fs' : filesystem) :
  update_metadata_json metadata_path video_analyses fs = (Returned true, fs') ->
  exists (o o' : dict json) (subs subs' : json),
    files fs !! metadata_path = Some (JsonFile (JObj o))
    ∧ files fs' = <[metadata_path := JsonFile (JObj o')]> (files fs)
    ∧ dirs fs' = dirs fs
    ∧ keys o' = keys o
    ∧ (forall k, k ≠ py "sub_categories" -> dict_get o' k = dict_get o k)
    ∧ dict_get o (py "sub_categories") = Some subs
    ∧ dict_get o' (py "sub_categories") = Some subs'
    ∧ ((subs' = subs ∧ (subs = JObj [] ∨ subs = JStr []))
       ∨ exists l l', subs = JArr l ∧ subs' = JArr l'
                      ∧ Forall2 (count_written video_analyses) l l').
Proof.
  intros (o & subs & subs' & Hfile & Hsubs & Hup & Hdir & Hw & ->)%update_metadata_json_true.
  exists o, (dict_set o (py "sub_categories") subs'), subs, subs'. simpl.
  split_and!; try done.
  - rewrite keys_dict_set, bool_decide_eq_true_2; [done|].
    by eapply dict_get_Some_keys.
  - intros k Hk. by apply dict_get_set_ne.
  - apply dict_get_set_eq.
  - unfold update_sub_categories_value in Hup.
    destruct subs as [| | |[|]|l|[|]]; try done.
    + left. split; [congruence|by right].
    + destruct (update_subcategories _ l) as [l'|] eqn:Hl; [|done].
      injection Hup as <-. right. exists l, l'. split_and!; [done|done|].
      by apply update_subcategories_written.
    + left. split; [congruence|by left].
Qed.

Lemma update_metadata_json_preserves_witness :
  let fs' := (update_metadata_json (py "Cat/metadata.json") [analysis_of_A] catalog_fs).2 in
  files fs' !! py "Cat/metadata.json"
  = Some (JsonFile (JObj [(py "category_name", JStr (py "Cat"));
                          (py "sub_categories",
                           JArr [catalog_entry "A" "https://site/a" 3;
                                 catalog_entry "B" "https://site/b" 0])]))
  ∧ dirs fs' = dirs catalog_fs.
Proof.
  intros fs'.
  destruct (update_metadata_json_preserves (py "Cat/metadata.json") [analysis_of_A]
              catalog_fs fs') as (o & o' & subs & subs' & _ & _ & Hdirs & _).
  - unfold fs'. destruct (update_metadata_json _ _ _) as [b f] eqn:E.
    assert (b = Returned true) as ->; [|done].
    apply (f_equal fst) in E. vm_compute in E. congruence.
  - split; [|exact Hdirs]. vm_compute. reflexivity.
Defined.

(** C4, as the specification states it, fails: the write for one
    subsection resets the count of a sibling that has no analysis. *)
Lemma sibling_count_is_reset :
  let fs' := (update_metadata_json (py "Cat/metadata.json") [analysis_of_A] catalog_fs).2 in
  exists after,
    files fs' !! py "Cat/metadata.json"
    = Some (JsonFile (JObj [(py "category_name", JStr (py "Cat"));
                            (py "sub_categories", JArr after)]))
    ∧ ¬ siblings_untouched (py "A") two_entries after.
Proof.
  intros fs'. eexists. split; [vm_compute; reflexivity|].
  intros H. specialize (H 1%nat (catalog_entry "B" "https://site/b" 7) eq_refl).
  assert (metadata_updater.subscript_name (catalog_entry "B" "https://site/b" 7)
          ≠ Returned (JStr (py "A"))) as Hne by (vm_compute; congruence).
  specialize (H Hne). vm_compute in H. congruence.
Qed.

End CatalogClaims.

(** *** The scroll loops of the content loader *)

Section ScrollClaims.

Import Scrolling AsStated.

Variable h : nat -> Z.

Lemma bind_execute_script {A} sc args (k : unit -> M dstate A) s :
  bind (execute_script (height_page h) sc args) k s
  = k tt (push s (Called (ExecuteScript sc args)
                    (height_page h (history s) (ExecuteScript sc args)))).
Proof.
  unfold execute_script, expect_done, bind, ask. simpl.
  by destruct sc.
Qed.

Lemma bind_scroll_height {A} (k : Z -> M dstate A) s :
  bind (scroll_height (height_page h)) k s
  = k (h (heights_read (history s)))
      (push s (Called (ExecuteScript ScrollHeight [])
                 (Num (h (heights_read (history s)))))).
Proof. reflexivity. Qed.

Lemma heights_read_push s ev :
  heights_read (history (push s ev))
  = (heights_read (history s) + if is_height_reading ev then 1 else 0)%nat.
Proof.
  unfold heights_read, push. simpl. rewrite List.filter_app, length_app. simpl.
  by destruct (is_height_reading ev).
Qed.

Lemma scroll_attempts_push s ev :
  scroll_attempts (history (push s ev))
  = (scroll_attempts (history s) + if is_scroll_to_bottom ev then 1 else 0)%nat.
Proof.
  unfold scroll_attempts, push. simpl. rewrite List.filter_app, length_app. simpl.
  by destruct (is_scroll_to_bottom ev).
Qed.

(** What [stop_from] returns. *)
Lemma stop_from_spec need : forall remaining n0,
  let n := stop_from remaining need h n0 in
  (n0 <= n <= n0 + remaining)%nat
  ∧ (n = (n0 + remaining)%nat ∨ (need <= unchanged_run h n)%nat)
  ∧ (forall m, (n0 <= m < n)%nat -> (unchanged_run h m < need)%nat).
Proof.
  induction remaining as [|remaining IH]; intros n0; simpl.
  - split; [lia|]. split; [left; lia|intros; lia].
  - destruct (need <=? unchanged_run h n0)%nat eqn:E.
    + apply Nat.leb_le in E. split; [lia|]. split; [by right|intros; lia].
    + apply Nat.leb_gt in E. destruct (IH (S n0)) as (H1 & H2 & H3).
      split; [lia|]. split.
      * destruct H2 as [->|H2]; [left; lia|by right].
      * intros m Hm. destruct (decide (m = n0)) as [->|Hne]; [done|].
        apply H3. lia.
Qed.

(** The loop of the thorough variant, from a state in which [k]
    attempts have been made. *)
Lemma image_scroll_loop_spec : forall remaining s,
  heights_read (history s) = S (scroll_attempts (history s)) ->
  exists s',
    image_scraper.scroll_loop (height_page h) remaining
      (h (scroll_attempts (history s)))
      (unchanged_run h (scroll_attempts (history s))) s
    = (Returned tt, s')
    ∧ scroll_attempts (history s') = stop_from remaining 3 h (scroll_attempts (history s))
    ∧ heights_read (history s') = S (scroll_attempts (history s')).
Proof.
  induction remaining as [|remaining IH]; intros s Hs;
    cbn [image_scraper.scroll_loop stop_from].
  - by exists s.
  - destruct (3 <=? unchanged_run h (scroll_attempts (history s)))%nat eqn:E.
    + rewrite (proj2 (Nat.ltb_ge _ _)) by by apply Nat.leb_le. by exists s.
    + rewrite (proj2 (Nat.ltb_lt _ _)) by by apply Nat.leb_gt.
      unfold image_scraper.indicator.
      rewrite !bind_execute_script, bind_scroll_height.
      set (s1 := push (push s _) _). set (s2 := push s1 _).
      assert (scroll_attempts (history s2) = S (scroll_attempts (history s))) as Hk.
      { unfold s2, s1. rewrite !scroll_attempts_push. simpl. lia. }
      assert (heights_read (history s1) = S (scroll_attempts (history s))) as Hr1.
      { unfold s1. rewrite !heights_read_push. simpl. lia. }
      assert (heights_read (history s2) = S (scroll_attempts (history s2))) as Hr2.
      { rewrite Hk. unfold s2. rewrite heights_read_push, Hr1. simpl. lia. }
      destruct (IH s2 Hr2) as (s' & Hrun & Hn & Hr').
      rewrite Hk in Hrun, Hn. simpl in Hrun. rewrite Hr1.
      exists s'. split_and!; [exact Hrun|exact Hn|exact Hr'].
Qed.

(** The loop of the fast variant, from a state in which [k] attempts
    have been made and the last one has changed the height. *)
Lemma range_scroll_loop_spec : forall remaining s,
  heights_read (history s) = S (scroll_attempts (history s)) ->
  unchanged_run h (scroll_attempts (history s)) = 0%nat ->
  exists s',
    range_scraper.scroll_loop (height_page h) remaining
      (h (scroll_attempts (history s))) s
    = (Returned tt, s')
    ∧ scroll_attempts (history s') = stop_from remaining 1 h (scroll_attempts (history s)).
Proof.
  induction remaining as [|remaining IH]; intros s Hs Hrun0;
    cbn [range_scraper.scroll_loop stop_from].
  - by exists s.
  - rewrite Hrun0. simpl.
    rewrite bind_execute_script, bind_scroll_height.
    set (s1 := push s _). set (s2 := push s1 _).
    assert (scroll_attempts (history s2) = S (scroll_attempts (history s))) as Hk.
    { unfold s2, s1. rewrite !scroll_attempts_push. simpl. lia. }
    assert (heights_read (history s1) = S (scroll_attempts (history s))) as Hr1.
    { unfold s1. rewrite !heights_read_push. simpl. lia. }
    assert (heights_read (history s2) = S (scroll_attempts (history s2))) as Hr2.
    { rewrite Hk. unfold s2. rewrite heights_read_push, Hr1. simpl. lia. }
    rewrite Hr1.
    destruct (h (S (scroll_attempts (history s))) =? h (scroll_attempts (history s)))%Z eqn:E.
    + exists s2. split; [done|]. rewrite Hk.
      destruct remaining; simpl; [done|]. by rewrite E.
    + destruct (IH s2 Hr2) as (s' & Hrun & Hn).
      { rewrite Hk. simpl. by rewrite E. }
      rewrite Hk in Hrun, Hn. exists s'. by split.
Qed.

Lemma bind_eq {S A B} (m : M S A) (k : A -> M S B) s a s' :
  m s = (Returned a, s') -> bind m k s = k a s'.
Proof. unfold bind. by intros ->. Qed.

Lemma ends_at_top_app hist tail a :
  last (List.filter moves_page tail) = Some (Called (ExecuteScript ScrollToTop []) a) ->
  ends_at_top (hist ++ tail).
Proof.
  intros Hl. exists a. by rewrite List.filter_app, last_app, Hl.
Qed.

Lemma image_scroll_spec :
  exists s',
    image_scraper.scroll_to_load_all_content (height_page h) start = (Returned tt, s')
    ∧ scroll_attempts (history s') = stop_point 15 3 h
    ∧ ends_at_top (history s').
Proof.
  unfold image_scraper.scroll_to_load_all_content, try_except, image_scraper.indicator.
  rewrite bind_execute_script, bind_scroll_height, bind_execute_script.
  set (s3 := push (push (push start _) _) _).
  destruct (image_scroll_loop_spec image_scraper.max_scroll_attempts s3)
    as (s4 & Hloop & Hn & _); [done|].
  change (scroll_attempts (history s3)) with 0%nat in Hloop, Hn.
  change (heights_read (history (push start _))) with 0%nat.
  simpl unchanged_run in Hloop.
  rewrite (bind_eq _ _ _ _ _ Hloop).
  cbn [image_scraper.final_waits]. unfold image_scraper.indicator.
  rewrite bind_execute_script.
  repeat (rewrite bind_assoc || rewrite bind_execute_script || rewrite bind_ret_l).
  rewrite bind_scroll_height, !bind_execute_script.
  unfold execute_script, expect_done, bind, ask. simpl.
  eexists. split; [reflexivity|]. simpl. split.
  - unfold scroll_attempts in *. rewrite <- !app_assoc, List.filter_app, length_app.
    simpl. rewrite Nat.add_0_r. exact Hn.
  - rewrite <- !app_assoc. simpl. eapply ends_at_top_app. reflexivity.
Qed.

Lemma range_scroll_spec :
  exists s',
    range_scraper.scroll_to_load_all_content (height_page h) start = (Returned tt, s')
    ∧ scroll_attempts (history s') = stop_point 10 1 h
    ∧ ends_at_top (history s').
Proof.
  unfold range_scraper.scroll_to_load_all_content, try_except.
  rewrite bind_scroll_height.
  set (s1 := push start _).
  destruct (range_scroll_loop_spec range_scraper.max_scroll_attempts s1)
    as (s2 & Hloop & Hn); [done|done|].
  change (scroll_attempts (history s1)) with 0%nat in Hloop, Hn.
  change (heights_read (history start)) with 0%nat.
  rewrite (bind_eq _ _ _ _ _ Hloop).
  unfold execute_script, expect_done, bind, ask. simpl.
  eexists. split; [reflexivity|]. simpl. split.
  - unfold scroll_attempts in *. rewrite List.filter_app, length_app.
    simpl. rewrite Nat.add_0_r. exact Hn.
  - eapply ends_at_top_app. reflexivity.
Qed.

End ScrollClaims.

(** C5, as amended: on a page that answers every call, whatever its
    heights [h] are, the thorough variant (image_scraper.py) stops
    scrolling at the first attempt that ends three consecutive unchanged
    heights, or after 15 attempts; the fast variant (range_scraper.py)
    stops at the first attempt that leaves the height unchanged, or
    after 10 attempts; both then return without raising, having scrolled
    back to the top last. *)
Theorem scroll_loops_stop (h : nat -> Z) :
  let thorough := image_scraper.scroll_to_load_all_content (Scrolling.height_page h)
                    Scrolling.start in
  let fast := range_scraper.scroll_to_load_all_content (Scrolling.height_page h)
                Scrolling.start in
  thorough.1 = Returned tt
  ∧ Scrolling.scroll_attempts (history thorough.2) = Scrolling.stop_point 15 3 h
  ∧ Scrolling.ends_at_top (history thorough.2)
  ∧ fast.1 = Returned tt
  ∧ Scrolling.scroll_attempts (history fast.2) = Scrolling.stop_point 10 1 h
  ∧ Scrolling.ends_at_top (history fast.2)
  ∧ (forall cap need,
       let n := Scrolling.stop_point cap need h in
       (n <= cap)%nat
       ∧ (n = cap ∨ (need <= Scrolling.unchanged_run h n)%nat)
       ∧ (forall m, (m < n)%nat -> (Scrolling.unchanged_run h m < need)%nat)).
Proof.
  intros thorough fast.
  destruct (image_scroll_spec h) as (s1 & E1 & H1 & H1').
  destruct (range_scroll_spec h) as (s2 & E2 & H2 & H2').
  unfold thorough, fast. rewrite E1, E2. simpl.
  split_and!; try done.
  intros cap need. destruct (stop_from_spec h need cap 0%nat) as (Ha & Hb & Hc).
  fold (Scrolling.stop_point cap need h) in Ha, Hb, Hc.
  split; [lia|]. split; [done|]. intros m Hm. apply Hc. lia.
Qed.

(** C5, as the specification states it, fails: on a page whose height
    never changes the fast variant stops after one attempt, not after
    three unchanged ones. *)
Lemma fast_variant_stops_at_first_unchanged :
  ¬ AsStated.stops_as_specified 10 (fun _ => 1000%Z)
      (range_scraper.scroll_to_load_all_content
         (Scrolling.height_page (fun _ => 1000%Z)) Scrolling.start).
Proof. unfold AsStated.stops_as_specified. vm_compute. discriminate. Qed.

(** The loop of simple_scraper.py has no cap: on a page that grows at
    every scroll it is not left, however many iterations are run. *)
Lemma simple_scroll_loop_not_left (h : nat -> Z) (fuel : nat) :
  (forall k, h (S k) ≠ h k) ->
  forall s, Scrolling.heights_read (history s) = S (Scrolling.scroll_attempts (history s)) ->
  exists s',
    simple_scraper.scroll_loop (Scrolling.height_page h) fuel
      (h (Scrolling.scroll_attempts (history s))) s = (Returned None, s').
Proof.
  intros Hgrow. induction fuel as [|fuel IH]; intros s Hs;
    cbn [simple_scraper.scroll_loop].
  - by exists s.
  - rewrite bind_execute_script, bind_scroll_height.
    set (s1 := push s _). set (s2 := push s1 _).
    assert (Scrolling.scroll_attempts (history s2)
            = S (Scrolling.scroll_attempts (history s))) as Hk.
    { unfold s2, s1. rewrite !scroll_attempts_push. simpl. lia. }
    assert (Scrolling.heights_read (history s1)
            = S (Scrolling.scroll_attempts (history s))) as Hr1.
    { unfold s1. rewrite !heights_read_push. simpl. lia. }
    assert (Scrolling.heights_read (history s2)
            = S (Scrolling.scroll_attempts (history s2))) as Hr2.
    { rewrite Hk. unfold s2. rewrite heights_read_push, Hr1. simpl. lia. }
    rewrite Hr1. rewrite (proj2 (Z.eqb_neq _ _)) by apply Hgrow.
    destruct (IH s2 Hr2) as (s' & Hrun). rewrite Hk in Hrun. by exists s'.
Qed.

Lemma simple_scroll_does_not_return (h : nat -> Z) (fuel : nat) :
  (forall k, h (S k) ≠ h k) ->
  (simple_scraper.scroll_to_load_all_content (Scrolling.height_page h) fuel
     Scrolling.start).1 = Returned None.
Proof.
  intros Hgrow.
  unfold simple_scraper.scroll_to_load_all_content, try_except.
  rewrite bind_scroll_height.
  set (s1 := push Scrolling.start _).
  destruct (simple_scroll_loop_not_left h fuel Hgrow s1) as (s' & Hrun); [done|].
  change (Scrolling.scroll_attempts (history s1)) with 0%nat in Hrun.
  change (Scrolling.heights_read (history Scrolling.start)) with 0%nat.
  by rewrite (bind_eq _ _ _ _ _ Hrun).
Qed.

(** *** Code that appends no record and logs nothing; code that returns *)

Section EffectLemmas.

Import Effects.

Lemma log_lines_app l k : log_lines (l ++ k) = log_lines l ++ log_lines k.
Proof. unfold log_lines. apply omap_app. Qed.

Lemma returns_ret {S A} (a : A) : returns (ret a : M S A).
Proof. intros s. by eexists _, _. Qed.

Lemma returns_bind {S A B} (m : M S A) (k : A -> M S B) :
  returns m -> (forall a, returns (k a)) -> returns (bind m k).
Proof.
  intros Hm Hk s. destruct (Hm s) as (a & s1 & E). unfold bind. rewrite E. apply Hk.
Qed.

Lemma returns_try_except {S A} (m : M S A) (h : exn -> M S A) :
  (forall e, returns (h e)) -> returns (try_except m h).
Proof.
  intros Hh s. unfold try_except. destruct (m s) as [[a|e] s1]; [by eexists _, _|apply Hh].
Qed.

Lemma returns_modify {S} (f : S -> S) : returns (modify f).
Proof. intros s. by eexists _, _. Qed.

Lemma returns_get {S} : returns (get : M S S).
Proof. intros s. by eexists _, _. Qed.

Lemma silent_ret {A} (a : A) : silent (ret a).
Proof. by intros s. Qed.

Lemma silent_raise {A} e : silent (raise e : M dstate A).
Proof. by intros s. Qed.

Lemma silent_get : silent get.
Proof. by intros s. Qed.

Lemma silent_bind {A B} (m : M dstate A) (k : A -> M dstate B) :
  silent m -> (forall a, silent (k a)) -> silent (bind m k).
Proof.
  intros Hm Hk s. unfold bind. destruct (Hm s) as [H1 H2].
  destruct (m s) as [[a|e] s1]; simpl in *; [|done].
  destruct (Hk a s1) as [H3 H4]. split; congruence.
Qed.

Lemma silent_try_except {A} (m : M dstate A) (h : exn -> M dstate A) :
  silent m -> (forall e, silent (h e)) -> silent (try_except m h).
Proof.
  intros Hm Hh s. unfold try_except. destruct (Hm s) as [H1 H2].
  destruct (m s) as [[a|e] s1]; simpl in *; [done|].
  destruct (Hh e s1) as [H3 H4]. split; congruence.
Qed.

Lemma silent_ask page c : silent (ask page c).
Proof.
  intros s. unfold ask, push. simpl. split; [done|].
  by rewrite log_lines_app, app_nil_r.
Qed.

Lemma silent_and_then {A} (m : M dstate (flow A)) (k : M dstate A) :
  silent m -> silent k -> silent (and_then m k).
Proof.
  intros Hm Hk. unfold and_then. apply silent_bind; [done|].
  intros [| |a]; [done|done|apply silent_ret].
Qed.

Lemma silent_for_each {X A} (xs : list X) (body : X -> M dstate (flow A)) :
  (forall x, silent (body x)) -> silent (for_each xs body).
Proof.
  intros Hb. induction xs as [|x xs IH]; simpl; [apply silent_ret|].
  apply silent_bind; [done|]. intros [| |a]; [done|apply silent_ret|apply silent_ret].
Qed.

Lemma silent_for_each_Forall {X A} (xs : list X) (body : X -> M dstate (flow A)) :
  Forall (fun x => silent (body x)) xs -> silent (for_each xs body).
Proof.
  induction 1 as [|x xs Hx Hxs IH]; simpl; [apply silent_ret|].
  apply silent_bind; [done|]. intros [| |a]; [done|apply silent_ret|apply silent_ret].
Qed.

End EffectLemmas.

Create HintDb effects discriminated.

#[local] Hint Resolve silent_ret silent_raise silent_get silent_ask : effects.
#[local] Hint Resolve returns_ret returns_modify returns_get : effects.

(** One step of the proof that a piece of code is [silent]: the rule of
    the statement at its head. *)
Ltac silent_step :=
  lazymatch goal with
  | |- Effects.silent (bind _ _) => apply silent_bind; [|intros ?]
  | |- Effects.silent (try_except _ _) => apply silent_try_except; [|intros ?]
  | |- Effects.silent (and_then _ _) => apply silent_and_then
  | |- Effects.silent (for_each _ _) => apply silent_for_each; intros ?
  | |- Effects.silent (if ?b then _ else _) => destruct b
  | |- Effects.silent (match ?x with _ => _ end) => destruct x
  | |- Effects.silent _ => solve [auto with effects]
  end.

Ltac silent_auto := repeat silent_step.

Section Primitives.

Import Effects.

Variable page : browser.

Lemma silent_expect_elem c : silent (expect_elem page c).
Proof. unfold expect_elem. silent_auto. Qed.

Lemma silent_expect_elems c : silent (expect_elems page c).
Proof. unfold expect_elems. silent_auto. Qed.

Lemma silent_expect_str c : silent (expect_str page c).
Proof. unfold expect_str. silent_auto. Qed.

Lemma silent_expect_flag c : silent (expect_flag page c).
Proof. unfold expect_flag. silent_auto. Qed.

Lemma silent_expect_done c : silent (expect_done page c).
Proof. unfold expect_done. silent_auto. Qed.

Lemma silent_text e : silent (text page e).
Proof. unfold text. apply silent_bind; [apply silent_expect_str|]. intros []; apply silent_ret. Qed.

Lemma silent_tag_name e : silent (tag_name page e).
Proof.
  unfold tag_name. apply silent_bind; [apply silent_expect_str|]. intros []; apply silent_ret.
Qed.

Lemma silent_get_window_size : silent (get_window_size page).
Proof. unfold get_window_size. silent_auto. Qed.

End Primitives.

#[local] Hint Resolve silent_expect_elem silent_expect_elems silent_expect_str
  silent_expect_flag silent_expect_done silent_text silent_tag_name
  silent_get_window_size : effects.

Section Calls.

Import Effects.

Variable page : browser.

Lemma silent_find_element parent how sel : silent (find_element page parent how sel).
Proof. apply silent_expect_elem. Qed.
Lemma silent_find_elements parent how sel : silent (find_elements page parent how sel).
Proof. apply silent_expect_elems. Qed.
Lemma silent_wait_presence how sel : silent (wait_presence page how sel).
Proof. apply silent_expect_elem. Qed.
Lemma silent_wait_find parent how sel : silent (wait_find page parent how sel).
Proof. apply silent_expect_elem. Qed.
Lemma silent_get_attribute e name : silent (get_attribute page e name).
Proof. apply silent_expect_str. Qed.
Lemma silent_click e : silent (click page e).
Proof. apply silent_expect_done. Qed.
Lemma silent_is_displayed e : silent (is_displayed page e).
Proof. apply silent_expect_flag. Qed.
Lemma silent_is_enabled e : silent (is_enabled page e).
Proof. apply silent_expect_flag. Qed.
Lemma silent_send_keys e : silent (send_keys page e).
Proof. apply silent_expect_done. Qed.
Lemma silent_execute_script sc args : silent (execute_script page sc args).
Proof. apply silent_expect_done. Qed.
Lemma silent_action_click e : silent (action_click page e).
Proof. apply silent_expect_done. Qed.
Lemma silent_action_click_offset x y : silent (action_click_offset page x y).
Proof. apply silent_expect_done. Qed.
Lemma silent_action_send_keys : silent (action_send_keys page).
Proof. apply silent_expect_done. Qed.
Lemma silent_back : silent (back page).
Proof. apply silent_expect_done. Qed.

End Calls.

#[local] Hint Resolve silent_find_element silent_find_elements silent_wait_presence
  silent_wait_find silent_get_attribute silent_click silent_is_displayed
  silent_is_enabled silent_send_keys silent_execute_script silent_action_click
  silent_action_click_offset silent_action_send_keys silent_back : effects.

(** *** The detail extractors and the closing of the popup *)

Section SharedSilent.

Import Effects.

Variable page : browser.

Lemma silent_id_from_attributes figure link attrs : forall figure_id,
  silent (Cycle.id_from_attributes page figure link attrs figure_id).
Proof.
  induction attrs as [|attr attrs IH]; intros figure_id; simpl; silent_auto.
Qed.

Lemma silent_figure_id_of figure attrs : silent (Cycle.figure_id_of page figure attrs).
Proof.
  unfold Cycle.figure_id_of. pose proof silent_id_from_attributes. silent_auto.
Qed.

End SharedSilent.

#[local] Hint Resolve silent_id_from_attributes silent_figure_id_of : effects.

Section SimpleSilent.

Import Effects simple_scraper.

Variable page : browser.

Lemma silent_src_loop modal attempts : forall video_element video_url,
  silent (src_loop page modal attempts video_element video_url).
Proof.
  induction attempts as [|attempts IH]; intros video_element video_url; simpl;
    silent_auto.
Qed.

Lemma silent_other_sources modal video_url : silent (other_sources page modal video_url).
Proof. unfold other_sources. silent_auto. Qed.

Lemma silent_video_url_of modal : silent (video_url_of page modal).
Proof.
  unfold video_url_of. pose proof silent_src_loop. pose proof silent_other_sources.
  silent_auto.
Qed.

Lemma silent_prompt_of modal : silent (prompt_of page modal).
Proof. unfold prompt_of. silent_auto. Qed.

Lemma silent_simple_extract : silent (extract_prompt_from_popup page).
Proof.
  unfold extract_prompt_from_popup.
  pose proof silent_video_url_of. pose proof silent_prompt_of. silent_auto.
Qed.

Lemma returns_simple_extract : returns (extract_prompt_from_popup page).
Proof. apply returns_try_except. intros _. apply returns_ret. Qed.

Lemma silent_press_close_button b : silent (press_close_button page b).
Proof. unfold press_close_button. silent_auto. Qed.

Lemma silent_press_overlay o : silent (press_overlay page o).
Proof. unfold press_overlay. silent_auto. Qed.

Lemma silent_simple_close_popup : silent (close_popup page).
Proof.
  unfold close_popup.
  pose proof silent_press_close_button. pose proof silent_press_overlay.
  silent_auto.
Qed.

Lemma returns_simple_close_popup : returns (close_popup page).
Proof. apply returns_try_except. intros _. apply returns_ret. Qed.

End SimpleSilent.

Section RangeSilent.

Import Effects range_scraper.

Variable page : browser.
Variable U : unicode_db.

Lemma silent_first_present selectors : silent (first_present page selectors).
Proof. induction selectors as [|sel selectors IH]; simpl; silent_auto. Qed.

Lemma silent_popup_element_of selectors : silent (popup_element_of page selectors).
Proof. unfold popup_element_of. pose proof silent_first_present. silent_auto. Qed.

Lemma silent_video_url_loop popup selectors : forall video_url,
  silent (video_url_loop page popup selectors video_url).
Proof.
  induction selectors as [|sel selectors IH]; intros video_url; simpl; silent_auto.
Qed.

Lemma silent_first_text accepts elements : silent (first_text page accepts elements).
Proof. induction elements as [|e elements IH]; simpl; silent_auto. Qed.

Lemma silent_prompt_loop accepts popup selectors :
  silent (prompt_loop page accepts popup selectors).
Proof.
  pose proof silent_first_text.
  induction selectors as [|sel selectors IH]; simpl; silent_auto.
Qed.

Lemma silent_range_extract : silent (extract_prompt_from_popup page U).
Proof.
  unfold extract_prompt_from_popup.
  pose proof silent_popup_element_of. pose proof silent_video_url_loop.
  pose proof silent_prompt_loop. silent_auto.
Qed.

Lemma returns_range_extract : returns (extract_prompt_from_popup page U).
Proof. apply returns_try_except. intros _. apply returns_ret. Qed.

Lemma silent_click_first_shown how_to_click selectors :
  (forall e, silent (how_to_click e)) ->
  silent (click_first_shown page how_to_click selectors).
Proof.
  intros Hc. induction selectors as [|sel selectors IH]; simpl; silent_auto.
Qed.

Lemma silent_range_close_popup : silent (close_popup page).
Proof.
  unfold close_popup, close_methods, _click_close_button, _click_overlay, _is_popup_closed.
  apply silent_try_except; [|intros; apply silent_ret].
  apply silent_and_then; [|apply silent_ret].
  pose proof silent_click_first_shown.
  apply silent_for_each_Forall.
  repeat (apply Forall_cons_2; [cbv beta; silent_auto|]). apply Forall_nil_2.
Qed.

Lemma returns_range_close_popup : returns (close_popup page).
Proof. apply returns_try_except. intros _. apply returns_ret. Qed.

End RangeSilent.

#[local] Hint Resolve silent_simple_extract silent_simple_close_popup
  silent_range_extract silent_range_close_popup silent_popup_element_of
  silent_prompt_loop silent_first_text : effects.

Section ImageSilent.

Import Effects image_scraper.

Variable page : browser.
Variable srcset_best background_url : str -> option str.
Variable U : unicode_db.

Lemma silent_indicator : silent (indicator page).
Proof. unfold indicator. silent_auto. Qed.

Lemma silent_visual_click e : silent (visual_click page e).
Proof. unfold visual_click. pose proof silent_indicator. silent_auto. Qed.

Lemma silent_marked_js_click e : silent (marked_js_click page e).
Proof. unfold marked_js_click. pose proof silent_indicator. silent_auto. Qed.

Lemma silent_image_url_of img :
  silent (image_url_of page srcset_best background_url img).
Proof. unfold image_url_of. silent_auto. Qed.

Lemma silent_first_image_url imgs :
  silent (first_image_url page srcset_best background_url imgs).
Proof.
  pose proof silent_image_url_of.
  induction imgs as [|img imgs IH]; simpl; silent_auto.
Qed.

Lemma silent_image_url_loop popup selectors :
  silent (image_url_loop page srcset_best background_url popup selectors).
Proof.
  pose proof silent_first_image_url.
  induction selectors as [|sel selectors IH]; simpl; silent_auto.
Qed.

Lemma silent_image_extract :
  silent (extract_prompt_from_popup page srcset_best background_url U).
Proof.
  unfold extract_prompt_from_popup. pose proof silent_image_url_loop. silent_auto.
Qed.

Lemma returns_image_extract :
  returns (extract_prompt_from_popup page srcset_best background_url U).
Proof. apply returns_try_except. intros _. apply returns_ret. Qed.

Lemma silent_press_close_buttons btns : silent (press_close_buttons page btns).
Proof.
  pose proof silent_indicator. pose proof silent_visual_click.
  induction btns as [|b btns IH]; simpl; silent_auto.
Qed.

Lemma silent_close_with_buttons selectors : silent (close_with_buttons page selectors).
Proof.
  pose proof silent_press_close_buttons.
  induction selectors as [|sel selectors IH]; simpl; silent_auto.
Qed.

Lemma silent_click_overlays selectors : silent (click_overlays page selectors).
Proof.
  pose proof silent_visual_click.
  induction selectors as [|sel selectors IH]; simpl; silent_auto.
Qed.

Lemma silent_image_close_popup : silent (close_popup page).
Proof.
  unfold close_popup.
  pose proof silent_indicator. pose proof silent_close_with_buttons.
  pose proof silent_click_overlays. silent_auto.
Qed.

Lemma returns_image_close_popup : returns (close_popup page).
Proof. apply returns_try_except. intros _. apply returns_ret. Qed.

End ImageSilent.

#[local] Hint Resolve silent_indicator silent_visual_click silent_marked_js_click
  silent_image_extract silent_image_close_popup : effects.

(** *** The detail extractor *)

Section ExtractorClaims.

Import Effects.

Lemma yields_ret {S A} (a : A) (Q : A -> Prop) : Q a -> yields (ret a : M S A) Q.
Proof. intros H s a' s' [= <- _]. done. Qed.

Lemma yields_bind {S A B} (m : M S A) (k : A -> M S B) (Q : B -> Prop) :
  (forall a, yields (k a) Q) -> yields (bind m k) Q.
Proof.
  intros Hk s b s'. unfold bind. destruct (m s) as [[a|e] s1]; [apply Hk|done].
Qed.

Lemma yields_try_except {S A} (m : M S A) (h : exn -> M S A) (Q : A -> Prop) :
  yields m Q -> (forall e, yields (h e) Q) -> yields (try_except m h) Q.
Proof.
  intros Hm Hh s a s'. unfold try_except.
  destruct (m s) as [[a'|e] s1] eqn:E; [|apply Hh].
  intros [= <- <-]. by eapply Hm.
Qed.

Lemma returns_yields {S A} (m : M S A) (Q : A -> Prop) s :
  returns m -> yields m Q -> exists a s', m s = (Returned a, s') ∧ Q a.
Proof.
  intros Hr Hy. destruct (Hr s) as (a & s' & E). exists a, s'. split; [done|].
  by eapply Hy.
Qed.

Ltac yields_pair :=
  apply yields_try_except;
  [repeat (apply yields_bind; intros ?); apply yields_ret; by eexists _, _
  |intros ?; apply yields_ret; first [done|by eexists _, _]].

(** C9: for every page and every state of the scrape, the detail
    extractor of each scraper returns and does not raise; what it returns
    is a URL and a prompt (or, in simple_scraper.py, [None]).  When
    every call to the browser fails it returns [None]
    (simple_scraper.py) or no URL with the prompt "Error extracting
    prompt"; when the popup is there and nothing can be read from it, it
    returns no URL and no prompt (simple_scraper.py) or no URL with the
    prompt "No prompt found". *)
Theorem extract_prompt_from_popup_never_raises (page : browser) (U : unicode_db)
    (srcset_best background_url : str -> option str) (s : dstate) :
  (exists r s', simple_scraper.extract_prompt_from_popup page s = (Returned r, s')
                ∧ url_and_prompt (py "video_url") r)
  ∧ (exists r s', range_scraper.extract_prompt_from_popup page U s = (Returned r, s')
                  ∧ url_and_prompt (py "video_url") r ∧ r ≠ None)
  ∧ (exists r s', image_scraper.extract_prompt_from_popup page srcset_best background_url U s
                  = (Returned r, s')
                  ∧ url_and_prompt (py "image_url") r ∧ r ≠ None)
  ∧ (simple_scraper.extract_prompt_from_popup dead_page s).1 = Returned None
  ∧ (range_scraper.extract_prompt_from_popup dead_page U s).1
    = Returned (Some [(py "video_url", PNone);
                      (py "prompt", PStr (py "Error extracting prompt"))])
  ∧ (image_scraper.extract_prompt_from_popup dead_page srcset_best background_url U s).1
    = Returned (Some [(py "image_url", PNone);
                      (py "prompt", PStr (py "Error extracting prompt"))])
  ∧ (simple_scraper.extract_prompt_from_popup empty_popup_page s).1
    = Returned (Some [(py "video_url", PNone); (py "prompt", PNone)])
  ∧ (range_scraper.extract_prompt_from_popup empty_popup_page U s).1
    = Returned (Some [(py "video_url", PNone); (py "prompt", PStr (py "No prompt found"))])
  ∧ (image_scraper.extract_prompt_from_popup empty_popup_page srcset_best background_url U s).1
    = Returned (Some [(py "image_url", PNone); (py "prompt", PStr (py "No prompt found"))]).
Proof.
  split_and!.
  - apply returns_yields; [apply returns_simple_extract|].
    unfold simple_scraper.extract_prompt_from_popup. yields_pair.
  - apply (returns_yields _ (fun r => url_and_prompt (py "video_url") r ∧ r ≠ None));
      [apply returns_range_extract|].
    unfold range_scraper.extract_prompt_from_popup.
    apply yields_try_except;
      [repeat (apply yields_bind; intros ?); apply yields_ret
      |intros ?; apply yields_ret]; (split; [by eexists _, _|done]).
  - apply (returns_yields _ (fun r => url_and_prompt (py "image_url") r ∧ r ≠ None));
      [apply returns_image_extract|].
    unfold image_scraper.extract_prompt_from_popup.
    apply yields_try_except;
      [repeat (apply yields_bind; intros ?); apply yields_ret
      |intros ?; apply yields_ret]; (split; [by eexists _, _|done]).
  - reflexivity.
  - reflexivity.
  - reflexivity.
  - reflexivity.
  - reflexivity.
  - reflexivity.
Qed.

End ExtractorClaims.

(** *** The retry for a URL that is new *)

Section RetryClaims.

Import Effects.

Lemma run_silent {A} (m : M dstate A) s :
  silent m -> returns m ->
  exists a s1, m s = (Returned a, s1)
    ∧ videos_data s1 = videos_data s
    ∧ log_lines (history s1) = log_lines (history s).
Proof.
  intros Hs Hr. destruct (Hr s) as (a & s1 & E). destruct (Hs s) as [H1 H2].
  rewrite E in H1, H2. by exists a, s1.
Qed.

Lemma bind_log {A} l (k : unit -> M dstate A) s :
  bind (log l) k s = k tt (push s (Logged l)).
Proof. reflexivity. Qed.

Lemma bind_get {S A} (k : S -> M S A) s : bind get k s = k s s.
Proof. reflexivity. Qed.

Lemma log_lines_push_logged s l :
  log_lines (history (push s (Logged l))) = log_lines (history s) ++ [l].
Proof. unfold push. simpl. by rewrite log_lines_app. Qed.

Variable page : browser.
Variable url_key : str.
Variable extract_prompt_from_popup : M dstate (option (dict pyval)).
Variable close_popup : M dstate unit.
Hypothesis extract_silent : silent extract_prompt_from_popup.
Hypothesis extract_returns : returns extract_prompt_from_popup.
Hypothesis close_silent : silent close_popup.
Hypothesis close_returns : returns close_popup.

Lemma retry_loop_spec clickable_link retries : forall extracted_data s,
  exists r s' n,
    Cycle.retry_loop page url_key extract_prompt_from_popup close_popup
      clickable_link retries extracted_data s = (Returned r, s')
    ∧ videos_data s' = videos_data s
    ∧ log_lines (history s')
      = log_lines (history s) ++ ((fun retry => Attempt (retry + 1)) <$> take n retries)
    ∧ (n <= length retries)%nat
    ∧ (retries ≠ [] -> (0 < n)%nat).
Proof.
  induction retries as [|retry rest IH]; intros extracted_data s;
    cbn [Cycle.retry_loop].
  - exists extracted_data, s, 0%nat. simpl. by rewrite app_nil_r.
  - destruct (run_silent extract_prompt_from_popup s extract_silent extract_returns)
      as (d & s1 & E1 & V1 & L1).
    rewrite (bind_eq _ _ _ _ _ E1), bind_log.
    set (s2 := push s1 (Logged (Attempt (retry + 1)))).
    assert (videos_data s2 = videos_data s) as V2 by done.
    assert (log_lines (history s2) = log_lines (history s) ++ [Attempt (retry + 1)]) as L2.
    { unfold s2. by rewrite log_lines_push_logged, L1. }
    assert (forall d' s3, videos_data s3 = videos_data s ->
              log_lines (history s3) = log_lines (history s) ++ [Attempt (retry + 1)] ->
              exists r s' n,
                Cycle.retry_loop page url_key extract_prompt_from_popup close_popup
                  clickable_link rest d' s3 = (Returned r, s')
                ∧ videos_data s' = videos_data s
                ∧ log_lines (history s')
                  = log_lines (history s)
                    ++ ((fun retry => Attempt (retry + 1)) <$> take n (retry :: rest))
                ∧ (n <= length (retry :: rest))%nat
                ∧ (retry :: rest ≠ [] -> (0 < n)%nat)) as Hnext.
    { intros d' s3 V3 L3. destruct (IH d' s3) as (r & s' & n & E & V & L & Hn & _).
      exists r, s', (S n). simpl. rewrite L, L3, V, V3, <- app_assoc. simpl.
      split_and!; try done; lia. }
    assert (exists r s' n,
              (ret d : M dstate _) s2 = (Returned r, s')
              ∧ videos_data s' = videos_data s
              ∧ log_lines (history s')
                = log_lines (history s)
                  ++ ((fun retry => Attempt (retry + 1)) <$> take n (retry :: rest))
              ∧ (n <= length (retry :: rest))%nat
              ∧ (retry :: rest ≠ [] -> (0 < n)%nat)) as Hstop.
    { exists d, s2, 1%nat. simpl. rewrite ?take_0. simpl. split_and!; try done; lia. }
    destruct (truthy (Cycle.and_get d url_key)); [|by apply Hnext].
    rewrite bind_get.
    destruct (_ || _); [exact Hstop|].
    destruct (run_silent close_popup s2 close_silent close_returns)
      as ([] & s3 & E3 & V3 & L3).
    rewrite (bind_eq _ _ _ _ _ E3).
    destruct (run_silent
                (try_except (execute_script page JsClick [clickable_link];; ret true)
                            (fun _ => ret false)) s3)
      as (reopened & s4 & E4 & V4 & L4).
    { silent_auto. }
    { apply returns_try_except. intros _. apply returns_ret. }
    rewrite (bind_eq _ _ _ _ _ E4).
    destruct reopened.
    + apply Hnext; congruence.
    + exists d, s4, 1%nat. simpl. rewrite ?take_0. simpl.
      split_and!; try done; try lia; congruence.
Qed.

Lemma retry_for_unique_spec clickable_link s :
  exists r s' n,
    Cycle.retry_for_unique page url_key extract_prompt_from_popup close_popup
      clickable_link s = (Returned r, s')
    ∧ videos_data s' = videos_data s
    ∧ clicked_items (history s') = clicked_items (history s)
    ∧ attempts (history s') = attempts (history s) ++ seq 1 n
    ∧ (1 <= n <= 3)%nat.
Proof.
  unfold Cycle.retry_for_unique.
  destruct (retry_loop_spec clickable_link (seq 0 3) None s)
    as (r & s' & n & E & V & L & Hn & Hpos).
  exists r, s', n. split; [done|]. split; [done|].
  specialize (Hpos ltac:(done)). simpl in Hn.
  unfold clicked_items, attempts. rewrite L, !omap_app.
  destruct n as [|[|[|[|n]]]]; try lia; simpl; rewrite ?app_nil_r;
    (split; [done|]); (split; [done|lia]).
Qed.

End RetryClaims.

(** C6: whatever the page answers, the retry loop of each scraper
    returns after at least one and at most three attempts (the lines
    "... on attempt n" of the log, one for each call of the extractor),
    whether or not a new URL was obtained, and appends no record. *)
Theorem retry_for_unique_stops_within_three_attempts (page : browser) (U : unicode_db)
    (srcset_best background_url : str -> option str) (clickable_link : element)
    (s : dstate) :
  (exists r s' n,
     simple_scraper.retry_for_unique page clickable_link s = (Returned r, s')
     ∧ Effects.attempts (history s') = Effects.attempts (history s) ++ seq 1 n
     ∧ (1 <= n <= 3)%nat ∧ videos_data s' = videos_data s)
  ∧ (exists r s' n,
       range_scraper.retry_for_unique page U clickable_link s = (Returned r, s')
       ∧ Effects.attempts (history s') = Effects.attempts (history s) ++ seq 1 n
       ∧ (1 <= n <= 3)%nat ∧ videos_data s' = videos_data s)
  ∧ (exists r s' n,
       image_scraper.retry_for_unique page srcset_best background_url U clickable_link s
       = (Returned r, s')
       ∧ Effects.attempts (history s') = Effects.attempts (history s) ++ seq 1 n
       ∧ (1 <= n <= 3)%nat ∧ videos_data s' = videos_data s).
Proof.
  split_and!.
  - destruct (retry_for_unique_spec page (py "video_url")
                (simple_scraper.extract_prompt_from_popup page)
                (simple_scraper.close_popup page ;; ret tt)
                (silent_simple_extract page) (returns_simple_extract page))
      with (clickable_link := clickable_link) (s := s)
      as (r & s' & n & E & V & _ & A & Hn).
    + silent_auto.
    + apply returns_bind; [apply returns_simple_close_popup|intros; apply returns_ret].
    + by exists r, s', n.
  - destruct (retry_for_unique_spec page (py "video_url")
                (range_scraper.extract_prompt_from_popup page U)
                (range_scraper.close_popup page ;; ret tt)
                (silent_range_extract page U) (returns_range_extract page U))
      with (clickable_link := clickable_link) (s := s)
      as (r & s' & n & E & V & _ & A & Hn).
    + silent_auto.
    + apply returns_bind; [apply returns_range_close_popup|intros; apply returns_ret].
    + by exists r, s', n.
  - destruct (retry_for_unique_spec page (py "image_url")
                (image_scraper.extract_prompt_from_popup page srcset_best background_url U)
                (image_scraper.close_popup page)
                (silent_image_extract page srcset_best background_url U)
                (returns_image_extract page srcset_best background_url U)
                (silent_image_close_popup page) (returns_image_close_popup page)
                clickable_link s)
      as (r & s' & n & E & V & _ & A & Hn).
    by exists r, s', n.
Qed.

(** *** The records of the items that were opened *)

Section ItemRules.

Import Effects.

Variable Q : dict pyval -> Prop.

Lemma silent_always_same {A} (m : M dstate A) : silent m -> always same m.
Proof.
  intros H s. destruct (H s) as [H1 H2]. split; [done|].
  unfold clicked_items. by rewrite H2.
Qed.

Lemma same_refl s : same s s.
Proof. by split. Qed.

Lemma same_trans s1 s2 s3 : same s1 s2 -> same s2 s3 -> same s1 s3.
Proof. intros [H1 H2] [H3 H4]. split; congruence. Qed.

Lemma same_one_more index s1 s2 s3 :
  same s1 s2 -> one_more Q index s2 s3 -> one_more Q index s1 s3.
Proof.
  intros [H1 H2] [(r & Hq & H3) H4]. split; [exists r; split; [done|]|]; congruence.
Qed.

Lemma one_more_same index s1 s2 s3 :
  one_more Q index s1 s2 -> same s2 s3 -> one_more Q index s1 s3.
Proof.
  intros [(r & Hq & H1) H2] [H3 H4]. split; [exists r; split; [done|]|]; congruence.
Qed.

Lemma same_recorded s1 s2 s3 : same s1 s2 -> recorded Q s2 s3 -> recorded Q s1 s3.
Proof.
  intros [H1 H2] [(r & Hq & H3) H4]. split; [exists r; split; [done|]|]; congruence.
Qed.

Lemma recorded_same s1 s2 s3 : recorded Q s1 s2 -> same s2 s3 -> recorded Q s1 s3.
Proof.
  intros [(r & Hq & H1) H2] [H3 H4]. split; [exists r; split; [done|]|]; congruence.
Qed.

Lemma always_same_ret {A} (a : A) : always same (ret a).
Proof. intros s. apply same_refl. Qed.

Lemma always_same_bind {A B} (m : M dstate A) (k : A -> M dstate B) :
  always same m -> (forall a, always same (k a)) -> always same (bind m k).
Proof.
  intros Hm Hk s. unfold bind. specialize (Hm s).
  destruct (m s) as [[a|e] s1]; simpl in *; [|done].
  eapply same_trans; [done|apply Hk].
Qed.

Lemma always_same_try_except {A} (m : M dstate A) (h : exn -> M dstate A) :
  always same m -> (forall e, always same (h e)) -> always same (try_except m h).
Proof.
  intros Hm Hh s. unfold try_except. specialize (Hm s).
  destruct (m s) as [[a|e] s1]; simpl in *; [done|].
  eapply same_trans; [done|apply Hh].
Qed.

Lemma item_effect_same {A} index (m : M dstate A) : always same m -> item_effect Q index m.
Proof. intros H s. left. apply H. Qed.

Lemma item_effect_bind {A B} index (m : M dstate A) (k : A -> M dstate B) :
  always same m -> (forall a, item_effect Q index (k a)) -> item_effect Q index (bind m k).
Proof.
  intros Hm Hk s. unfold bind. specialize (Hm s).
  destruct (m s) as [[a|e] s1]; simpl in *; [|by left].
  destruct (Hk a s1) as [H|H]; [left; by eapply same_trans|right; by eapply same_one_more].
Qed.

Lemma item_effect_try_except {A} index (m : M dstate A) (h : exn -> M dstate A) :
  item_effect Q index m -> (forall e, always same (h e)) ->
  item_effect Q index (try_except m h).
Proof.
  intros Hm Hh s. unfold try_except. specialize (Hm s).
  destruct (m s) as [[a|e] s1]; simpl in *; [done|].
  specialize (Hh e s1).
  destruct Hm as [H|H]; [left; by eapply same_trans|right; by eapply one_more_same].
Qed.

Lemma item_effect_opens {A} index (m : M dstate bool) (k : bool -> M dstate A) :
  opens index m -> always (recorded Q) (k true) -> always same (k false) ->
  item_effect Q index (bind m k).
Proof.
  intros Hm Ht Hf s. unfold bind. destruct (Hm s) as (b & s1 & E & V & C).
  rewrite E. destruct b.
  - right. destruct (Ht s1) as [(r & Hq & Hr) Hc].
    split; [exists r; split; [done|]|]; congruence.
  - left. rewrite app_nil_r in C. eapply same_trans; [by split|apply Hf].
Qed.

Lemma item_effect_block {A} index (m : M dstate bool) (k : bool -> M dstate A) :
  block_effect Q index m -> always same (k true) -> item_effect Q index (k false) ->
  item_effect Q index (bind m k).
Proof.
  intros Hm Ht Hf s. unfold bind. specialize (Hm s).
  destruct (m s) as [[[|]|e] s1]; simpl in *.
  - specialize (Ht s1).
    destruct Hm as [H|H]; [left; by eapply same_trans|right; by eapply one_more_same].
  - destruct (Hf s1) as [H|H]; [left; by eapply same_trans|right; by eapply same_one_more].
  - done.
Qed.

Lemma block_effect_ret_false index : block_effect Q index (ret false).
Proof. intros s. apply same_refl. Qed.

Lemma block_effect_opens {A} index (m : M dstate bool) (k : M dstate A) :
  opens index m -> always (recorded Q) k ->
  block_effect Q index
    (bind m (fun clicked => if clicked then k ;; ret true else ret false)).
Proof.
  intros Hm Hk s. destruct (Hm s) as (b & s1 & E & V & C).
  rewrite (bind_eq _ _ _ _ _ E). destruct b.
  - destruct (Hk s1) as [(r & Hq & Hr) Hc]. unfold bind.
    destruct (k s1) as [[a|e] s2]; simpl in *;
      (right; split; [exists r; split; [done|]|]; congruence).
  - simpl. rewrite app_nil_r in C. by split.
Qed.

Lemma always_recorded_append_record r : Q r -> always (recorded Q) (append_record r).
Proof.
  intros Hq s. unfold append_record, modify. simpl. split; [by exists r|done].
Qed.

Lemma always_recorded_then {A B} (m : M dstate A) (k : A -> M dstate B) :
  always (recorded Q) m -> (forall a, always same (k a)) ->
  always (recorded Q) (bind m k).
Proof.
  intros Hm Hk s. unfold bind. specialize (Hm s).
  destruct (m s) as [[a|e] s1]; simpl in *; [|done].
  eapply recorded_same; [done|apply Hk].
Qed.

Lemma always_recorded_after {A B} (m : M dstate A) (k : A -> M dstate B) :
  always same m -> returns m -> (forall a, always (recorded Q) (k a)) ->
  always (recorded Q) (bind m k).
Proof.
  intros Hm Hr Hk s. unfold bind. specialize (Hm s). destruct (Hr s) as (a & s1 & E).
  rewrite E in *. simpl in *. eapply same_recorded; [done|apply Hk].
Qed.

(** A click that is tried, and, if it raises, the next way to click. *)
Lemma opens_try index (c : M dstate unit) (fallback : M dstate bool) :
  silent c -> opens index fallback ->
  opens index (try_except (c ;; log (Clicked index) ;; ret true) (fun _ => fallback)).
Proof.
  intros Hc Hf s. unfold try_except, bind. destruct (Hc s) as [V L].
  destruct (c s) as [[[]|e] s1]; simpl in *.
  - eexists true, _. split; [done|]. simpl. split; [done|].
    unfold clicked_items. by rewrite log_lines_app, L, omap_app.
  - destruct (Hf s1) as (b & s2 & E & V2 & C2). exists b, s2.
    split; [done|]. split; [congruence|]. unfold clicked_items in *. by rewrite C2, L.
Qed.

Lemma opens_ret_false index : opens index (ret false).
Proof. intros s. exists false, s. by rewrite app_nil_r. Qed.

(** The rules of an item that is opened for sure. *)
Lemma opened_after {A B} index (P : A -> Prop) (m : M dstate A) (k : A -> M dstate B) :
  always same m -> (forall s, exists a s', m s = (Returned a, s') ∧ P a) ->
  (forall a, P a -> always (one_more Q index) (k a)) ->
  always (one_more Q index) (bind m k).
Proof.
  intros Hm Hr Hk s. unfold bind. specialize (Hm s).
  destruct (Hr s) as (a & s1 & E & Ha). rewrite E in *. simpl in *.
  eapply same_one_more; [done|by apply Hk].
Qed.

Lemma opened_after_returns {A B} index (m : M dstate A) (k : A -> M dstate B) :
  always same m -> returns m -> (forall a, always (one_more Q index) (k a)) ->
  always (one_more Q index) (bind m k).
Proof.
  intros Hm Hr Hk. apply (opened_after index (fun _ => True)); [done| |by intros].
  intros s. destruct (Hr s) as (a & s1 & E). by exists a, s1.
Qed.

Lemma opened_click {A} index (m : M dstate bool) (k : bool -> M dstate A) :
  opens index m -> (forall s, (m s).1 = Returned true) ->
  always (recorded Q) (k true) -> always (one_more Q index) (bind m k).
Proof.
  intros Hm Ht Hk s. unfold bind. destruct (Hm s) as (b & s1 & E & V & C).
  specialize (Ht s). rewrite E in *. simpl in Ht. injection Ht as ->.
  destruct (Hk s1) as [(r & Hq & Hr) Hc].
  split; [exists r; split; [done|]|]; congruence.
Qed.

Lemma opened_either index (shown : bool) (click : M dstate bool) (k rest : M dstate unit) :
  opens index click -> (shown = true -> always (recorded Q) k) ->
  always (one_more Q index) rest ->
  always (one_more Q index)
    (let* handled :=
       if shown then
         let* clicked := click in
         if clicked then k ;; ret true else ret false
       else ret false in
     if handled then ret tt else rest).
Proof.
  intros Hc Hk Hrest s. destruct shown; [|apply Hrest].
  unfold bind at 1. unfold bind at 1. destruct (Hc s) as (b & s1 & E & V & C).
  rewrite E. destruct b.
  - destruct (Hk eq_refl s1) as [(r & Hq & Hr) Hcl]. unfold bind.
    destruct (k s1) as [[a|e] s2]; simpl in *;
      (split; [exists r; split; [done|]|]; congruence).
  - cbn [ret]. rewrite app_nil_r in C. eapply same_one_more; [by split|apply Hrest].
Qed.

Lemma opened_try_except {A} index (m : M dstate A) (h : exn -> M dstate A) :
  always (one_more Q index) m -> (forall e, always same (h e)) ->
  always (one_more Q index) (try_except m h).
Proof.
  intros Hm Hh s. unfold try_except. specialize (Hm s).
  destruct (m s) as [[a|e] s1]; simpl in *; [done|].
  eapply one_more_same; [done|apply Hh].
Qed.

(** A way to click that returns: the click is made. *)
Lemma clicks_try index (c : M dstate unit) (fallback : M dstate bool) :
  (forall s, (fallback s).1 = Returned true) ->
  forall s, (try_except (c ;; log (Clicked index) ;; ret true) (fun _ => fallback) s).1
            = Returned true.
Proof.
  intros Hf s. unfold try_except, bind.
  destruct (c s) as [[[]|e] s1]; simpl; [done|apply Hf].
Qed.

Lemma clicks_by_mouse page index link (fallback : M dstate bool) :
  can_open page ->
  forall s, (try_except (action_click page link ;; log (Clicked index) ;; ret true)
               (fun _ => fallback) s).1
            = Returned true.
Proof.
  intros Hpage s. destruct (Hpage (history s)) as (_ & _ & _ & Hclick).
  unfold try_except, bind, action_click, expect_done, bind, ask. by rewrite Hclick.
Qed.

Lemma execute_script_returns page sc args :
  (forall hist, page hist (ExecuteScript sc args) = Done) ->
  returns (execute_script page sc args).
Proof.
  intros Hpage s. unfold execute_script, expect_done, bind, ask. rewrite Hpage.
  by eexists _, _.
Qed.

End ItemRules.

Lemma recorded_mono (Q Q' : dict pyval -> Prop) {A} (m : M dstate A) :
  (forall r, Q r -> Q' r) ->
  Effects.always (Effects.recorded Q) m -> Effects.always (Effects.recorded Q') m.
Proof.
  intros HQ Hm s. destruct (Hm s) as [(r & Hr & V) C]. split; [|done].
  exists r. split; [by apply HQ|done].
Qed.

Section SharedItem.

Import Effects.

Variable page : browser.
Variable url_key placeholder_prefix : str.
Variable extract_prompt_from_popup : M dstate (option (dict pyval)).
Variable close_popup : M dstate unit.
Hypothesis extract_silent : silent extract_prompt_from_popup.
Hypothesis extract_returns : returns extract_prompt_from_popup.
Hypothesis close_silent : silent close_popup.
Hypothesis close_returns : returns close_popup.
Hypothesis prefix_not_empty : placeholder_prefix ≠ [].

Lemma retry_for_unique_same link :
  always same (Cycle.retry_for_unique page url_key extract_prompt_from_popup close_popup link).
Proof.
  intros s.
  destruct (retry_for_unique_spec page url_key extract_prompt_from_popup close_popup
              extract_silent extract_returns close_silent close_returns link s)
    as (r & s' & n & E & V & C & _).
  rewrite E. by split.
Qed.

Lemma retry_for_unique_returns link :
  returns (Cycle.retry_for_unique page url_key extract_prompt_from_popup close_popup link).
Proof.
  intros s.
  destruct (retry_for_unique_spec page url_key extract_prompt_from_popup close_popup
              extract_silent extract_returns close_silent close_returns link s)
    as (r & s' & n & E & _).
  by exists r, s'.
Qed.

(** The URL of the record that is made after a click. *)
Lemma or_placeholder_record_url extracted_data figure_url figure_id index :
  Cycle.or_placeholder placeholder_prefix
    (py_or (Cycle.and_get extracted_data url_key) (Cycle.pyval_of figure_url))
    figure_id index
  = record_url url_key placeholder_prefix extracted_data figure_url figure_id index.
Proof.
  unfold Cycle.or_placeholder, record_url, py_or, Cycle.and_get, get_default.
  destruct (truthy match extracted_data with
                   | Some d => default PNone (dict_get d url_key)
                   | None => PNone
                   end) eqn:He.
  - by rewrite He.
  - destruct figure_url as [[|c u]|]; cbn; try done;
      by destruct figure_id as [[|d id]|].
Qed.

Lemma record_url_truthy extracted_data figure_url figure_id index :
  truthy (record_url url_key placeholder_prefix extracted_data figure_url figure_id index)
  = true.
Proof.
  unfold record_url.
  destruct (truthy match extracted_data with
                   | Some d => default PNone (dict_get d url_key)
                   | None => PNone
                   end) eqn:He; [done|].
  destruct figure_url as [[|c u]|]; try done; unfold placeholder_url; cbn [truthy];
    apply negb_true_iff, bool_decide_eq_false_2;
    by destruct placeholder_prefix.
Qed.

(** The record that is made after a click: its URL is the one that was
    extracted or a placeholder. *)
Lemma append_extracted_eq extracted_data figure_url figure_id index s :
  Cycle.append_extracted url_key placeholder_prefix extracted_data figure_url
    figure_id index s
  = (Returned tt,
     {| history := history s;
        videos_data :=
          videos_data s ++
          [record_of url_key
             (record_url url_key placeholder_prefix extracted_data figure_url
                figure_id index)
             (record_prompt url_key extracted_data) index figure_id] |}).
Proof.
  unfold Cycle.append_extracted, record_of, record_prompt.
  destruct (truthy (py_or _ _)) eqn:Ht.
  - unfold append_record, modify. rewrite or_placeholder_record_url.
    destruct extracted_data as [d|]; [|done].
    unfold py_or, Cycle.and_get, get_default in Ht.
    destruct (truthy (default PNone (dict_get d (py "prompt")))) eqn:Hp;
      cbn [orb]; [done|].
    by rewrite Ht.
  - unfold append_record, modify.
    rewrite <- or_placeholder_record_url.
    unfold py_or, Cycle.and_get, get_default in *.
    destruct extracted_data as [d|]; cbn [orb].
    + destruct (truthy (default PNone (dict_get d (py "prompt")))) eqn:Hp;
        [by rewrite Hp in Ht|].
      cbn [orb]. by rewrite Ht.
    + done.
Qed.

Lemma shown_record_truthy index r :
  shown_record url_key index r ->
  truthy (get_default r url_key PNone) = true.
Proof.
  intros (figure_url & prompt & figure_id & Hhttp & ->).
  unfold record_of, get_default. cbn [dict_get]. rewrite bool_decide_eq_true_2 by done.
  cbn. apply negb_true_iff, bool_decide_eq_false_2. intros E. by rewrite E in Hhttp.
Qed.

Lemma extracted_record_truthy extract index r :
  extracted_record url_key placeholder_prefix extract index r ->
  truthy (get_default r url_key PNone) = true.
Proof.
  intros (link & s & e & s' & figure_url & figure_id & _ & ->).
  unfold record_of, get_default. cbn [dict_get]. rewrite bool_decide_eq_true_2 by done.
  apply record_url_truthy.
Qed.

Lemma item_record_truthy extract shown_index extracted_index r :
  item_record url_key placeholder_prefix extract shown_index extracted_index r ->
  truthy (get_default r url_key PNone) = true.
Proof.
  intros [H|H]; [by eapply shown_record_truthy|by eapply extracted_record_truthy].
Qed.

Lemma append_with_figure_url_recorded figure_url figure_id index :
  startswith (py "http") figure_url = true ->
  always (recorded (shown_record url_key index))
    (Cycle.append_with_figure_url url_key extract_prompt_from_popup close_popup
       figure_url figure_id index).
Proof.
  intros Hurl. unfold Cycle.append_with_figure_url.
  apply always_recorded_after; [by apply silent_always_same|done|]. intros extracted_data.
  apply always_recorded_then.
  - apply always_recorded_append_record. by eexists figure_url, _, figure_id.
  - intros _. apply silent_always_same. silent_auto.
Qed.

(** The statements after the click of an item that does not show its
    URL: one record, whatever happens, made of what the extraction has
    returned. *)
Lemma after_click_recorded link figure_url figure_id index (closing : M dstate unit) :
  silent closing ->
  always (recorded (extracted_record url_key placeholder_prefix
                      (Cycle.retry_for_unique page url_key extract_prompt_from_popup
                         close_popup) index))
    (let* extracted_data :=
       Cycle.retry_for_unique page url_key extract_prompt_from_popup close_popup link in
     Cycle.append_extracted url_key placeholder_prefix extracted_data figure_url
       figure_id index ;;
     closing).
Proof.
  intros Hc s.
  destruct (retry_for_unique_returns link s) as (extracted_data & s1 & E).
  pose proof (retry_for_unique_same link s) as Hsame. rewrite E in Hsame.
  rewrite (bind_eq _ _ _ _ _ E).
  rewrite (bind_eq _ _ _ _ _ (append_extracted_eq extracted_data figure_url figure_id
                                index s1)).
  eapply same_recorded; [exact Hsame|].
  eapply recorded_same; [|apply (silent_always_same _ Hc)].
  split; [|done]. eexists. split; [|done].
  by exists link, s, extracted_data, s1, figure_url, figure_id.
Qed.

End SharedItem.

Section SimpleItem.

Import Effects simple_scraper.

Variable page : browser.

Lemma simple_close_unit_silent : silent (close_popup page ;; ret tt).
Proof. silent_auto. Qed.

Lemma simple_close_unit_returns : returns (close_popup page ;; ret tt).
Proof.
  apply returns_bind; [apply returns_simple_close_popup|intros; apply returns_ret].
Qed.

Lemma simple_click_figure_link_opens i link : opens (i + 1) (click_figure_link page i link).
Proof.
  unfold click_figure_link.
  repeat (apply opens_try; [silent_auto|]). apply opens_ret_false.
Qed.

Lemma simple_click_for_prompt_opens i link : opens (i + 1) (click_for_prompt page i link).
Proof.
  unfold click_for_prompt.
  repeat (apply opens_try; [silent_auto|]). apply opens_ret_false.
Qed.

Lemma simple_after_click_recorded i link figure_video_url figure_id :
  always (recorded (video_record page (i + 1)))
    (let* extracted_data := retry_for_unique page link in
     append_extracted extracted_data figure_video_url figure_id (i + 1) ;;
     close_popup page ;;
     ret tt).
Proof.
  apply (recorded_mono (extracted_record (py "video_url") (py "placeholder_video_")
                          (retry_for_unique page) (i + 1))); [by right|].
  unfold retry_for_unique, append_extracted.
  apply after_click_recorded;
    first [apply silent_simple_extract|apply returns_simple_extract
          |apply simple_close_unit_silent|apply simple_close_unit_returns].
Qed.

Lemma simple_process_figure_effect i figure :
  item_effect (video_record page (i + 1)) (i + 1)
    (process_figure page i figure).
Proof.
  unfold process_figure.
  apply item_effect_bind; [apply silent_always_same; silent_auto|]. intros figure_video_url.
  apply item_effect_bind; [apply silent_always_same; silent_auto|]. intros figure_id.
  apply item_effect_bind; [apply silent_always_same; silent_auto|]. intros [link|];
    [|apply item_effect_same, always_same_ret].
  apply item_effect_block.
  - destruct (_ && _) eqn:Hshown; [|apply block_effect_ret_false].
    apply block_effect_opens; [apply simple_click_for_prompt_opens|].
    apply (recorded_mono (shown_record (py "video_url") (i + 1))); [by left|].
    apply append_with_figure_url_recorded;
      [apply silent_simple_extract|apply returns_simple_extract
      |apply simple_close_unit_silent|].
    by apply andb_true_iff in Hshown as [_ Hhttp].
  - apply always_same_ret.
  - apply item_effect_bind; [apply silent_always_same; silent_auto|]. intros _.
    apply item_effect_opens; [apply simple_click_figure_link_opens| |apply always_same_ret].
    apply simple_after_click_recorded.
Qed.

(** On a page on which an item can be opened, the item is opened and
    has its record. *)
Lemma simple_click_figure_link_clicks i link :
  can_open page -> forall s, (click_figure_link page i link s).1 = Returned true.
Proof.
  intros Hpage. unfold click_figure_link.
  do 2 apply clicks_try. by apply clicks_by_mouse.
Qed.

Lemma simple_process_figure_opens i figure :
  can_open page ->
  always (one_more (video_record page (i + 1)) (i + 1))
    (process_figure page i figure).
Proof.
  intros Hpage. unfold process_figure.
  apply opened_after_returns;
    [apply silent_always_same; silent_auto
    |apply returns_try_except; intros _; apply returns_ret|].
  intros figure_video_url.
  apply opened_after_returns;
    [apply silent_always_same; silent_auto
    |apply returns_try_except; intros _; apply returns_ret|].
  intros figure_id.
  apply (opened_after _ _ is_Some); [apply silent_always_same; silent_auto| |].
  { intros s. destruct (Hpage (history s)) as (Hlink & _).
    destruct (Hlink figure) as [link E].
    unfold try_except, bind, find_element, expect_elem, bind, ask. rewrite E.
    by eexists _, _. }
  intros [link|] Hlink; [|by destruct Hlink].
  apply opened_either.
  - apply simple_click_for_prompt_opens.
  - intros Hshown.
    apply (recorded_mono (shown_record (py "video_url") (i + 1))); [by left|].
    apply append_with_figure_url_recorded;
      [apply silent_simple_extract|apply returns_simple_extract
      |apply simple_close_unit_silent|].
    by apply andb_true_iff in Hshown as [_ Hhttp].
  - apply opened_after_returns; [apply silent_always_same; silent_auto| |].
    { apply execute_script_returns. intros hist. by destruct (Hpage hist) as (_ & H & _). }
    intros _.
    apply opened_click;
      [apply simple_click_figure_link_opens|by apply simple_click_figure_link_clicks|].
    apply simple_after_click_recorded.
Qed.

End SimpleItem.

Section SimpleLoop.

Import Effects simple_scraper.

Variable page : browser.

Lemma simple_item_spec i figure s :
  exists s',
    try_except (process_figure page i figure)
      (fun _ => try_except (close_popup page ;; ret tt) (fun _ => ret tt)) s
    = (Returned tt, s')
    ∧ (same s s' ∨ one_more (video_record page (i + 1)) (i + 1) s s').
Proof.
  assert (returns (try_except (process_figure page i figure)
            (fun _ => try_except (close_popup page ;; ret tt) (fun _ => ret tt)))) as Hr.
  { apply returns_try_except. intros _. apply returns_try_except. intros _.
    apply returns_ret. }
  assert (item_effect (video_record page (i + 1)) (i + 1)
            (try_except (process_figure page i figure)
               (fun _ => try_except (close_popup page ;; ret tt) (fun _ => ret tt)))) as He.
  { apply item_effect_try_except; [apply simple_process_figure_effect|].
    intros _. apply silent_always_same. silent_auto. }
  destruct (Hr s) as ([] & s' & E). exists s'. split; [done|].
  specialize (He s). by rewrite E in He.
Qed.

(** The loop: the items that it opens are items of the list, in their
    order, and each of them has its record. *)
Lemma simple_process_figures_spec figures : forall i s,
  exists s' opened new,
    process_figures page i figures s = (Returned tt, s')
    ∧ clicked_items (history s') = clicked_items (history s) ++ opened
    ∧ videos_data s' = videos_data s ++ new
    ∧ Forall2 (video_record page) opened new
    ∧ opened `sublist_of` seq (i + 1) (length figures).
Proof.
  induction figures as [|figure rest IH]; intros i s; cbn [process_figures].
  - exists s, [], []. rewrite !app_nil_r. by split_and!; try constructor.
  - destruct (simple_item_spec i figure s) as (s1 & E & H).
    rewrite (bind_eq _ _ _ _ _ E).
    destruct (IH (i + 1)%nat s1) as (s' & opened & new & E' & C & V & Hrec & Hsub).
    cbn [length seq]. replace (S (i + 1)) with (i + 1 + 1)%nat by lia.
    destruct H as [[V1 C1]|[(r & Hr & V1) C1]].
    + exists s', opened, new. rewrite C, C1, V, V1.
      split_and!; try done. by apply sublist_cons.
    + exists s', ((i + 1)%nat :: opened), (r :: new).
      rewrite C, C1, V, V1, <- !app_assoc.
      split_and!; try done; [by constructor|by apply sublist_skip].
Qed.

(** On a page on which an item can be opened, the loop opens every
    item of the list. *)
Lemma simple_process_figures_opens_all figures :
  can_open page -> forall i s,
  clicked_items (history (process_figures page i figures s).2)
  = clicked_items (history s) ++ seq (i + 1) (length figures).
Proof.
  intros Hpage. induction figures as [|figure rest IH]; intros i s; cbn [process_figures].
  - by rewrite app_nil_r.
  - assert (always (one_more (video_record page (i + 1)) (i + 1))
              (try_except (process_figure page i figure)
                 (fun _ => try_except (close_popup page ;; ret tt) (fun _ => ret tt))))
      as He.
    { apply opened_try_except; [by apply simple_process_figure_opens|].
      intros _. apply silent_always_same. silent_auto. }
    destruct (simple_item_spec i figure s) as (s1 & E & _).
    specialize (He s). rewrite E in He. destruct He as [_ C]. cbn [snd] in C.
    rewrite (bind_eq _ _ _ _ _ E), IH, C, <- app_assoc. cbn [length seq app].
    by replace (S (i + 1)) with (i + 1 + 1)%nat by lia.
Qed.

End SimpleLoop.

Section ImageLoop.

Import Effects image_scraper.

Variable page : browser.
Variable srcset_best background_url : str -> option str.
Variable U : unicode_db.

Lemma image_click_figure_link_opens index link :
  opens index (click_figure_link page index link).
Proof.
  unfold click_figure_link.
  repeat (apply opens_try; [silent_auto|]). apply opens_ret_false.
Qed.

Lemma image_click_for_prompt_opens index link :
  opens index (click_for_prompt page index link).
Proof.
  unfold click_for_prompt.
  repeat (apply opens_try; [silent_auto|]). apply opens_ret_false.

Qed.

Lemma image_after_click_recorded total i link figure_image_url figure_id :
  always (recorded (item_record (py "image_url") (py "placeholder_image_")
                      (retry_for_unique page srcset_best background_url U)
                      (total - i) (i + 1)))
    (let* extracted_data := retry_for_unique page srcset_best background_url U link in
     append_extracted extracted_data figure_image_url figure_id (i + 1) ;;
     close_popup page).
Proof.
  apply (recorded_mono (extracted_record (py "image_url") (py "placeholder_image_")
                          (retry_for_unique page srcset_best background_url U) (i + 1)));
    [by right|].
  unfold retry_for_unique, append_extracted.
  apply after_click_recorded;
    first [apply silent_image_extract|apply returns_image_extract
          |apply silent_image_close_popup|apply returns_image_close_popup].
Qed.

Lemma image_process_figure_effect total i figure :
  item_effect (item_record (py "image_url") (py "placeholder_image_")
       (retry_for_unique page srcset_best background_url U) (total - i) (i + 1)) (total - i)
    (process_figure page srcset_best background_url U total i figure).
Proof.
  unfold process_figure. cbv zeta.
  apply item_effect_bind; [apply silent_always_same; silent_auto|]. intros _.
  apply item_effect_bind; [apply silent_always_same; silent_auto|]. intros _.
  apply item_effect_bind; [apply silent_always_same; silent_auto|]. intros figure_image_url.
  apply item_effect_bind; [apply silent_always_same; silent_auto|]. intros figure_id.
  apply item_effect_bind; [apply silent_always_same; silent_auto|]. intros link.
  apply item_effect_block.
  - destruct (_ && _) eqn:Hshown; [|apply block_effect_ret_false].
    apply block_effect_opens; [apply image_click_for_prompt_opens|].
    apply (recorded_mono (shown_record (py "image_url") (total - i))); [by left|].
    apply append_with_figure_url_recorded;
      [apply silent_image_extract|apply returns_image_extract
      |apply silent_image_close_popup|].
    by apply andb_true_iff in Hshown as [_ Hhttp].
  - apply always_same_ret.
  - apply item_effect_opens; [apply image_click_figure_link_opens| |apply always_same_ret].
    apply image_after_click_recorded.
Qed.

(** On a page on which an item can be opened, the item is opened and
    has its record. *)
Lemma image_click_figure_link_clicks index link :
  can_open page -> forall s, (click_figure_link page index link s).1 = Returned true.
Proof.
  intros Hpage. unfold click_figure_link.
  do 2 apply clicks_try. by apply clicks_by_mouse.
Qed.

Lemma image_process_figure_opens total i figure :
  can_open page ->
  always (one_more (item_record (py "image_url") (py "placeholder_image_")
       (retry_for_unique page srcset_best background_url U) (total - i) (i + 1)) (total - i))
    (process_figure page srcset_best background_url U total i figure).
Proof.
  intros Hpage. unfold process_figure.
  apply opened_after_returns; [apply silent_always_same; silent_auto| |].
  { apply execute_script_returns. intros hist. by destruct (Hpage hist) as (_ & _ & H & _). }
  intros _.
  apply opened_after_returns;
    [apply silent_always_same; silent_auto
    |apply returns_try_except; intros _; apply returns_ret|].
  intros _.
  apply opened_after_returns;
    [apply silent_always_same; silent_auto
    |apply returns_try_except; intros _; apply returns_ret|].
  intros figure_image_url.
  apply opened_after_returns;
    [apply silent_always_same; silent_auto
    |apply returns_try_except; intros _; apply returns_ret|].
  intros figure_id.
  apply opened_after_returns;
    [apply silent_always_same; silent_auto
    |apply returns_try_except; intros _; apply returns_ret|].
  intros link.
  apply opened_either.
  - apply image_click_for_prompt_opens.
  - intros Hshown.
    apply (recorded_mono (shown_record (py "image_url") (total - i))); [by left|].
    apply append_with_figure_url_recorded;
      [apply silent_image_extract|apply returns_image_extract
      |apply silent_image_close_popup|].
    by apply andb_true_iff in Hshown as [_ Hhttp].
  - apply opened_click;
      [apply image_click_figure_link_opens|by apply image_click_figure_link_clicks|].
    apply image_after_click_recorded.
Qed.

Lemma image_item_spec total i figure s :
  exists s',
    try_except (process_figure page srcset_best background_url U total i figure)
      (fun _ => try_except (close_popup page) (fun _ => ret tt)) s
    = (Returned tt, s')
    ∧ (same s s'
       ∨ one_more (item_record (py "image_url") (py "placeholder_image_")
       (retry_for_unique page srcset_best background_url U) (total - i) (i + 1))
           (total - i) s s').
Proof.
  assert (returns (try_except
            (process_figure page srcset_best background_url U total i figure)
            (fun _ => try_except (close_popup page) (fun _ => ret tt)))) as Hr.
  { apply returns_try_except. intros _. apply returns_try_except. intros _.
    apply returns_ret. }
  assert (item_effect (item_record (py "image_url") (py "placeholder_image_")
       (retry_for_unique page srcset_best background_url U) (total - i) (i + 1))
            (total - i)
            (try_except
               (process_figure page srcset_best background_url U total i figure)
               (fun _ => try_except (close_popup page) (fun _ => ret tt)))) as He.
  { apply item_effect_try_except; [apply image_process_figure_effect|].
    intros _. apply silent_always_same. silent_auto. }
  destruct (Hr s) as ([] & s' & E). exists s'. split; [done|].
  specialize (He s). by rewrite E in He.
Qed.

(** The loop, which goes through the list from its end: the items that
    it opens are items of the list, and each of them has its record. *)
Lemma image_process_figures_from_spec total figures : forall i s,
  (i + length figures <= total)%nat ->
  exists s' opened new,
    process_figures_from page srcset_best background_url U total i figures s
    = (Returned tt, s')
    ∧ clicked_items (history s') = clicked_items (history s) ++ opened
    ∧ videos_data s' = videos_data s ++ new
    ∧ Forall2 (image_record page srcset_best background_url U total) opened new
    ∧ opened `sublist_of` ((fun k => total - k)%nat <$> seq i (length figures)).
Proof.
  induction figures as [|figure rest IH]; intros i s Hi; cbn [process_figures_from].
  - exists s, [], []. rewrite !app_nil_r. by split_and!; try constructor.
  - cbn [length] in Hi.
    destruct (image_item_spec total i figure s) as (s1 & E & H).
    rewrite (bind_eq _ _ _ _ _ E).
    destruct (IH (i + 1)%nat s1) as (s' & opened & new & E' & C & V & Hrec & Hsub); [lia|].
    cbn [length seq fmap list_fmap]. replace (S i) with (i + 1)%nat by lia.
    destruct H as [[V1 C1]|[(r & Hr & V1) C1]].
    + exists s', opened, new. rewrite C, C1, V, V1.
      split_and!; try done. by apply sublist_cons.
    + exists s', ((total - i)%nat :: opened), (r :: new).
      rewrite C, C1, V, V1, <- !app_assoc.
      split_and!; try done; [|by apply sublist_skip].
      constructor; [|done]. unfold image_record.
      by replace (total + 1 - (total - i))%nat with (i + 1)%nat by lia.
Qed.

(** On a page on which an item can be opened, the loop opens every
    item of the list. *)
Lemma image_process_figures_opens_all total figures :
  can_open page -> forall i s,
  clicked_items
    (history (process_figures_from page srcset_best background_url U total i figures s).2)
  = clicked_items (history s) ++ ((fun k => total - k)%nat <$> seq i (length figures)).
Proof.
  intros Hpage. induction figures as [|figure rest IH]; intros i s;
    cbn [process_figures_from].
  - by rewrite app_nil_r.
  - assert (always (one_more (item_record (py "image_url") (py "placeholder_image_")
       (retry_for_unique page srcset_best background_url U) (total - i) (i + 1))
                      (total - i))
              (try_except
                 (process_figure page srcset_best background_url U total i figure)
                 (fun _ => try_except (close_popup page) (fun _ => ret tt)))) as He.
    { apply opened_try_except; [by apply image_process_figure_opens|].
      intros _. apply silent_always_same. silent_auto. }
    destruct (image_item_spec total i figure s) as (s1 & E & _).
    specialize (He s). rewrite E in He. destruct He as [_ C]. cbn [snd] in C.
    rewrite (bind_eq _ _ _ _ _ E), IH, C, <- app_assoc.
    cbn [length seq app fmap list_fmap].
    by replace (S i) with (i + 1)%nat by lia.
Qed.

Lemma countdown_rev N : (fun k => N - k)%nat <$> seq 0 N = rev (seq 1 N).
Proof.
  induction N as [|N IH]; [done|].
  rewrite (seq_S N 1), rev_app_distr. cbn [rev app seq fmap list_fmap].
  replace (S N - 0)%nat with (1 + N)%nat by lia. f_equal.
  rewrite <- IH, <- seq_shift. change (map S (seq 0 N)) with (S <$> seq 0 N).
  rewrite <- list_fmap_compose. by apply list_fmap_ext.
Qed.

End ImageLoop.

Lemma all_opened_length (N : nat) (opened : list nat) :
  (forall i, (1 <= i <= N)%nat -> i ∈ opened) -> (N <= length opened)%nat.
Proof.
  intros H.
  assert (seq 1 N ⊆+ opened) as Hsub.
  { apply NoDup_submseteq; [apply NoDup_seq|].
    intros i Hi%elem_of_seq. apply H. lia. }
  apply submseteq_length in Hsub. by rewrite length_seq in Hsub.
Qed.

Lemma sublist_full {A} (l1 l2 : list A) :
  l1 `sublist_of` l2 -> (length l2 <= length l1)%nat -> l1 = l2.
Proof.
  induction 1 as [|x l1 l2 Hsub IH|x l1 l2 Hsub IH]; cbn [length]; intros Hlen.
  - done.
  - f_equal. apply IH. lia.
  - apply sublist_length in Hsub. lia.
Qed.

Lemma sublist_all_opened (N : nat) (opened l : list nat) :
  length l = N -> opened `sublist_of` l ->
  (forall i, (1 <= i <= N)%nat -> i ∈ opened) -> opened = l.
Proof.
  intros Hl Hsub Hall. apply sublist_full; [done|].
  apply all_opened_length in Hall. lia.
Qed.

(** C2: whatever the page answers, the item loops of simple_scraper.py
    and image_scraper.py return, and the records that they have
    appended are the records of the items that were opened (lines
    "Clicked figure link" of the log), one for each and in the same
    order: there are as many records as opened items.  The items that
    were opened are items of the list, each opened once, and an item
    that was not opened has no record.  The record of an opened item
    holds its URL, its prompt, its position and the identifier of its
    figure.  It is the record of an item that shows its URL, and keeps
    it, or the record that [append_extracted] makes of what the
    extraction, with its retries, has returned: the URL that was
    extracted or, without one, the URL that the figure shows or, without
    either, a placeholder made of the identifier of the figure or of
    the position of the item.  Its URL is never empty.  So, when each
    of the [N] items was opened, there are exactly [N] records; and
    each of them is opened on a page on which the link of a figure is
    found and the click by the mouse goes through. *)
Theorem every_opened_item_yields_one_record (page : browser) (U : unicode_db)
    (srcset_best background_url : str -> option str) (figures : list element) :
  let N := length figures in
  let videos := simple_scraper.process_figures page 0 figures Scrolling.start in
  let images := image_scraper.process_figures page srcset_best background_url U figures
                  Scrolling.start in
  (videos.1 = Returned tt
   ∧ Effects.clicked_items (history videos.2) `sublist_of` seq 1 N
   ∧ Forall2 (Effects.video_record page)
       (Effects.clicked_items (history videos.2)) (videos_data videos.2)
   ∧ length (videos_data videos.2) = length (Effects.clicked_items (history videos.2))
   ∧ Forall (fun r => truthy (get_default r (py "video_url") PNone) = true)
       (videos_data videos.2)
   ∧ (Effects.all_opened N (history videos.2) ->
      Effects.clicked_items (history videos.2) = seq 1 N
      ∧ length (videos_data videos.2) = N)
   ∧ (Effects.can_open page -> Effects.all_opened N (history videos.2)))
  ∧ (images.1 = Returned tt
     ∧ Effects.clicked_items (history images.2) `sublist_of` rev (seq 1 N)
     ∧ Forall2 (Effects.image_record page srcset_best background_url U N)
         (Effects.clicked_items (history images.2)) (videos_data images.2)
     ∧ length (videos_data images.2) = length (Effects.clicked_items (history images.2))
     ∧ Forall (fun r => truthy (get_default r (py "image_url") PNone) = true)
         (videos_data images.2)
     ∧ (Effects.all_opened N (history images.2) ->
        Effects.clicked_items (history images.2) = rev (seq 1 N)
        ∧ length (videos_data images.2) = N)
     ∧ (Effects.can_open page -> Effects.all_opened N (history images.2)))
  ∧ (forall extracted_data figure_url figure_id index s,
       simple_scraper.append_extracted extracted_data figure_url figure_id index s
       = (Returned tt,
          {| history := history s;
             videos_data :=
               videos_data s ++
               [Effects.record_of (py "video_url")
                  (Effects.record_url (py "video_url") (py "placeholder_video_")
                     extracted_data figure_url figure_id index)
                  (Effects.record_prompt (py "video_url") extracted_data)
                  index figure_id] |}))
  ∧ (forall extracted_data figure_url figure_id index s,
       image_scraper.append_extracted extracted_data figure_url figure_id index s
       = (Returned tt,
          {| history := history s;
             videos_data :=
               videos_data s ++
               [Effects.record_of (py "image_url")
                  (Effects.record_url (py "image_url") (py "placeholder_image_")
                     extracted_data figure_url figure_id index)
                  (Effects.record_prompt (py "image_url") extracted_data)
                  index figure_id] |})).
Proof.
  intros N videos images.
  destruct (simple_process_figures_spec page figures 0%nat Scrolling.start)
    as (s1 & opened1 & new1 & E1 & C1 & V1 & R1 & S1).
  destruct (image_process_figures_from_spec page srcset_best background_url U
              (length figures) (rev figures) 0%nat Scrolling.start)
    as (s2 & opened2 & new2 & E2 & C2 & V2 & R2 & S2); [by rewrite length_rev|].
  rewrite length_rev, countdown_rev in S2. fold N in S1, S2, R2.
  cbn [Scrolling.start history videos_data Effects.clicked_items Effects.log_lines
       omap list_omap app] in C1, V1, C2, V2.
  assert (videos = (Returned tt, s1)) as -> by done.
  assert (images = (Returned tt, s2)) as -> by done.
  cbn [fst snd]. rewrite C1, V1, C2, V2.
  split_and!; try done.
  - symmetry. by eapply Forall2_length.
  - clear -R1. induction R1 as [|index r opened new Hr _ IH]; constructor; [|done].
    eapply item_record_truthy; [|exact Hr]. by vm_compute.
  - intros Hall. unfold Effects.all_opened in Hall. rewrite C1 in Hall.
    assert (opened1 = seq 1 N) as ->.
    { apply (sublist_all_opened N); [apply length_seq|done|done]. }
    split; [done|]. apply Forall2_length in R1. by rewrite <- R1, length_seq.
  - intros Hpage i Hi.
    pose proof (simple_process_figures_opens_all page figures Hpage 0%nat Scrolling.start)
      as Hall.
    rewrite E1 in Hall. cbn [snd] in Hall. rewrite Hall.
    apply elem_of_seq. fold N. lia.
  - symmetry. by eapply Forall2_length.
  - clear -R2. induction R2 as [|index r opened new Hr _ IH]; constructor; [|done].
    eapply item_record_truthy; [|exact Hr]. by vm_compute.
  - intros Hall. unfold Effects.all_opened in Hall. rewrite C2 in Hall.
    assert (opened2 = rev (seq 1 N)) as ->.
    { apply (sublist_all_opened N); [by rewrite length_rev, length_seq|done|done]. }
    split; [done|]. apply Forall2_length in R2.
    by rewrite <- R2, length_rev, length_seq.
  - intros Hpage i Hi.
    pose proof (image_process_figures_opens_all page srcset_best background_url U
                  (length figures) (rev figures) Hpage 0%nat Scrolling.start) as Hall.
    rewrite E2 in Hall. cbn [snd] in Hall. rewrite length_rev, countdown_rev in Hall.
    rewrite Hall. fold N.
    change (i ∈ rev (seq 1 N)). apply list_elem_of_In. rewrite <- in_rev.
    apply in_seq. lia.
  - intros. apply append_extracted_eq.
  - intros. apply append_extracted_eq.
Qed.

Lemma every_opened_item_yields_one_record_witness :
  let videos := simple_scraper.process_figures Effects.plain_page 0 [7; 8]%nat
                  Scrolling.start in
  let images := image_scraper.process_figures Effects.plain_page
                  (fun _ => None) (fun _ => None) ascii_db [7; 8]%nat
                  Scrolling.start in
  Effects.can_open Effects.plain_page
  ∧ Effects.clicked_items (history videos.2) = [1; 2]%nat
  ∧ length (videos_data videos.2) = 2%nat
  ∧ videos_data videos.2
    = [[(py "video_url", PStr (py "placeholder_video_1"));
        (py "prompt", PStr (py "No prompt found"));
        (py "figure_index", PInt 1); (py "figure_id", PNone)];
       [(py "video_url", PStr (py "placeholder_video_2"));
        (py "prompt", PStr (py "No prompt found"));
        (py "figure_index", PInt 2); (py "figure_id", PNone)]]
  ∧ Effects.clicked_items (history images.2) = [2; 1]%nat
  ∧ length (videos_data images.2) = 2%nat.
Proof.
  intros videos images.
  assert (Effects.can_open Effects.plain_page) as Hpage.
  { intros hist. split_and!; [intros figure; by exists 1%nat|done..]. }
  destruct (every_opened_item_yields_one_record Effects.plain_page ascii_db
              (fun _ => None) (fun _ => None) [7; 8]%nat)
    as ((_ & _ & _ & _ & _ & Hv & Ov) & (_ & _ & _ & _ & _ & Hi & Oi) & _).
  destruct (Hv (Ov Hpage)) as [Cv Lv]. destruct (Hi (Oi Hpage)) as [Ci Li].
  split_and!; [exact Hpage|exact Cv|exact Lv|vm_compute; reflexivity|exact Ci|exact Li].
Defined.

(** ** The low-count report, written and read back *)

Section Strings.

Lemma lstrip_spaces w s : forallb isspace w = true -> lstrip (w ++ s) = lstrip s.
Proof.
  induction w as [|c w IH]; [done|]. cbn [forallb app lstrip].
  intros [-> Hw]%andb_true_iff. by apply IH.
Qed.

Lemma lstrip_stop c s : isspace c = false -> lstrip (c :: s) = c :: s.
Proof. intros H. cbn [lstrip]. by rewrite H. Qed.

Lemma lstrip_app_stop a c b :
  isspace c = false -> lstrip (a ++ c :: b) = lstrip a ++ c :: b.
Proof.
  intros H. induction a as [|x a IH]; cbn [app lstrip].
  - by rewrite H.
  - destruct (isspace x); [exact IH|done].
Qed.

Lemma rstrip_spaces w : forallb isspace w = true -> rstrip w = [].
Proof.
  intros H. unfold rstrip.
  rewrite <- (app_nil_r (rev w)), lstrip_spaces; [done|].
  rewrite forallb_forall in *. intros x Hx%in_rev. by apply H.
Qed.

Lemma rstrip_app p c s :
  isspace c = false -> rstrip ((p ++ [c]) ++ s) = (p ++ [c]) ++ rstrip s.
Proof.
  intros H. unfold rstrip.
  rewrite !rev_app_distr. cbn [rev app].
  rewrite lstrip_app_stop by done.
  rewrite rev_app_distr. cbn [rev]. by rewrite rev_involutive.
Qed.

Lemma trimmed_inv s :
  Report.trimmed s = true ->
  (exists c s', s = c :: s' ∧ isspace c = false)
  ∧ (exists s0 z, s = s0 ++ [z] ∧ isspace z = false).
Proof.
  unfold Report.trimmed. intros [H1 H2]%andb_true_iff. split.
  - destruct s as [|c s']; [done|]. exists c, s'. split; [done|].
    by apply negb_true_iff.
  - destruct (last s) as [z|] eqn:E; [|done].
    apply last_Some in E as [s0 ->]. exists s0, z. split; [done|].
    by apply negb_true_iff.
Qed.

(** [strip] leaves a text that starts and ends with something else than
    white space, and removes white space around it. *)
Lemma strip_app_trimmed p s :
  Report.trimmed p = true -> strip (p ++ s) = p ++ rstrip s.
Proof.
  intros [(c & p' & -> & Hc) (p0 & z & E & Hz)]%trimmed_inv.
  unfold strip. cbn [app]. rewrite lstrip_stop by done.
  change (c :: p' ++ s) with ((c :: p') ++ s).
  change (c :: p' ++ rstrip s) with ((c :: p') ++ rstrip s). rewrite E.
  by apply rstrip_app.
Qed.

Lemma strip_core pre core post :
  forallb isspace pre = true -> forallb isspace post = true ->
  Report.trimmed core = true ->
  strip (pre ++ core ++ post) = core.
Proof.
  intros Hpre Hpost Hcore. unfold strip. rewrite lstrip_spaces by done.
  fold (strip (core ++ post)). rewrite strip_app_trimmed by done.
  by rewrite rstrip_spaces, app_nil_r.
Qed.

Lemma startswith_app p s : startswith p (p ++ s) = true.
Proof. induction p as [|c p IH]; [done|]. cbn. by rewrite N.eqb_refl. Qed.

Lemma startswith_mismatch t p r :
  Report.mismatch t p = true -> startswith t (p ++ r) = false.
Proof.
  revert p. induction t as [|a t IH]; intros [|b p]; try done.
  cbn. destruct (a =? b); [|done]. cbn. apply IH.
Qed.

(** An occurrence that starts in [b] ends in [b] when what follows [b]
    is a character that the text looked for does not have. *)
Lemma startswith_overlap p b c rest :
  c ∉ p -> b ≠ [] -> startswith p (b ++ c :: rest) = true -> startswith p b = true.
Proof.
  revert b. induction p as [|a p IH]; intros b Hc Hb; [done|].
  destruct b as [|x b]; [done|]. cbn.
  intros [Hax Hp]%andb_true_iff. rewrite Hax. cbn.
  destruct b as [|y b].
  - destruct p as [|a' p]; [done|]. cbn in Hp.
    apply andb_true_iff in Hp as [Heq%N.eqb_eq _]. subst.
    exfalso. apply Hc. apply list_elem_of_further, list_elem_of_here.
  - apply IH; [|done|exact Hp]. intros H. apply Hc. by apply list_elem_of_further.
Qed.

Lemma contains_cons p c s :
  contains p (c :: s) = false -> startswith p (c :: s) = false ∧ contains p s = false.
Proof. cbn [contains]. by intros [? ?]%orb_false_iff. Qed.

Lemma replace_go_absent old new s :
  contains old s = false -> replace_go old new 0 s = s.
Proof.
  induction s as [|c s IH]; [done|].
  intros [H1 H2]%contains_cons. cbn [replace_go]. rewrite H1. by rewrite IH.
Qed.

Lemma universal_newlines_id s :
  forallb (fun c => negb (c =? 13)) s = true -> universal_newlines s = s.
Proof.
  induction s as [|c s IH]; [done|]. cbn [forallb universal_newlines].
  intros [Hc Hs]%andb_true_iff. apply negb_true_iff in Hc. rewrite Hc.
  by rewrite IH.
Qed.

Lemma readlines_line l rest :
  forallb (fun c => negb (c =? 10)) l = true ->
  readlines (l ++ 10 :: rest) = (l ++ [10]) :: readlines rest.
Proof.
  induction l as [|c l IH]; [done|]. cbn [forallb app readlines].
  intros [Hc Hl]%andb_true_iff. apply negb_true_iff in Hc. rewrite Hc.
  by rewrite IH.
Qed.

Lemma readlines_unlines ls :
  Forall (fun l => forallb (fun c => negb (c =? 10)) l = true) ls ->
  readlines (Report.unlines ls) = (fun l => l ++ [10]) <$> ls.
Proof.
  unfold Report.unlines. induction 1 as [|l ls Hl _ IH]; [done|].
  cbn [fmap list_fmap concat]. rewrite <- app_assoc. cbn [app].
  rewrite readlines_line by done. by rewrite IH.
Qed.

End Strings.

Section Digits.

#[local] Ltac Zify.zify_post_hook ::= Z.to_euclidean_division_equations.

Lemma digits_go_app fuel : forall n acc,
  digits_go fuel n acc = digits_go fuel n [] ++ acc.
Proof.
  induction fuel as [|f IH]; intros n acc; [done|]. cbn [digits_go].
  destruct (n <? 10); [done|].
  rewrite (IH _ (_ :: acc)), (IH _ [_]), <- app_assoc. done.
Qed.

Lemma digits_go_digits fuel : forall n acc,
  forallb ascii_digit acc = true -> forallb ascii_digit (digits_go fuel n acc) = true.
Proof.
  induction fuel as [|f IH]; intros n acc Hacc; [done|]. cbn [digits_go].
  assert (forallb ascii_digit ((48 + n mod 10) :: acc) = true) as H.
  { cbn [forallb]. rewrite Hacc, andb_true_r. unfold ascii_digit.
    assert (n mod 10 < 10) by (by apply N.mod_lt). apply andb_true_iff. split; apply N.leb_le; lia. }
  destruct (n <? 10); [done|]. by apply IH.
Qed.

Lemma str_of_N_digits n : forallb ascii_digit (str_of_N n) = true.
Proof. by apply digits_go_digits. Qed.

Lemma str_of_N_cons n : exists d ds, str_of_N n = d :: ds ∧ ascii_digit d = true.
Proof.
  pose proof (str_of_N_digits n) as H.
  destruct (str_of_N n) as [|d ds] eqn:E.
  - unfold str_of_N in E. cbn [digits_go] in E.
    destruct (n <? 10); [done|]. rewrite digits_go_app in E.
    by apply app_eq_nil in E as [_ ?].
  - exists d, ds. split; [done|]. cbn [forallb] in H.
    by apply andb_true_iff in H as [? _].
Qed.

Lemma pos_size_nat_gt p : N.pos p < 2 ^ N.of_nat (Pos.size_nat p).
Proof.
  induction p as [p IH|p IH|]; cbn [Pos.size_nat];
    rewrite ?Nat2N.inj_succ, ?N.pow_succ_r'; lia.
Qed.

Lemma size_nat_gt n : n < 2 ^ N.of_nat (N.size_nat n).
Proof. destruct n as [|p]; [done|]. apply pos_size_nat_gt. Qed.

Lemma int_of_digits_go U fuel : forall n,
  n < 2 ^ N.of_nat (S fuel) ->
  foldl (int_step U) (Some 0) (digits_go (S fuel) n []) = Some n.
Proof.
  assert (forall n, decimal U (48 + n mod 10) = Some (n mod 10)) as Hd.
  { intros n. assert (n mod 10 < 10) by (by apply N.mod_lt). unfold decimal, ascii_decimal.
    replace (48 + n mod 10 <? 128) with true by (symmetry; apply N.ltb_lt; lia).
    replace (48 <=? 48 + n mod 10) with true by (symmetry; apply N.leb_le; lia).
    replace (48 + n mod 10 <=? 57) with true by (symmetry; apply N.leb_le; lia).
    cbn. f_equal. lia. }
  induction fuel as [|f IH]; intros n Hn;
    change (digits_go (S ?g) n [])
      with (if n <? 10 then [48 + n mod 10] else digits_go g (n / 10) [48 + n mod 10]).
  - replace (n <? 10) with true by (symmetry; apply N.ltb_lt; cbn in Hn; lia).
    cbn [foldl]. unfold int_step. rewrite Hd. f_equal.
    rewrite N.mod_small by (cbn in Hn; lia). lia.
  - destruct (n <? 10) eqn:E.
    + apply N.ltb_lt in E. cbn [foldl]. unfold int_step. rewrite Hd. f_equal.
      rewrite N.mod_small by lia. lia.
    + rewrite digits_go_app, foldl_app, IH.
      * cbn [foldl]. unfold int_step. rewrite Hd. f_equal.
        pose proof (N.div_mod n 10). lia.
      * rewrite Nat2N.inj_succ, N.pow_succ_r' in Hn.
        apply N.Div0.div_lt_upper_bound. lia.
Qed.

Lemma int_of_str_of_N U n :
  printable (Z.of_N n) = true -> int_of_str U (str_of_N n) = Some n.
Proof.
  unfold printable. rewrite Zabs2N.id. intros Hn.
  destruct (str_of_N_cons n) as (d & ds & E & _).
  unfold int_of_str. rewrite E, <- E, Hn.
  unfold str_of_N. apply int_of_digits_go.
  pose proof (size_nat_gt n). rewrite Nat2N.inj_succ, N.pow_succ_r'. lia.
Qed.

Lemma ascii_digit_not_space c : ascii_digit c = true -> isspace c = false.
Proof.
  unfold ascii_digit, isspace. intros [H1%N.leb_le H2%N.leb_le]%andb_true_iff.
  repeat (apply orb_false_iff; split);
    try (apply andb_false_iff; (left; apply N.leb_gt; lia) || (right; apply N.leb_gt; lia));
    apply N.eqb_neq; lia.
Qed.

Lemma ascii_digit_digit U c : ascii_digit c = true -> Re.digit U c = true.
Proof.
  unfold ascii_digit, Re.digit, decimal, ascii_decimal.
  intros H. pose proof H as [H1%N.leb_le H2%N.leb_le]%andb_true_iff.
  replace (c <? 128) with true by (symmetry; apply N.ltb_lt; lia).
  by rewrite H.
Qed.

Lemma ascii_digit_one_line ds :
  forallb ascii_digit ds = true ->
  forallb (fun c => negb ((c =? 10) || (c =? 13))) ds = true.
Proof.
  rewrite !forallb_forall. intros H c Hc. specialize (H c Hc).
  unfold ascii_digit in H. apply andb_true_iff in H as [H1%N.leb_le H2%N.leb_le].
  apply negb_true_iff, orb_false_iff. split; apply N.eqb_neq; lia.
Qed.

End Digits.

Section Regex.

Import Re.

Context {A : Type}.

Implicit Types (k : str -> captures -> option A) (s w : str).

Lemma rep_greedy_all p w : forall least s (k : str -> option A) a,
  forallb p w = true -> (least <= length w)%nat -> stops p s ->
  k s = Some a ->
  rep_greedy p least (w ++ s) k = Some a.
Proof.
  induction w as [|c w IH]; intros least s k a Hw Hl Hs Hk.
  - assert (least = 0%nat) as -> by (cbn in Hl; lia).
    destruct s as [|c s]; cbn in *; [done|]. by rewrite Hs.
  - cbn [forallb] in Hw. apply andb_true_iff in Hw as [Hc Hw].
    cbn [app rep_greedy]. rewrite Hc.
    rewrite (IH (pred least) s k a); [done..| |done|done].
    cbn in Hl. lia.
Qed.

(** A greedy run over [m] fails when what follows fails at every place
    it may stop; [Q] holds of the rest of [m] at these places. *)
Lemma rep_greedy_none p (Q : str -> Prop) rest (k : str -> option A) :
  (forall c m, Q (c :: m) ->
     k ((c :: m) ++ rest) = None ∧ (p c = true -> Q m ∧ m ≠ [])) ->
  forall m, m ≠ [] -> Q m -> rep_greedy p 0 (m ++ rest) k = None.
Proof.
  intros HQ. induction m as [|c m IH]; intros Hm Hq; [done|].
  destruct (HQ c m Hq) as [Hk Hp]. cbn [app rep_greedy pred].
  destruct (p c).
  - destruct Hp as [Hq' Hm']; [done|]. by rewrite IH.
  - exact Hk.
Qed.

Lemma rep_lazy_0 p s (k : str -> option A) :
  rep_lazy p 0 s k
  = match k s with
    | Some a => Some a
    | None => match s with
              | c :: s' => if p c then rep_lazy p 0 s' k else None
              | [] => None
              end
    end.
Proof. by destruct s. Qed.

(** A lazy run passes over [n] when what follows fails at every place
    before the end of [n]. *)
Lemma rep_lazy_until p (Q : str -> Prop) rest (k : str -> option A) a :
  (forall c m, Q (c :: m) -> p c = true ∧ k ((c :: m) ++ rest) = None ∧ Q m) ->
  k rest = Some a ->
  forall n, Q n -> rep_lazy p 0 (n ++ rest) k = Some a.
Proof.
  intros HQ Hk. induction n as [|c n IH]; intros Hq; rewrite rep_lazy_0.
  - cbn [app]. by rewrite Hk.
  - destruct (HQ c n Hq) as (Hp & Hnone & Hq'). rewrite Hnone.
    cbn [app]. rewrite Hp. by apply IH.
Qed.

Lemma exec_cat r1 r2 s caps k :
  exec (Cat r1 r2) s caps k = exec r1 s caps (fun s' caps' => exec r2 s' caps' k).
Proof. done. Qed.

Lemma exec_lit t s caps k : exec (Lit t) (t ++ s) caps k = k s caps.
Proof. cbn [exec]. by rewrite startswith_app, drop_app_length. Qed.

Lemma exec_lit_none t s caps k : startswith t s = false -> exec (Lit t) s caps k = None.
Proof. cbn [exec]. by intros ->. Qed.

Lemma exec_grp i r s caps k :
  exec (Grp i r) s caps k
  = exec r s caps (fun s' caps' => k s' ((i, take (length s - length s') s) :: caps')).
Proof. done. Qed.

Lemma exec_greedy_all p least w s caps k a :
  forallb p w = true -> (least <= length w)%nat -> stops p s ->
  k s caps = Some a ->
  exec (Rep p least true) (w ++ s) caps k = Some a.
Proof. intros. cbn [exec]. by apply rep_greedy_all. Qed.

End Regex.

Section Pattern.

Import Re range_scraper Report.

Variable U : unicode_db.

Lemma no_count_tail c m : no_count (c :: m) -> no_count m.
Proof.
  intros ([|(m0 & z & E & Hz)] & Hdot & Hc); [done|].
  cbn [forallb] in Hdot. apply andb_true_iff in Hdot as [_ Hdot].
  apply contains_cons in Hc as [_ Hc].
  split; [|done]. destruct m0 as [|x m0]; injection E as -> ->; [by left|].
  right. by exists m0, z.
Qed.

Lemma no_count_of_plain s :
  Report.trimmed s = true -> Report.one_line s = true ->
  contains (py "(Count:") s = false -> no_count s.
Proof.
  intros [_ (s0 & z & -> & Hz)]%trimmed_inv Hl Hc. split; [|split; [|done]].
  - right. by exists s0, z.
  - unfold Report.one_line in Hl. rewrite forallb_forall in *.
    intros c Hin. specialize (Hl c Hin). unfold dot.
    apply negb_true_iff, orb_false_iff in Hl as [-> _]. done.
Qed.

Lemma count_prefix_fails c m rest :
  no_count (c :: m) -> startswith (py "(Count:") ((c :: m) ++ 32 :: rest) = false.
Proof.
  intros (_ & _ & [Hc _]%contains_cons).
  destruct (startswith _ (_ ++ _)) eqn:E; [|done].
  apply startswith_overlap in E; [congruence| |done].
  apply (bool_decide_eq_false_1 (32 ∈ py "(Count:")). reflexivity.
Qed.

Lemma count_pattern_fails {A} m rest caps (k : str -> captures -> option A) :
  m ≠ [] -> no_count m ->
  exec (count_pattern U) (m ++ 32 :: rest) caps k = None.
Proof.
  intros Hm Hq. unfold count_pattern. rewrite exec_cat. cbn [exec].
  apply (rep_greedy_none space no_count); [|done..].
  intros c m' Hq'. split.
  - by rewrite count_prefix_fails.
  - intros Hc. split; [by apply no_count_tail in Hq'|].
    intros ->. destruct Hq' as ([|(m0 & z & E & Hz)] & _); [done|].
    destruct m0 as [|? [|]]; try done. injection E as ->.
    unfold space in Hc. congruence.
Qed.

Lemma count_pattern_matches {A} ds caps (k : str -> captures -> option A) a :
  ds ≠ [] -> forallb ascii_digit ds = true ->
  k [] ((2%nat, ds) :: caps) = Some a ->
  exec (count_pattern U) (py " (Count: " ++ ds ++ py ")") caps k = Some a.
Proof.
  intros Hne Hds Hk. unfold count_pattern. rewrite exec_cat.
  change (py " (Count: " ++ ds ++ py ")")
    with ([32] ++ py "(Count:" ++ [32] ++ ds ++ py ")").
  apply exec_greedy_all; [done|cbn; lia|done|].
  rewrite exec_cat, exec_lit, exec_cat.
  apply exec_greedy_all; [done|cbn; lia| |].
  { destruct ds as [|d ds]; [done|]. cbn [forallb] in Hds.
    apply andb_true_iff in Hds as [Hd _]. by apply ascii_digit_not_space. }
  rewrite exec_cat, exec_grp.
  apply exec_greedy_all; [| |done|].
  - rewrite forallb_forall in *. intros c Hc. by apply ascii_digit_digit, Hds.
  - destruct ds; [done|]. cbn. lia.
  - change (py ")") with (py ")" ++ []). rewrite exec_lit.
    rewrite length_app, Nat.add_sub, take_app_length. exact Hk.
Qed.

(** The pattern on a line as the analysis writes it: the first group is
    the name, the second the digits of the count. *)
Lemma subcategory_pattern_matches name ds :
  Report.trimmed name = true -> Report.one_line name = true ->
  contains (py "(Count:") name = false ->
  ds ≠ [] -> forallb ascii_digit ds = true ->
  re_match (subcategory_pattern U)
    ([8226] ++ py " " ++ name ++ py " (Count: " ++ ds ++ py ")")
  = Some [(2%nat, ds); (1%nat, name)].
Proof.
  intros Ht Hl Hc Hne Hds.
  pose proof (no_count_of_plain name Ht Hl Hc) as Hq.
  apply trimmed_inv in Ht as [(c & n & -> & Hsp) _].
  unfold re_match, subcategory_pattern. rewrite exec_cat.
  apply (exec_greedy_all _ _ []); [done|done|done|].
  rewrite exec_cat.
  change (8226 :: py " " ++ ?x) with ([8226] ++ [32] ++ x).
  rewrite exec_lit, exec_cat.
  apply exec_greedy_all; [done|cbn; lia|exact Hsp|].
  rewrite exec_cat, exec_grp. cbn [exec app rep_lazy].
  destruct Hq as (Hq1 & Hq2 & Hq3).
  pose proof Hq2 as Hdot. cbn [forallb] in Hdot.
  apply andb_true_iff in Hdot as [-> _].
  apply (rep_lazy_until dot no_count).
  - intros x m Hm. split; [|split].
    + destruct Hm as (_ & Hd & _). cbn [forallb] in Hd.
      by apply andb_true_iff in Hd as [? _].
    + by apply count_pattern_fails.
    + by apply no_count_tail in Hm.
  - apply count_pattern_matches; [done..|].
    do 3 f_equal. cbn [length].
    replace (S (length (n ++ py " (Count: " ++ ds ++ py ")"))
             - length (py " (Count: " ++ ds ++ py ")"))%nat
      with (length (c :: n)) by (rewrite length_app; cbn [length]; lia).
    change (c :: n ++ ?x) with ((c :: n) ++ x). by rewrite take_app_length.
  - apply (no_count_tail c). by split.
Qed.

End Pattern.

Section ParseLines.

Import Re range_scraper Report.

Variable U : unicode_db.

Lemma trimmed_app p q :
  match p with c :: _ => negb (isspace c) | [] => false end = true ->
  match last q with Some c => negb (isspace c) | None => false end = true ->
  trimmed (p ++ q) = true.
Proof.
  intros Hp Hq. unfold trimmed. destruct p as [|c p]; [done|].
  cbn [app]. rewrite Hp. cbn [andb].
  change (c :: p ++ q) with ((c :: p) ++ q). rewrite last_app.
  by destruct (last q).
Qed.

Lemma trimmed_last s :
  trimmed s = true ->
  match last s with Some c => negb (isspace c) | None => false end = true.
Proof. unfold trimmed. by intros [_ ?]%andb_true_iff. Qed.

Lemma strip_trimmed s : trimmed s = true -> strip s = s.
Proof.
  intros H. rewrite <- (app_nil_r s) at 1.
  rewrite strip_app_trimmed by done. by rewrite app_nil_r.
Qed.

Lemma strip_lead pre core :
  forallb isspace pre = true -> trimmed core = true -> strip (pre ++ core) = core.
Proof.
  intros Hpre Hcore. rewrite <- (app_nil_r core) at 1. by apply strip_core.
Qed.

(** A line that is neither a category line nor a bullet line changes
    nothing. *)
Lemma parse_line_ignored st raw :
  startswith (py "CATEGORY:") (strip raw) = false ->
  startswith [8226] (strip raw) = false ->
  parse_line U st raw = Returned st.
Proof.
  intros H1 H2. unfold parse_line. cbv zeta. rewrite H1, H2.
  destruct (_ || _); [done|]. destruct (_ || _); [done|].
  by destruct (current_category st) as [[|? ?]|].
Qed.

Lemma parse_line_ignored_take st n line :
  trimmed (take n line) = true ->
  mismatch (py "CATEGORY:") (take n line) = true ->
  mismatch [8226] (take n line) = true ->
  parse_line U st line = Returned st.
Proof.
  intros Ht H1 H2. rewrite <- (take_drop n line).
  apply parse_line_ignored; rewrite strip_app_trimmed by done;
    by apply startswith_mismatch.
Qed.

Lemma parse_line_blank st : parse_line U st [10] = Returned st.
Proof. by apply parse_line_ignored. Qed.

Lemma category_line_tests r :
  let line := py "CATEGORY: " ++ r in
  (bool_decide (line = []) || startswith (py "=") line || startswith (py "-") line
   || startswith (py "CATEGORIES") line || startswith (py "SUMMARY") line) = false
  ∧ startswith (py "CATEGORY:") line = true
  ∧ replace (py "CATEGORY:") [] line = 32 :: replace_go (py "CATEGORY:") [] 0 r.
Proof. done. Qed.

Lemma parse_line_category st category :
  plain_category category = true ->
  parse_line U st ((py "CATEGORY: " ++ category) ++ [10])
  = Returned {| low_count_data := dict_set (low_count_data st) category [];
                current_category := Some category |}.
Proof.
  unfold plain_category.
  intros [[[Ht Hl]%andb_true_iff Hc%negb_true_iff]%andb_true_iff _]%andb_true_iff.
  unfold parse_line. cbv zeta.
  change ((py "CATEGORY: " ++ category) ++ [10])
    with ([] ++ (py "CATEGORY: " ++ category) ++ [10]).
  rewrite (strip_core [] (py "CATEGORY: " ++ category) [10]); [|done|done|].
  - destruct (category_line_tests category) as (-> & -> & ->).
    rewrite replace_go_absent by done.
    change (32 :: category) with ([32] ++ category).
    by rewrite strip_lead.
  - apply trimmed_app; [done|]. by apply trimmed_last.
Qed.

Lemma bullet_line_tests r :
  let line := [8226] ++ r in
  (bool_decide (line = []) || startswith (py "=") line || startswith (py "-") line
   || startswith (py "CATEGORIES") line || startswith (py "SUMMARY") line) = false
  ∧ startswith (py "CATEGORY:") line = false
  ∧ (startswith (py "Total subcategories:") line
     || startswith (py "Low count subcategories:") line) = false
  ∧ startswith [8226] line = true.
Proof. done. Qed.

Lemma str_of_Z_nonneg z : (0 <= z)%Z -> str_of_Z z = str_of_N (Z.to_N z).
Proof. destruct z; [done|done|lia]. Qed.

Lemma parse_line_subcategory st c category entries s :
  current_category st = Some (c :: category) ->
  dict_get (low_count_data st) (c :: category) = Some entries ->
  plain_subcategory s = true ->
  parse_line U st (subcategory_text s ++ [10])
  = Returned {| low_count_data :=
                  dict_set (low_count_data st) (c :: category)
                    (entries ++ [entry_of s]);
                current_category := current_category st |}.
Proof.
  intros Hcur Hget.
  unfold plain_subcategory.
  intros [[[[[Ht Hl]%andb_true_iff Hc%negb_true_iff]%andb_true_iff
              Hz%Z.leb_le]%andb_true_iff _]%andb_true_iff Hp]%andb_true_iff.
  destruct (str_of_N_cons (Z.to_N (low_video_count_analysis.video_count s)))
    as (d & ds & Eds & Hd).
  pose proof (str_of_N_digits (Z.to_N (low_video_count_analysis.video_count s))) as Hds.
  unfold parse_line, subcategory_text. cbv zeta. rewrite <- app_assoc.
  rewrite str_of_Z_nonneg by done.
  rewrite (strip_core (py "  ")); [|done|done|].
  - match goal with |- context [[8226] ++ ?r] =>
      destruct (bullet_line_tests r) as (-> & -> & -> & ->) end.
    rewrite Hcur. unfold parse_subcategory.
    rewrite subcategory_pattern_matches; [|done..| |done].
    + cbn [group]. rewrite !bool_decide_eq_false_2 by done.
      rewrite !bool_decide_eq_true_2 by done.
      rewrite int_of_str_of_N, Hget, strip_trimmed by (done || by rewrite Z2N.id).
      unfold entry_of. rewrite Z2N.id by done. by rewrite Hcur.
    + by rewrite Eds.
  - apply trimmed_app; [done|]. rewrite !last_app. done.
Qed.

Lemma parse_lines_app st a b :
  parse_lines U st (a ++ b)
  = match parse_lines U st a with
    | Returned st' => parse_lines U st' b
    | Raised e => Raised e
    end.
Proof.
  revert st. induction a as [|l a IH]; intros st; [done|].
  cbn [app parse_lines]. by destruct (parse_line U st l).
Qed.

Lemma parse_lines_cons st l ls :
  parse_lines U st (l :: ls)
  = match parse_line U st l with
    | Returned st' => parse_lines U st' ls
    | Raised e => Raised e
    end.
Proof. done. Qed.

Lemma dict_get_last {V} (d : dict V) k (v : V) :
  k ∉ keys d -> dict_get (d ++ [(k, v)]) k = Some v.
Proof.
  induction d as [|[k' v'] d IH]; cbn; intros Hk.
  - by rewrite bool_decide_eq_true_2.
  - apply not_elem_of_cons in Hk as [Hne Hk].
    rewrite bool_decide_eq_false_2 by done. by apply IH.
Qed.

Lemma dict_set_last {V} (d : dict V) k (v v' : V) :
  k ∉ keys d -> dict_set (d ++ [(k, v)]) k v' = d ++ [(k, v')].
Proof.
  induction d as [|[k0 v0] d IH]; cbn; intros Hk.
  - by rewrite bool_decide_eq_true_2.
  - apply not_elem_of_cons in Hk as [Hne Hk].
    rewrite bool_decide_eq_false_2 by done. by rewrite IH.
Qed.

Lemma dict_set_fresh {V} (d : dict V) k (v : V) :
  k ∉ keys d -> dict_set d k v = d ++ [(k, v)].
Proof.
  induction d as [|[k0 v0] d IH]; cbn; intros Hk; [done|].
  apply not_elem_of_cons in Hk as [Hne Hk].
  rewrite bool_decide_eq_false_2 by done. by rewrite IH.
Qed.

Lemma parse_subcategory_lines subs : forall data c category entries,
  c :: category ∉ keys data ->
  Forall (fun s => plain_subcategory s) subs ->
  parse_lines U
    {| low_count_data := data ++ [(c :: category, entries)];
       current_category := Some (c :: category) |}
    ((fun l => l ++ [10]) <$> (subcategory_text <$> subs))
  = Returned {| low_count_data :=
                  data ++ [(c :: category, entries ++ (entry_of <$> subs))];
                current_category := Some (c :: category) |}.
Proof.
  induction subs as [|s subs IH]; intros data c category entries Hk Hsubs.
  - cbn. by rewrite app_nil_r.
  - apply Forall_cons in Hsubs as [Hs%Is_true_true Hsubs].
    cbn [fmap list_fmap]. rewrite parse_lines_cons.
    rewrite (parse_line_subcategory _ c category entries); [|done| |done].
    + cbn [low_count_data current_category].
      rewrite dict_set_last by done. rewrite IH by done.
      by rewrite <- app_assoc.
    + cbn [low_count_data]. by apply dict_get_last.
Qed.

Lemma parse_block data cur kv :
  kv.1 ∉ keys data ->
  plain_category kv.1 = true ->
  Forall (fun s => plain_subcategory s)
    (low_video_count_analysis.low_count_subcategories kv.2) ->
  parse_lines U {| low_count_data := data; current_category := cur |}
    ((fun l => l ++ [10]) <$> block_lines kv)
  = Returned {| low_count_data :=
                  data ++ [(kv.1, entry_of
                                    <$> low_video_count_analysis.low_count_subcategories kv.2)];
                current_category := Some kv.1 |}.
Proof.
  intros Hk Hcat Hsubs. unfold block_lines.
  rewrite !fmap_app, parse_lines_app. cbn [fmap list_fmap].
  rewrite parse_lines_cons, parse_line_category by done.
  do 3 rewrite parse_lines_cons, (parse_line_ignored_take _ 1) by done.
  cbn [parse_lines low_count_data].
  rewrite dict_set_fresh by done.
  assert (exists c category, kv.1 = c :: category) as (c & category & E).
  { unfold plain_category in Hcat.
    apply andb_true_iff in Hcat as [[Ht _]%andb_true_iff _].
    destruct kv.1 as [|c category]; [done|]. by exists c, category. }
  rewrite E in *. rewrite parse_lines_app, parse_subcategory_lines by done.
  rewrite parse_lines_cons. cbn [app]. by rewrite parse_line_blank.
Qed.

Lemma parse_blocks rs : forall data cur tail,
  NoDup (keys rs) ->
  (forall k, k ∈ keys rs -> k ∉ keys data) ->
  Forall (fun kv => plain_category kv.1
                    ∧ Forall (fun s => plain_subcategory s)
                        (low_video_count_analysis.low_count_subcategories kv.2)) rs ->
  exists cur',
    parse_lines U {| low_count_data := data; current_category := cur |}
      ((fun l => l ++ [10]) <$> ((rs ≫= block_lines) ++ tail))
    = parse_lines U {| low_count_data := data ++ recovered rs; current_category := cur' |}
        ((fun l => l ++ [10]) <$> tail).
Proof.
  induction rs as [|kv rs IH]; intros data cur tail Hnd Hfresh Hplain.
  - exists cur. cbn. by rewrite app_nil_r.
  - apply Forall_cons in Hplain as [[Hcat%Is_true_true Hsubs] Hplain].
    cbn [keys fmap list_fmap] in Hnd. apply NoDup_cons in Hnd as [Hnew Hnd].
    cbn [mbind list_bind]. rewrite <- app_assoc, fmap_app, parse_lines_app.
    rewrite parse_block; [|apply Hfresh; apply list_elem_of_here|done..].
    destruct (IH (data ++ [(kv.1, entry_of
                <$> low_video_count_analysis.low_count_subcategories kv.2)])
                (Some kv.1) tail Hnd) as [cur' E]; [|done|].
    + intros k Hin. unfold keys. rewrite fmap_app. cbn [fmap list_fmap].
      intros [H|H%list_elem_of_singleton]%elem_of_app.
      * eapply Hfresh; [|exact H]. by apply list_elem_of_further.
      * subst. by apply Hnew.
    + exists cur'. rewrite E. unfold recovered. cbn [fmap list_fmap].
      by rewrite <- app_assoc.
Qed.

Lemma parse_heading st :
  parse_lines U st ((fun l => l ++ [10]) <$> heading_lines) = Returned st.
Proof.
  unfold heading_lines. cbn [fmap list_fmap].
  rewrite parse_lines_cons, (parse_line_ignored_take _ 9) by done.
  rewrite parse_lines_cons, (parse_line_ignored_take _ 1) by done.
  rewrite parse_lines_cons. cbn [app]. by rewrite parse_line_blank.
Qed.

Lemma parse_summary st results :
  parse_lines U st ((fun l => l ++ [10]) <$> summary_lines results) = Returned st.
Proof.
  unfold summary_lines. cbn [fmap list_fmap].
  do 3 rewrite parse_lines_cons, (parse_line_ignored_take _ 1) by done.
  rewrite parse_lines_cons, (parse_line_ignored_take _ 2) by done.
  by rewrite parse_lines_cons, (parse_line_ignored_take _ 1) by done.
Qed.

(** The lines of a report of plain names give back the names and the
    counts. *)
Lemma parse_report_lines results :
  plain_results results ->
  exists cur,
    parse_lines U {| low_count_data := []; current_category := None |}
      ((fun l => l ++ [10]) <$> report_lines results)
    = Returned {| low_count_data := recovered results; current_category := cur |}.
Proof.
  intros (Hnd & Hplain & _). unfold report_lines.
  rewrite fmap_app, parse_lines_app, parse_heading.
  destruct (parse_blocks results [] None (summary_lines results) Hnd) as [cur E];
    [|done|].
  - intros k _. apply not_elem_of_nil.
  - exists cur. by rewrite E, parse_summary.
Qed.

End ParseLines.

Section ReportText.

Import low_video_count_analysis Report.

Lemma unlines_app a b : unlines (a ++ b) = unlines a ++ unlines b.
Proof. unfold unlines. by rewrite fmap_app, concat_app. Qed.

Lemma subcategory_lines_unlines subs :
  concat (subcategory_line <$> subs) = unlines (subcategory_text <$> subs).
Proof.
  unfold unlines. induction subs as [|s subs IH]; [done|].
  cbn [fmap list_fmap concat]. rewrite IH. f_equal.
  unfold subcategory_line, subcategory_text. by rewrite <- !app_assoc.
Qed.

Lemma block_unlines kv : category_block kv = unlines (block_lines kv).
Proof.
  unfold category_block, block_lines. rewrite !unlines_app.
  rewrite subcategory_lines_unlines. unfold unlines.
  cbn [fmap list_fmap concat]. by rewrite <- !app_assoc.
Qed.

Lemma blocks_unlines (results : dict data) :
  concat (category_block <$> results) = unlines (results ≫= block_lines).
Proof.
  induction results as [|kv rs IH]; [done|].
  cbn [fmap list_fmap concat mbind list_bind].
  by rewrite unlines_app, IH, block_unlines.
Qed.

Lemma summary_unlines results : summary results = unlines (summary_lines results).
Proof.
  unfold summary, summary_lines, unlines. cbn [fmap list_fmap concat].
  by rewrite <- !app_assoc.
Qed.

Lemma report_unlines results : report results = unlines (report_lines results).
Proof.
  unfold report, report_lines.
  by rewrite !unlines_app, blocks_unlines, summary_unlines.
Qed.

Lemma one_line_app a b : one_line (a ++ b) = one_line a && one_line b.
Proof. unfold one_line. by rewrite forallb_app. Qed.

Lemma one_line_str_of_N n : one_line (str_of_N n) = true.
Proof. apply ascii_digit_one_line, str_of_N_digits. Qed.

Lemma block_lines_one_line kv :
  plain_category kv.1 ->
  Forall (fun s => plain_subcategory s) (low_count_subcategories kv.2) ->
  Forall (fun l => one_line l = true) (block_lines kv).
Proof.
  intros Hcat%Is_true_true Hsubs. unfold block_lines.
  unfold plain_category in Hcat.
  apply andb_true_iff in Hcat as [[[_ Hl]%andb_true_iff _]%andb_true_iff _].
  repeat apply Forall_cons_2; rewrite ?one_line_app, ?one_line_str_of_N, ?Hl; try done.
  apply Forall_app_2; [|by repeat constructor].
  apply Forall_fmap. eapply Forall_impl; [exact Hsubs|].
  intros s Hs. unfold compose. cbv beta in Hs |- *.
  apply Is_true_true in Hs. unfold plain_subcategory in Hs.
  apply andb_true_iff in Hs
    as [[[[[_ Hn]%andb_true_iff _]%andb_true_iff Hz%Z.leb_le]%andb_true_iff _]%andb_true_iff _].
  unfold subcategory_text.
  rewrite !one_line_app, Hn, str_of_Z_nonneg, one_line_str_of_N by done. done.
Qed.

Lemma report_lines_one_line results :
  plain_results results -> Forall (fun l => one_line l = true) (report_lines results).
Proof.
  intros (_ & Hplain & _). unfold report_lines. repeat apply Forall_app_2.
  - by repeat constructor.
  - induction Hplain as [|kv rs [Hcat Hsubs] _ IH]; [constructor|].
    cbn [mbind list_bind]. apply Forall_app_2; [|done].
    by apply block_lines_one_line.
  - unfold summary_lines.
    repeat apply Forall_cons_2; rewrite ?one_line_app, ?one_line_str_of_N; try done.
Qed.

Lemma one_line_no_line_feed l :
  one_line l = true -> forallb (fun c => negb (c =? 10)) l = true.
Proof.
  unfold one_line. rewrite !forallb_forall. intros H c Hc.
  specialize (H c Hc). by apply negb_true_iff, orb_false_iff in H as [-> _].
Qed.

Lemma unlines_no_carriage_return ls :
  Forall (fun l => one_line l = true) ls ->
  forallb (fun c => negb (c =? 13)) (unlines ls) = true.
Proof.
  unfold unlines. induction 1 as [|l ls Hl _ IH]; [done|].
  cbn [fmap list_fmap concat]. rewrite !forallb_app, IH.
  unfold one_line in Hl. rewrite !andb_true_r.
  rewrite forallb_forall in *. intros c Hc. specialize (Hl c Hc).
  by apply negb_true_iff, orb_false_iff in Hl as [_ ->].
Qed.

(** The calls of [f.write]: what is in the file when all of them
    return. *)
Lemma encodable_app a b : encodable (a ++ b) = encodable a && encodable b.
Proof. unfold encodable. by rewrite forallb_app. Qed.

Lemma encodable_str_of_N n : encodable (str_of_N n) = true.
Proof.
  pose proof (str_of_N_digits n) as H. unfold encodable.
  rewrite forallb_forall in *. intros c Hc. specialize (H c Hc).
  unfold ascii_digit in H. apply andb_true_iff in H as [H1%N.leb_le H2%N.leb_le].
  unfold surrogate. apply negb_true_iff, andb_false_iff. left. apply N.leb_gt. lia.
Qed.

Lemma encodable_repeat c n : surrogate c = false -> encodable (repeat c n) = true.
Proof.
  intros Hc. unfold encodable. induction n as [|n IH]; [done|].
  cbn [repeat forallb]. by rewrite Hc, IH.
Qed.

Lemma written_returned texts :
  forallb encodable texts = true ->
  written (Returned <$> texts) = (concat texts, Returned tt).
Proof.
  induction texts as [|t texts IH]; [done|].
  cbn [forallb fmap list_fmap written concat].
  intros [-> H]%andb_true_iff. by rewrite (IH H).
Qed.

Lemma category_writes_plain kv :
  Forall (fun s => plain_subcategory s) (low_count_subcategories kv.2) ->
  plain_totals kv.2 ->
  category_writes kv = Returned <$> block_texts kv.
Proof.
  intros Hsubs Htot%Is_true_true.
  unfold plain_totals in Htot. apply andb_true_iff in Htot as [Ht1 Ht2].
  unfold category_writes, block_texts, write_of. rewrite Ht1, Ht2.
  rewrite !fmap_app, <- list_fmap_compose. cbn [fmap list_fmap]. do 2 f_equal.
  apply Forall_fmap_ext. eapply Forall_impl; [exact Hsubs|].
  intros s Hs%Is_true_true. unfold plain_subcategory in Hs.
  apply andb_true_iff in Hs as [_ Hp]. unfold compose. by rewrite Hp.
Qed.

Lemma block_texts_encodable kv :
  plain_category kv.1 ->
  Forall (fun s => plain_subcategory s) (low_count_subcategories kv.2) ->
  forallb encodable (block_texts kv) = true.
Proof.
  intros Hcat%Is_true_true Hsubs.
  unfold plain_category in Hcat. apply andb_true_iff in Hcat as [_ He].
  unfold block_texts. rewrite !forallb_app. cbn [forallb].
  rewrite !encodable_app, He, !encodable_str_of_N, encodable_repeat by done.
  cbn [andb]. apply andb_true_iff. split; [by vm_compute|].
  apply andb_true_iff. split; [|done].
  apply forallb_forall. intros t Ht%list_elem_of_In%list_elem_of_fmap.
  destruct Ht as (s & -> & Hs). rewrite Forall_forall in Hsubs.
  specialize (Hsubs s Hs). apply Is_true_true in Hsubs.
  unfold plain_subcategory in Hsubs.
  apply andb_true_iff in Hsubs
    as [[[_ Hz%Z.leb_le]%andb_true_iff Hn]%andb_true_iff _].
  unfold subcategory_line.
  rewrite !encodable_app, Hn, str_of_Z_nonneg, encodable_str_of_N by done. done.
Qed.

Lemma concat_block_texts kv : concat (block_texts kv) = category_block kv.
Proof.
  unfold block_texts, category_block. cbn [app concat].
  rewrite concat_app. cbn [concat]. by rewrite <- !app_assoc, app_nil_r.
Qed.

Lemma writes_plain results :
  plain_results results -> writes results = Returned <$> report_texts results.
Proof.
  intros (_ & Hplain & Htot). unfold writes, report_texts.
  rewrite !fmap_app. do 2 f_equal.
  induction Hplain as [|kv results [Hcat Hsubs] _ IH]; [done|].
  apply Forall_cons in Htot as [Ht Htot].
  cbn [mbind list_bind]. rewrite fmap_app, category_writes_plain, IH by done. done.
Qed.

Lemma report_texts_encodable results :
  plain_results results -> forallb encodable (report_texts results) = true.
Proof.
  intros (_ & Hplain & _). unfold report_texts. rewrite !forallb_app.
  apply andb_true_iff; split; [|apply andb_true_iff; split].
  - cbn [forallb]. rewrite !encodable_app, encodable_repeat by done. by vm_compute.
  - induction Hplain as [|kv results [Hcat Hsubs] _ IH]; [done|].
    cbn [mbind list_bind]. by rewrite forallb_app, block_texts_encodable, IH.
  - cbn [forallb].
    rewrite !encodable_app, !encodable_str_of_N, encodable_repeat by done.
    by vm_compute.
Qed.

Lemma concat_report_texts results : concat (report_texts results) = report results.
Proof.
  assert (concat (results ≫= block_texts) = concat (category_block <$> results)) as E.
  { induction results as [|kv results IH]; [done|].
    cbn [mbind list_bind fmap list_fmap concat].
    by rewrite concat_app, concat_block_texts, IH. }
  unfold report_texts, report, heading, summary.
  rewrite !concat_app, E. cbn [concat]. by rewrite <- !app_assoc, app_nil_r.
Qed.

Lemma written_report results :
  plain_results results -> written (writes results) = (report results, Returned tt).
Proof.
  intros Hplain. rewrite writes_plain, written_returned by
    (done || by apply report_texts_encodable).
  by rewrite concat_report_texts.
Qed.

(** The save of plain results writes the whole report. *)
Lemma save_results_to_file_plain results fs :
  plain_results results ->
  save_results_to_file results fs
  = (write_file output_file (TextFile (report results)) ;; ret output_file) fs.
Proof.
  intros Hplain. unfold save_results_to_file, write_text.
  rewrite (written_report results Hplain). unfold bind, lift, ret.
  by destruct (write_file output_file _ fs) as [[[]|e] fs1].
Qed.

End ReportText.

(** C8: the report of an analysis whose names are plain (not empty, no
    white space at either end, no line end, no "CATEGORY:" in a category
    name and no "(Count:" in a subcategory name, and a text that can be
    encoded), whose counts are not negative, whose counts and totals are
    within the limit of 4300 digits and whose categories are distinct,
    is written to its end, and is read back by the range scraper as the
    same categories in the same order, each with the names and counts
    of its subcategories and nothing else; a category without
    subcategories is left out. *)
Theorem report_round_trip (U : unicode_db)
    (results : dict low_video_count_analysis.data) (fs : filesystem) :
  Report.plain_results results ->
  low_video_count_analysis.output_file ∉ dirs fs ->
  let saved := low_video_count_analysis.save_results_to_file results fs in
  saved.1 = Returned low_video_count_analysis.output_file
  ∧ range_scraper.parse_low_video_count_file U
      low_video_count_analysis.output_file saved.2
    = (Returned (range_scraper.with_subcategories (Report.recovered results)), saved.2).
Proof.
  intros Hplain Hdir saved.
  assert (saved = (Returned low_video_count_analysis.output_file,
                   {| dirs := dirs fs;
                      files := <[low_video_count_analysis.output_file :=
                                   TextFile (low_video_count_analysis.report results)]>
                                 (files fs) |})) as ->.
  { unfold saved. rewrite save_results_to_file_plain by done.
    unfold write_file, bind, get, modify, ret.
    by rewrite bool_decide_eq_false_2. }
  split; [done|]. cbn [fst snd].
  set (fs' := {| dirs := dirs fs; files := _ |}).
  pose proof (report_lines_one_line results Hplain) as Hlines.
  assert (exists_ low_video_count_analysis.output_file fs' = true) as Hex.
  { unfold exists_, fs'. cbn [files]. rewrite lookup_insert_eq.
    by rewrite bool_decide_eq_true_2. }
  assert (read_text low_video_count_analysis.output_file fs'
          = (Returned (Report.unlines (Report.report_lines results)), fs')) as Hread.
  { unfold read_text, bind, get, ret, fs'. cbn [files].
    rewrite lookup_insert_eq, report_unlines, universal_newlines_id; [done|].
    by apply unlines_no_carriage_return. }
  destruct (parse_report_lines U results Hplain) as [cur Hparse].
  unfold range_scraper.parse_low_video_count_file, try_except.
  rewrite (bind_eq get _ fs' fs' fs') by done. rewrite Hex. cbn [negb].
  rewrite (bind_eq _ _ _ _ _ Hread).
  rewrite readlines_unlines, Hparse; [done|].
  eapply Forall_impl; [exact Hlines|]. apply one_line_no_line_feed.
Qed.

Lemma report_round_trip_witness :
  let saved := low_video_count_analysis.save_results_to_file Scenario.low_counts
                 Scenario.empty_fs in
  saved.1 = Returned low_video_count_analysis.output_file
  ∧ range_scraper.parse_low_video_count_file ascii_db
      low_video_count_analysis.output_file saved.2
    = (Returned (range_scraper.with_subcategories (Report.recovered Scenario.low_counts)),
       saved.2).
Proof.
  apply (report_round_trip ascii_db Scenario.low_counts Scenario.empty_fs).
  - split_and!.
    + apply (bool_decide_unpack _). vm_compute. reflexivity.
    + repeat (apply Forall_cons_2; [split; [vm_compute; exact I|]|]);
        repeat (apply Forall_cons_2; [vm_compute; exact I|]); apply Forall_nil_2.
    + repeat (apply Forall_cons_2; [vm_compute; exact I|]). apply Forall_nil_2.
  - apply not_elem_of_empty.
Defined.

(** C8, as the specification states it, fails on a subcategory whose
    name holds the text of a count: "Intro (Count: 5) remix" with count 0
    is read back as "Intro" with count 5. *)
Lemma count_in_a_name_is_read_as_the_count :
  let saved := low_video_count_analysis.save_results_to_file Scenario.remix_counts
                 Scenario.empty_fs in
  saved.1 = Returned low_video_count_analysis.output_file
  ∧ (range_scraper.parse_low_video_count_file ascii_db
       low_video_count_analysis.output_file saved.2).1
    = Returned [(py "Effects",
                 [{| range_scraper.name := py "Intro";
                     range_scraper.video_count := 5 |}])]
  ∧ ¬ AsStated.faithful_round_trip ascii_db Scenario.remix_counts.
Proof.
  intros saved. split; [reflexivity|].
  assert ((range_scraper.parse_low_video_count_file ascii_db
             low_video_count_analysis.output_file saved.2).1
          = Returned [(py "Effects",
                       [{| range_scraper.name := py "Intro";
                           range_scraper.video_count := 5 |}])]) as Hparsed
    by (vm_compute; reflexivity).
  split; [exact Hparsed|].
  intros H. specialize (H Scenario.empty_fs (not_elem_of_empty _)).
  fold saved in H. rewrite Hparsed in H. vm_compute in H. discriminate H.
Qed.

(* ===================================================================== *)
(** * Part III: further properties of the code                            *)
(* ===================================================================== *)

(** ** The update of a catalog index (metadata_updater.py) *)

Section UpdateFacts.

Import metadata_updater.

Lemma dict_set_set {V} (d : dict V) k (v v' : V) :
  dict_set (dict_set d k v) k v' = dict_set d k v'.
Proof.
  induction d as [|[k0 v0] d IH]; cbn [dict_set].
  - by rewrite bool_decide_eq_true_2.
  - case_bool_decide as E; cbn [dict_set].
    + by rewrite bool_decide_eq_true_2.
    + rewrite bool_decide_eq_false_2 by done. by rewrite IH.
Qed.

Lemma update_subcategory_again video_data_map e e' :
  update_subcategory video_data_map e = Returned e' ->
  update_subcategory video_data_map e' = Returned e'.
Proof.
  unfold update_subcategory.
  destruct (subscript_name e) as [name|] eqn:Hname; [|done].
  destruct (matching_data_of _ name) as [matching_data|] eqn:Hm; [|done].
  destruct e as [| | | | |fields]; try done. intros [= <-].
  assert (subscript_name (JObj (dict_set fields (py "video_count")
            (JNum match matching_data with
                  | Some data => video_count data
                  | None => 0%Z
                  end))) = Returned name) as ->.
  { unfold subscript_name in *. by rewrite dict_get_set_ne. }
  by rewrite Hm, dict_set_set.
Qed.

Lemma update_subcategories_again video_data_map l : forall l',
  update_subcategories video_data_map l = Returned l' ->
  update_subcategories video_data_map l' = Returned l'.
Proof.
  induction l as [|e l IH]; cbn [update_subcategories]; intros l'.
  - by intros [= <-].
  - destruct (update_subcategory _ e) as [e'|] eqn:He; [|done].
    destruct (update_subcategories _ l) as [r|] eqn:Hr; [|done].
    intros [= <-]. cbn [update_subcategories].
    by rewrite (update_subcategory_again _ _ _ He), (IH _ eq_refl).
Qed.

Lemma update_sub_categories_value_again video_data_map subs subs' :
  update_sub_categories_value video_data_map subs = Returned subs' ->
  update_sub_categories_value video_data_map subs' = Returned subs'.
Proof.
  unfold update_sub_categories_value.
  destruct subs as [| | |[|]|l|[|]]; try done; try by intros [= <-].
  destruct (update_subcategories _ l) as [l'|] eqn:Hl; [|done].
  intros [= <-]. by rewrite (update_subcategories_again _ _ _ Hl).
Qed.

(** What is written can be written, when what was read can. *)
Lemma json_writable_dict_set (o : dict json) k v :
  json_writable (JObj o) = true -> encodable k = true -> json_writable v = true ->
  json_writable (JObj (dict_set o k v)) = true.
Proof.
  cbn [json_writable]. intros Ho Hk Hv.
  induction o as [|[k0 v0] o IH]; cbn [dict_set forallb] in *.
  - by rewrite Hk, Hv.
  - apply andb_true_iff in Ho as [[Hk0 Hv0]%andb_true_iff Ho].
    case_bool_decide; cbn [forallb]; [by rewrite Hk0, Hv, Ho|].
    by rewrite Hk0, Hv0, IH.
Qed.

Lemma json_writable_dict_get (o : dict json) k v :
  json_writable (JObj o) = true -> dict_get o k = Some v -> json_writable v = true.
Proof.
  cbn [json_writable].
  induction o as [|[k0 v0] o IH]; cbn [dict_get forallb]; [done|].
  intros [[_ Hv0]%andb_true_iff Ho]%andb_true_iff.
  case_bool_decide; [by intros [= <-]|by apply IH].
Qed.

Lemma analysis_for_elem video_analyses name a :
  CatalogWrite.analysis_for video_analyses name = Some a -> a ∈ video_analyses.
Proof.
  unfold CatalogWrite.analysis_for. destruct (head _) as [first|]; [|done].
  intros H. apply last_Some_elem_of in H. by apply list_elem_of_filter in H as [_ H].
Qed.

Lemma count_for_printable video_analyses name :
  Forall (fun a => printable (video_count a) = true) video_analyses ->
  printable (CatalogWrite.count_for video_analyses name) = true.
Proof.
  intros Hcounts. unfold CatalogWrite.count_for.
  destruct name as [| | |t| |]; try done.
  destruct (CatalogWrite.analysis_for video_analyses t) as [a|] eqn:Ha; [|done].
  rewrite Forall_forall in Hcounts. by apply Hcounts, (analysis_for_elem _ t).
Qed.

Lemma update_subcategories_writable video_analyses l : forall l',
  Forall (fun a => printable (video_count a) = true) video_analyses ->
  update_subcategories (video_data_map_of video_analyses) l = Returned l' ->
  forallb json_writable l = true -> forallb json_writable l' = true.
Proof.
  induction l as [|e l IH]; cbn [update_subcategories]; intros l' Hcounts.
  - by intros [= <-].
  - destruct (update_subcategory _ e) as [e'|] eqn:He; [|done].
    destruct (update_subcategories _ l) as [r|] eqn:Hr; [|done].
    intros [= <-]. cbn [forallb]. intros [He' Hl]%andb_true_iff.
    apply update_subcategory_eq in He as (fields & name & -> & _ & ->).
    rewrite (IH r) by done. rewrite andb_true_r.
    apply json_writable_dict_set; [done|done|].
    cbn [json_writable]. by apply count_for_printable.
Qed.

Lemma update_metadata_json_writes video_analyses (o : dict json) subs subs' :
  dict_get o (py "sub_categories") = Some subs ->
  update_sub_categories_value (video_data_map_of video_analyses) subs = Returned subs' ->
  json_writable (JObj o) = true ->
  Forall (fun a => printable (video_count a) = true) video_analyses ->
  json_writable (JObj (dict_set o (py "sub_categories") subs')) = true.
Proof.
  intros Hsubs Hup Ho Hcounts.
  apply json_writable_dict_set; [done|done|].
  pose proof (json_writable_dict_get _ _ _ Ho Hsubs) as Hw.
  unfold update_sub_categories_value in Hup.
  destruct subs as [| | |[|]|l|[|]]; try done; try by injection Hup as <-.
  destruct (update_subcategories _ l) as [l'|] eqn:Hl; [|done].
  injection Hup as <-. cbn [json_writable] in *.
  by apply (update_subcategories_writable video_analyses l).
Qed.

End UpdateFacts.

(** X1: [update_metadata_json] never raises: it returns [True] or
    [False], and touches no directory and no file but the index.  When
    it returns [False], the files are as they were, or the index is
    left cut short, which is what happens when it cannot be written to
    its end: when the index that was read can be written (its text can
    be encoded, its integers are within the limit) and so can the
    counts of the analyses, a call that returns [False] has changed
    nothing.  Without an index the call returns [False]. *)
Theorem update_metadata_json_fails_safely (metadata_path : str)
    (video_analyses : list metadata_updater.analysis) (fs : filesystem) :
  exists ok fs',
    metadata_updater.update_metadata_json metadata_path video_analyses fs
    = (Returned ok, fs')
    ∧ dirs fs' = dirs fs
    ∧ (forall p, p ≠ metadata_path -> files fs' !! p = files fs !! p)
    ∧ (ok = false -> fs' = fs ∨ files fs' !! metadata_path = Some CutFile)
    ∧ (ok = false ->
       (forall index, files fs !! metadata_path = Some (JsonFile index) ->
                      json_writable index = true) ->
       Forall (fun a => printable (metadata_updater.video_count a) = true)
         video_analyses ->
       fs' = fs)
    ∧ (files fs !! metadata_path = None -> ok = false ∧ fs' = fs).
Proof.
  destruct (update_metadata_json_cases metadata_path video_analyses fs)
    as [E|(o & subs & subs' & Hfile & Hsubs & Hup & Hdir & [[Hw E]|[Hw E]])];
    rewrite E.
  - exists false, fs. by split_and!; try done; left.
  - eexists true, _. split_and!; try done.
    + intros p Hp. cbn [files]. by rewrite lookup_insert_ne.
    + intros H. by rewrite Hfile in H.
  - eexists false, _. split_and!; try done.
    + intros p Hp. cbn [files]. by rewrite lookup_insert_ne.
    + intros _. right. cbn [files]. by rewrite lookup_insert_eq.
    + intros _ Hindex Hcounts. specialize (Hindex _ Hfile).
      rewrite (update_metadata_json_writes video_analyses o subs subs') in Hw; done.
    + intros H. by rewrite Hfile in H.
Qed.

(** X2: running the update again, with the same analyses, on the files
    that a successful update has left, succeeds and changes nothing. *)
Theorem update_metadata_json_twice (metadata_path : str)
    (video_analyses : list metadata_updater.analysis) (fs fs' : filesystem) :
  metadata_updater.update_metadata_json metadata_path video_analyses fs
  = (Returned true, fs') ->
  metadata_updater.update_metadata_json metadata_path video_analyses fs'
  = (Returned true, fs').
Proof.
  intros (o & subs & subs' & Hfile & Hsubs & Hup & Hdir & Hw & ->)%update_metadata_json_true.
  rewrite (update_metadata_json_eq _ _ _ (dict_set o (py "sub_categories") subs')
             subs' subs').
  - cbn [dirs files]. by rewrite dict_set_set, insert_insert_eq.
  - cbn [files]. by rewrite lookup_insert_eq.
  - apply dict_get_set_eq.
  - by apply update_sub_categories_value_again in Hup.
  - done.
  - by rewrite dict_set_set.
Qed.

Lemma update_metadata_json_twice_witness :
  let fs' := (metadata_updater.update_metadata_json (py "Cat/metadata.json")
                [Scenario.analysis_of_A] Scenario.catalog_fs).2 in
  metadata_updater.update_metadata_json (py "Cat/metadata.json")
    [Scenario.analysis_of_A] fs' = (Returned true, fs').
Proof.
  intros fs'.
  apply (update_metadata_json_twice (py "Cat/metadata.json") [Scenario.analysis_of_A]
           Scenario.catalog_fs fs').
  unfold fs'.
  destruct (metadata_updater.update_metadata_json _ _ _) as [r f] eqn:E.
  assert (r = Returned true) as ->; [|done].
  apply (f_equal fst) in E. vm_compute in E. congruence.
Defined.

(** ** The record store, once more (simple_scraper.py, range_scraper.py) *)

Section DedupFacts.

Import simple_scraper.

Lemma dedup_loop_acc videos : forall seen acc,
  dedup_loop videos seen acc = acc ++ dedup_loop videos seen [].
Proof.
  induction videos as [|video rest IH]; intros seen acc; cbn [dedup_loop].
  - by rewrite app_nil_r.
  - destruct (truthy (url_of video) && bool_decide (url_of video ∉ seen)).
    + rewrite (IH _ (acc ++ [video])), (IH _ ([] ++ [video])).
      by rewrite <- !app_assoc.
    + destruct (negb (truthy (url_of video))); [|done].
      rewrite (IH _ (acc ++ [video])), (IH _ ([] ++ [video])).
      by rewrite <- !app_assoc.
Qed.

Lemma dedup_loop_again videos : forall seen,
  dedup_loop (dedup_loop videos seen []) seen [] = dedup_loop videos seen [].
Proof.
  induction videos as [|video rest IH]; intros seen; [done|].
  cbn [dedup_loop].
  destruct (truthy (url_of video)) eqn:Ht; cbn [andb negb].
  - case_bool_decide as Hseen; [|apply IH].
    rewrite (dedup_loop_acc rest _ ([] ++ [video])). cbn [app dedup_loop].
    rewrite Ht. cbn [andb]. rewrite bool_decide_eq_true_2 by done.
    rewrite (dedup_loop_acc _ _ ([] ++ [video])). cbn [app]. by rewrite IH.
  - rewrite (dedup_loop_acc rest _ ([] ++ [video])). cbn [app dedup_loop].
    rewrite Ht. cbn [andb negb].
    rewrite (dedup_loop_acc _ _ ([] ++ [video])). cbn [app]. by rewrite IH.
Qed.

Lemma dedup_loop_distinct videos : forall seen,
  NoDup (nonempty_urls videos) ->
  (forall v, v ∈ nonempty_urls videos -> v ∉ seen) ->
  dedup_loop videos seen [] = videos.
Proof.
  induction videos as [|video rest IH]; intros seen Hnd Hseen; [done|].
  cbn [dedup_loop]. unfold nonempty_urls in Hnd, Hseen, IH.
  rewrite fmap_cons in Hnd, Hseen.
  destruct (truthy (url_of video)) eqn:Ht; cbn [andb negb].
  - rewrite filter_cons_True in Hnd, Hseen by by rewrite Ht.
    apply NoDup_cons in Hnd as [Hnew Hnd].
    rewrite bool_decide_eq_true_2 by (apply Hseen; by left).
    rewrite (dedup_loop_acc rest _ ([] ++ [video])). cbn [app]. f_equal.
    apply IH; [done|]. intros v Hv [->%elem_of_singleton|Hin]%elem_of_union.
    + done.
    + apply (Hseen v); [by right|done].
  - rewrite filter_cons_False in Hnd, Hseen by (rewrite Ht; exact id).
    rewrite (dedup_loop_acc rest _ ([] ++ [video])). cbn [app]. f_equal.
    by apply IH.
Qed.

End DedupFacts.

(** X3: the pass that removes duplicates changes nothing when it is run
    on its own result. *)
Theorem unique_videos_of_idempotent (videos_data : list (dict pyval)) :
  simple_scraper.unique_videos_of (simple_scraper.unique_videos_of videos_data)
  = simple_scraper.unique_videos_of videos_data.
Proof. apply dedup_loop_again. Qed.

(** X4: records whose non-empty URLs are pairwise distinct are all
    kept, in their order: the pass returns the list it was given. *)
Theorem unique_videos_of_distinct (videos_data : list (dict pyval)) :
  NoDup (nonempty_urls videos_data) ->
  simple_scraper.unique_videos_of videos_data = videos_data.
Proof.
  intros Hnd. apply dedup_loop_distinct; [done|]. intros v _. apply not_elem_of_empty.
Qed.

Lemma unique_videos_of_distinct_witness :
  simple_scraper.unique_videos_of
    [Scenario.url_record "u1"; Scenario.url_record ""; Scenario.url_record "u2";
     Scenario.url_record ""]
  = [Scenario.url_record "u1"; Scenario.url_record ""; Scenario.url_record "u2";
     Scenario.url_record ""].
Proof.
  apply (unique_videos_of_distinct
           [Scenario.url_record "u1"; Scenario.url_record ""; Scenario.url_record "u2";
            Scenario.url_record ""]).
  apply (bool_decide_unpack _). vm_compute. reflexivity.
Defined.

(** X5: a successful [save_videos_data] writes videos.json and
    videos.csv in the folder of the subsection and leaves every other
    file as it was. *)
Theorem save_videos_data_touches_two_files (U : unicode_db)
    (videos_data : list (dict pyval)) (category_name : str) (fs fs' : filesystem) :
  simple_scraper.save_videos_data U videos_data category_name fs = (Returned tt, fs') ->
  let folder_path := simple_scraper.folder_path_of U category_name in
  forall p,
    p ≠ path_join folder_path (py "videos.json") ->
    p ≠ path_join folder_path (py "videos.csv") ->
    files fs' !! p = files fs !! p.
Proof.
  intros Hsave folder_path p Hjson Hcsv.
  unfold simple_scraper.save_videos_data in Hsave.
  case_bool_decide as Hne; [by injection Hsave as <-|].
  fold folder_path in Hsave.
  apply bind_returned in Hsave as ([] & fs1 & Hmk & Hsave).
  apply bind_returned in Hsave as ([] & fs2 & Hw1 & Hsave).
  apply bind_returned in Hsave as ([] & fs3 & Hw2 & Hsave).
  apply makedirs_returned in Hmk. apply json_dump_returned in Hw1 as [_ Hw1].
  apply write_file_returned in Hw2.
  assert (files fs' !! p = files fs3 !! p) as ->.
  { case_bool_decide; [by injection Hsave as <-|].
    apply write_csv_returned in Hsave. by rewrite Hsave, lookup_insert_ne. }
  by rewrite Hw2, lookup_insert_ne, Hw1, lookup_insert_ne, Hmk.
Qed.

Lemma save_videos_data_touches_two_files_witness :
  let fs' := (simple_scraper.save_videos_data ascii_db
                [Scenario.full_record "u1" "p" 1] (py "Cat_Sub") Scenario.catalog_fs).2 in
  files fs' !! py "Cat/metadata.json" = files Scenario.catalog_fs !! py "Cat/metadata.json".
Proof.
  intros fs'.
  apply (save_videos_data_touches_two_files ascii_db [Scenario.full_record "u1" "p" 1]
           (py "Cat_Sub") Scenario.catalog_fs fs').
  - unfold fs'. destruct (simple_scraper.save_videos_data _ _ _ _) as [o f] eqn:E.
    assert (o = Returned tt) as ->; [|done].
    apply (f_equal fst) in E. vm_compute in E. congruence.
  - vm_compute. discriminate.
  - vm_compute. discriminate.
Defined.

(** X6: a category name that leaves no folder name (["_"], or a name
    without underscore that has no letter, digit, space or hyphen)
    makes the save of a non-empty list raise at [os.makedirs]: nothing
    is written. *)
Theorem save_videos_data_without_folder_raises (U : unicode_db)
    (videos_data : list (dict pyval)) (category_name : str) (fs : filesystem) :
  videos_data ≠ [] ->
  simple_scraper.folder_path_of U category_name = [] ->
  simple_scraper.save_videos_data U videos_data category_name fs = (Raised OSError, fs).
Proof.
  intros Hne Hfolder. unfold simple_scraper.save_videos_data.
  rewrite bool_decide_eq_false_2 by done. rewrite Hfolder.
  unfold bind at 1. unfold makedirs at 1. unfold bind at 1. unfold get at 1.
  by rewrite bool_decide_eq_true_2.
Qed.

Lemma save_videos_data_without_folder_raises_witness :
  simple_scraper.save_videos_data ascii_db [Scenario.full_record "u1" "p" 1] (py "_")
    Scenario.empty_fs = (Raised OSError, Scenario.empty_fs)
  ∧ simple_scraper.save_videos_data ascii_db [Scenario.full_record "u1" "p" 1] (py "?!")
      Scenario.empty_fs = (Raised OSError, Scenario.empty_fs).
Proof.
  split.
  - apply (save_videos_data_without_folder_raises ascii_db
             [Scenario.full_record "u1" "p" 1] (py "_") Scenario.empty_fs);
      [discriminate|reflexivity].
  - apply (save_videos_data_without_folder_raises ascii_db
             [Scenario.full_record "u1" "p" 1] (py "?!") Scenario.empty_fs);
      [discriminate|reflexivity].
Defined.

(** ** Closing the detail view *)

(** X7: whatever the page does, [close_popup] of each scraper returns
    (it does not raise), and it neither adds nor removes a record. *)
Theorem close_popup_never_raises (page : browser) (s : dstate) :
  (exists closed s', simple_scraper.close_popup page s = (Returned closed, s')
                     ∧ videos_data s' = videos_data s)
  ∧ (exists closed s', range_scraper.close_popup page s = (Returned closed, s')
                       ∧ videos_data s' = videos_data s)
  ∧ (exists s', image_scraper.close_popup page s = (Returned tt, s')
                ∧ videos_data s' = videos_data s).
Proof.
  split_and!.
  - destruct (returns_simple_close_popup page s) as (b & s' & E).
    exists b, s'. split; [done|].
    pose proof (silent_simple_close_popup page s) as [H _]. by rewrite E in H.
  - destruct (returns_range_close_popup page s) as (b & s' & E).
    exists b, s'. split; [done|].
    pose proof (silent_range_close_popup page s) as [H _]. by rewrite E in H.
  - destruct (returns_image_close_popup page s) as ([] & s' & E).
    exists s'. split; [done|].
    pose proof (silent_image_close_popup page s) as [H _]. by rewrite E in H.
Qed.

(** ** The scroll loop of simple_scraper.py *)

Section SimpleScroll.

Import Scrolling.

Variable h : nat -> Z.

Lemma simple_scroll_loop_stops : forall d fuel s,
  heights_read (history s) = S (scroll_attempts (history s)) ->
  (forall k, (scroll_attempts (history s) <= k < scroll_attempts (history s) + d)%nat ->
             h (S k) ≠ h k) ->
  h (S (scroll_attempts (history s) + d)) = h (scroll_attempts (history s) + d)%nat ->
  (d < fuel)%nat ->
  exists s',
    simple_scraper.scroll_loop (height_page h) fuel (h (scroll_attempts (history s))) s
    = (Returned (Some tt), s')
    ∧ scroll_attempts (history s') = (scroll_attempts (history s) + S d)%nat.
Proof.
  induction d as [|d IH]; intros fuel s Hs Hgrow Hstop Hfuel;
    (destruct fuel as [|fuel]; [lia|]); cbn [simple_scraper.scroll_loop];
    rewrite bind_execute_script, bind_scroll_height;
    set (s1 := push s _); set (s2 := push s1 _);
    assert (scroll_attempts (history s2) = S (scroll_attempts (history s))) as Hk
      by (unfold s2, s1; rewrite !scroll_attempts_push; simpl; lia);
    assert (heights_read (history s1) = S (scroll_attempts (history s))) as Hr1
      by (unfold s1; rewrite !heights_read_push; simpl; lia);
    rewrite Hr1.
  - rewrite Nat.add_0_r in Hstop. rewrite Hstop, Z.eqb_refl.
    exists s2. split; [done|]. lia.
  - rewrite (proj2 (Z.eqb_neq _ _)) by (apply Hgrow; lia).
    assert (heights_read (history s2) = S (scroll_attempts (history s2))) as Hr2.
    { rewrite Hk. unfold s2. rewrite heights_read_push, Hr1. simpl. lia. }
    destruct (IH fuel s2 Hr2) as (s' & Hrun & Hn).
    + intros k Hkk. apply Hgrow. lia.
    + rewrite Hk. by replace (S (scroll_attempts (history s)) + d)%nat
        with (scroll_attempts (history s) + S d)%nat by lia.
    + lia.
    + rewrite Hk in Hrun. exists s'. split; [done|]. lia.
Qed.

Lemma simple_scroll_loop_goes_on : forall fuel s,
  (forall k, h (S k) ≠ h k) ->
  heights_read (history s) = S (scroll_attempts (history s)) ->
  exists s',
    simple_scraper.scroll_loop (height_page h) fuel (h (scroll_attempts (history s))) s
    = (Returned None, s')
    ∧ scroll_attempts (history s') = (scroll_attempts (history s) + fuel)%nat.
Proof.
  induction fuel as [|fuel IH]; intros s Hgrow Hs; cbn [simple_scraper.scroll_loop].
  - exists s. split; [done|lia].
  - rewrite bind_execute_script, bind_scroll_height.
    set (s1 := push s _). set (s2 := push s1 _).
    assert (scroll_attempts (history s2) = S (scroll_attempts (history s))) as Hk
      by (unfold s2, s1; rewrite !scroll_attempts_push; simpl; lia).
    assert (heights_read (history s1) = S (scroll_attempts (history s))) as Hr1
      by (unfold s1; rewrite !heights_read_push; simpl; lia).
    assert (heights_read (history s2) = S (scroll_attempts (history s2))) as Hr2.
    { rewrite Hk. unfold s2. rewrite heights_read_push, Hr1. simpl. lia. }
    rewrite Hr1. rewrite (proj2 (Z.eqb_neq _ _)) by apply Hgrow.
    destruct (IH s2 Hgrow Hr2) as (s' & Hrun & Hn). rewrite Hk in Hrun.
    exists s'. split; [done|]. lia.
Qed.

End SimpleScroll.

(** X8: on a page that answers every call, the scroll loop of
    simple_scraper.py is left at the first scroll that does not change
    the height of the page (one unchanged reading is enough); the page
    is then scrolled back to the top and the function returns. *)
Theorem simple_scroll_stops_at_first_unchanged (h : nat -> Z) (n fuel : nat) :
  (forall k, (k < n)%nat -> h (S k) ≠ h k) ->
  h (S n) = h n ->
  (n < fuel)%nat ->
  exists s',
    simple_scraper.scroll_to_load_all_content (Scrolling.height_page h) fuel
      Scrolling.start = (Returned (Some tt), s')
    ∧ Scrolling.scroll_attempts (history s') = S n
    ∧ Scrolling.ends_at_top (history s').
Proof.
  intros Hgrow Hstop Hfuel.
  unfold simple_scraper.scroll_to_load_all_content, try_except.
  rewrite bind_scroll_height.
  set (s1 := push Scrolling.start _).
  destruct (simple_scroll_loop_stops h n fuel s1) as (s' & Hrun & Hn); try done.
  - intros k Hk. apply Hgrow. change (Scrolling.scroll_attempts (history s1)) with 0%nat in Hk.
    lia.
  - change (Scrolling.scroll_attempts (history s1)) with 0%nat in Hrun.
    change (Scrolling.heights_read (history Scrolling.start)) with 0%nat.
    rewrite (bind_eq _ _ _ _ _ Hrun), bind_execute_script.
    eexists. split; [done|]. split.
    + rewrite scroll_attempts_push, Hn. simpl. lia.
    + unfold push. cbn [history]. by eapply ends_at_top_app.
Qed.

Lemma simple_scroll_stops_at_first_unchanged_witness :
  exists s',
    simple_scraper.scroll_to_load_all_content
      (Scrolling.height_page (fun k => Z.of_nat (Nat.min k 2))) 10
      Scrolling.start = (Returned (Some tt), s')
    ∧ Scrolling.scroll_attempts (history s') = 3%nat
    ∧ Scrolling.ends_at_top (history s').
Proof.
  apply (simple_scroll_stops_at_first_unchanged (fun k => Z.of_nat (Nat.min k 2)) 2 10).
  - intros k Hk. lia.
  - reflexivity.
  - lia.
Defined.

(** X9: the scroll loop of simple_scraper.py has no cap: on a page
    whose height changes at every scroll the loop is still running
    after any number of scrolls. *)
Theorem simple_scroll_has_no_cap (h : nat -> Z) (fuel : nat) :
  (forall k, h (S k) ≠ h k) ->
  exists s',
    simple_scraper.scroll_to_load_all_content (Scrolling.height_page h) fuel
      Scrolling.start = (Returned None, s')
    ∧ Scrolling.scroll_attempts (history s') = fuel.
Proof.
  intros Hgrow.
  unfold simple_scraper.scroll_to_load_all_content, try_except.
  rewrite bind_scroll_height.
  set (s1 := push Scrolling.start _).
  destruct (simple_scroll_loop_goes_on h fuel s1 Hgrow) as (s' & Hrun & Hn); [done|].
  change (Scrolling.scroll_attempts (history s1)) with 0%nat in Hrun, Hn.
  change (Scrolling.heights_read (history Scrolling.start)) with 0%nat.
  rewrite (bind_eq _ _ _ _ _ Hrun). by exists s'.
Qed.

Lemma simple_scroll_has_no_cap_witness :
  exists s',
    simple_scraper.scroll_to_load_all_content (Scrolling.height_page Z.of_nat) 100
      Scrolling.start = (Returned None, s')
    ∧ Scrolling.scroll_attempts (history s') = 100%nat.
Proof.
  apply (simple_scroll_has_no_cap Z.of_nat 100). intros k. lia.
Defined.

(** ** Reading a report, whatever it holds (range_scraper.py) *)

Section ParseFacts.

Import range_scraper.

Variable U : unicode_db.

Lemma keys_dict_set_NoDup {V} (d : dict V) k (v : V) :
  NoDup (keys d) -> NoDup (keys (dict_set d k v)).
Proof.
  intros Hnd. rewrite keys_dict_set. case_bool_decide as Hin; [done|].
  apply NoDup_app. split_and!; [done| |apply NoDup_singleton].
  intros x Hx ->%list_elem_of_singleton. done.
Qed.

Lemma parse_line_NoDup st raw st' :
  parse_line U st raw = Returned st' ->
  NoDup (keys (low_count_data st)) -> NoDup (keys (low_count_data st')).
Proof.
  unfold parse_line. cbv zeta.
  destruct (_ || _); [by intros [= <-]|].
  destruct (startswith (py "CATEGORY:") _).
  { intros [= <-] Hnd. by apply keys_dict_set_NoDup. }
  destruct (_ || _); [by intros [= <-]|].
  destruct (current_category st) as [[|c category]|]; try by intros [= <-].
  destruct (startswith _ _); [|by intros [= <-]].
  unfold parse_subcategory.
  destruct (Re.re_match _ _) as [m|]; [|by intros [= <-]].
  destruct (Re.group m 1) as [g1|]; [|done].
  destruct (Re.group m 2) as [g2|]; [|done].
  destruct (int_of_str U g2) as [n|]; [|done].
  destruct (dict_get _ _) as [entries|]; [|done].
  intros [= <-] Hnd. by apply keys_dict_set_NoDup.
Qed.

Lemma parse_lines_NoDup lines : forall st st',
  parse_lines U st lines = Returned st' ->
  NoDup (keys (low_count_data st)) -> NoDup (keys (low_count_data st')).
Proof.
  induction lines as [|l lines IH]; intros st st'; cbn [parse_lines].
  - by intros [= <-].
  - destruct (parse_line U st l) as [st1|] eqn:E; [|done].
    intros H Hnd. eapply IH; [exact H|]. by eapply parse_line_NoDup.
Qed.

Lemma with_subcategories_spec data :
  NoDup (keys data) ->
  NoDup (keys (with_subcategories data))
  ∧ Forall (fun kv => kv.2 ≠ []) (with_subcategories data).
Proof.
  unfold with_subcategories, keys. induction data as [|[k v] data IH]; cbn.
  - intros _. split; constructor.
  - intros [Hk Hnd]%NoDup_cons. destruct (IH Hnd) as [IH1 IH2].
    case_bool_decide as Hv; cbn; [done|].
    split.
    + apply NoDup_cons. split; [|done]. intros Hin. apply Hk.
      apply list_elem_of_fmap in Hin as ([k' v'] & -> & Hin).
      apply list_elem_of_fmap. exists (k', v'). split; [done|].
      apply list_elem_of_In, List.filter_In in Hin as [Hin _].
      by apply list_elem_of_In.
    + by constructor.
Qed.

Lemma read_text_eq (p : str) (fs : filesystem) :
  read_text p fs
  = (match files fs !! p with
     | Some (TextFile t) => Returned (universal_newlines t)
     | Some _ => Raised ValueError
     | None => Raised OSError
     end, fs).
Proof.
  unfold read_text, bind, get. simpl.
  by destruct (files fs !! p) as [[| | |]|].
Qed.

End ParseFacts.

(** X10: [parse_low_video_count_file] never raises and changes no
    file, whatever is at the path; without a file there it returns the
    empty dictionary; in what it returns the categories are distinct
    and each of them has at least one subcategory. *)
Theorem parse_low_video_count_file_is_safe (U : unicode_db) (file_path : str)
    (fs : filesystem) :
  exists data,
    range_scraper.parse_low_video_count_file U file_path fs = (Returned data, fs)
    ∧ NoDup (keys data)
    ∧ Forall (fun kv => kv.2 ≠ []) data
    ∧ (files fs !! file_path = None -> data = []).
Proof.
  unfold range_scraper.parse_low_video_count_file, try_except.
  rewrite (bind_eq get _ fs fs fs) by done.
  assert (NoDup (keys ([] : dict (list range_scraper.low_count_entry)))) as Hnil
    by constructor.
  destruct (exists_ file_path fs) eqn:Hex; cbn [negb].
  - unfold bind at 1. rewrite read_text_eq.
    destruct (files fs !! file_path) as [[j|rows|t|]|] eqn:Hfile;
      try (exists []; split_and!; [done|constructor|constructor|done]).
    unfold lift, bind, ret.
    destruct (range_scraper.parse_lines U _ _) as [st|e] eqn:Hparse.
    + apply parse_lines_NoDup in Hparse; [|done].
      destruct (with_subcategories_spec _ Hparse) as [H1 H2].
      eexists. split_and!; [done|exact H1|exact H2|done].
    + exists []. split_and!; [done|constructor|constructor|done].
  - exists []. split_and!; [done|constructor|constructor|done].
Qed.

(** ** The selection of videos by a range (range_scraper.py) *)

Section RangeFacts.

Import range_scraper.

Variable U : unicode_db.

Lemma StronglySorted_seqZ (n : nat) : forall m,
  StronglySorted Z.lt (seqZ m (Z.of_nat n)).
Proof.
  induction n as [|n IH]; intros m.
  - rewrite seqZ_nil by lia. constructor.
  - rewrite seqZ_cons by lia.
    replace (Z.pred (Z.of_nat (S n))) with (Z.of_nat n) by lia.
    constructor; [apply IH|]. apply Forall_seqZ. intros j Hj. lia.
Qed.

Lemma StronglySorted_le_lt (l : list Z) :
  StronglySorted Z.le l -> NoDup l -> StronglySorted Z.lt l.
Proof.
  induction 1 as [|x l Hs IH Hx]; intros Hnd; [constructor|].
  apply NoDup_cons in Hnd as [Hin Hnd]. constructor; [by apply IH|].
  rewrite Forall_forall in *. intros y Hy. specialize (Hx y Hy).
  assert (x ≠ y) by (by intros ->). lia.
Qed.

Lemma elem_of_add_range max_videos (l : list Z) : forall (indices : gset Z) i,
  i ∈ foldl (fun (indices : gset Z) i =>
               if (1 <=? i)%Z && (i <=? max_videos)%Z then {[i]} ∪ indices else indices)
            indices l
  ↔ i ∈ indices ∨ (i ∈ l ∧ (1 <= i <= max_videos)%Z).
Proof.
  induction l as [|j l IH]; intros indices i; cbn [foldl].
  - split; [by left|]. intros [?|[H%elem_of_nil _]]; done.
  - rewrite IH. destruct ((1 <=? j)%Z && (j <=? max_videos)%Z) eqn:E.
    + apply andb_true_iff in E as [E1%Z.leb_le E2%Z.leb_le].
      rewrite elem_of_union, elem_of_singleton, elem_of_cons. split.
      * intros [[->|?]|[? ?]]; [right; split; [by left|lia]|by left|right; split; [by right|done]].
      * intros [?|[[->|?] ?]]; [left; by right|left; by left|right; done].
    + rewrite elem_of_cons. split.
      * intros [?|[? ?]]; [by left|right; split; [by right|done]].
      * intros [?|[[->|?] ?]]; [by left| |by right].
        apply andb_false_iff in E as [E%Z.leb_gt|E%Z.leb_gt]; lia.
Qed.

Lemma elem_of_add_range' max_videos indices start end_ i :
  i ∈ add_range max_videos indices start end_
  ↔ i ∈ indices ∨ ((start <= i <= end_)%Z ∧ (1 <= i <= max_videos)%Z).
Proof.
  unfold add_range. rewrite elem_of_add_range, elem_of_seqZ.
  split; (intros [?|[? ?]]; [by left|right; split; [lia|done]]).
Qed.

Lemma add_part_within max_videos indices part :
  (forall i, i ∈ indices -> (1 <= i <= max_videos)%Z) ->
  forall i, i ∈ add_part U max_videos indices part -> (1 <= i <= max_videos)%Z.
Proof.
  intros Hin i. unfold add_part.
  destruct (_ && _).
  - destruct (simple_scraper.split_once 45 part) as [start end_].
    destruct (py_int U (strip start)) as [a|]; [|apply Hin].
    destruct (py_int U (strip end_)) as [b|]; [|apply Hin].
    destruct (b <? a)%Z; rewrite elem_of_add_range'; (intros [?|[_ ?]]; [by apply Hin|done]).
  - destruct (py_int U part) as [num|]; [|apply Hin].
    destruct ((1 <=? num)%Z && (num <=? max_videos)%Z) eqn:E; [|apply Hin].
    apply andb_true_iff in E as [E1%Z.leb_le E2%Z.leb_le].
    rewrite elem_of_union, elem_of_singleton. intros [->|?]; [lia|by apply Hin].
Qed.

Lemma add_parts_within max_videos parts : forall indices,
  (forall i, i ∈ indices -> (1 <= i <= max_videos)%Z) ->
  forall i, i ∈ foldl (add_part U max_videos) indices parts -> (1 <= i <= max_videos)%Z.
Proof.
  induction parts as [|part parts IH]; intros indices Hin; cbn [foldl]; [done|].
  apply IH. by apply add_part_within.
Qed.

(** Texts in which nothing is upper case, white space or a separator. *)
Lemma lower_below (s : str) :
  forallb (fun c => c <? 65) s = true -> lower U s = s.
Proof.
  unfold lower. induction s as [|c s IH]; [done|]. cbn [forallb].
  intros [Hc%N.ltb_lt Hs]%andb_true_iff. rewrite bind_cons.
  replace (c <? 128) with true by (symmetry; apply N.ltb_lt; lia).
  replace (65 <=? c) with false by (symmetry; apply N.leb_gt; lia).
  cbn [andb app]. f_equal. by apply IH.
Qed.

Lemma split_on_absent sep s : sep ∉ s -> split_on sep s = [s].
Proof.
  induction s as [|c s IH]; [done|]. intros [Hc Hs]%not_elem_of_cons.
  cbn [split_on]. rewrite (IH Hs).
  by replace (c =? sep) with false by (symmetry; apply N.eqb_neq; congruence).
Qed.

Lemma split_once_first sep a b :
  sep ∉ a -> simple_scraper.split_once sep (a ++ sep :: b) = (a, b).
Proof.
  induction a as [|c a IH]; cbn [app simple_scraper.split_once].
  - by rewrite N.eqb_refl.
  - intros [Hc Ha]%not_elem_of_cons. rewrite (IH Ha).
    by replace (c =? sep) with false by (symmetry; apply N.eqb_neq; congruence).
Qed.

Lemma ascii_digit_range c : ascii_digit c = true -> 48 <= c <= 57.
Proof. unfold ascii_digit. intros [?%N.leb_le ?%N.leb_le]%andb_true_iff. lia. Qed.

Lemma digits_without (x : N) ds :
  forallb ascii_digit ds = true -> ¬ (48 <= x <= 57) -> x ∉ ds.
Proof.
  rewrite forallb_forall. intros H Hx Hin.
  apply list_elem_of_In, H, ascii_digit_range in Hin. lia.
Qed.

Lemma int_digits_foldl ds : forall (acc : N) count after_digit,
  forallb ascii_digit ds = true ->
  (after_digit = true ∨ ds ≠ []) ->
  (count + length ds <= 4300)%nat ->
  int_digits U (Z.of_N acc) count after_digit ds
  = Z.of_N <$> foldl (int_step U) (Some acc) ds.
Proof.
  induction ds as [|c ds IH]; intros acc count after_digit Hds Hne Hlen;
    cbn [int_digits foldl].
  - destruct Hne as [->|?]; [|done]. cbn [andb].
    by replace (count <=? 4300)%nat with true
      by (symmetry; apply Nat.leb_le; cbn in Hlen; lia).
  - cbn [forallb] in Hds. apply andb_true_iff in Hds as [Hc Hds].
    pose proof (ascii_digit_range c Hc) as Hr.
    replace (c =? 95) with false by (symmetry; apply N.eqb_neq; lia).
    assert (decimal U c = Some (c - 48)) as Hd.
    { unfold decimal, ascii_decimal.
      replace (c <? 128) with true by (symmetry; apply N.ltb_lt; lia).
      unfold ascii_digit in Hc. by rewrite Hc. }
    unfold int_step at 2. rewrite Hd.
    replace (10 * Z.of_N acc + Z.of_N (c - 48))%Z with (Z.of_N (10 * acc + (c - 48)))
      by lia.
    apply IH; [done|by left|cbn in Hlen; lia].
Qed.

Lemma int_lstrip_digits ds :
  forallb ascii_digit ds = true -> int_lstrip ds = ds.
Proof.
  destruct ds as [|c ds]; [done|]. cbn [forallb int_lstrip].
  intros [Hc%ascii_digit_range _]%andb_true_iff. unfold int_space, isspace.
  replace (c <=? 13) with false by (symmetry; apply N.leb_gt; lia).
  replace (c =? 32) with false by (symmetry; apply N.eqb_neq; lia).
  replace (127 <? c) with false by (symmetry; apply N.ltb_ge; lia).
  by rewrite andb_false_r.
Qed.

Lemma py_int_str_of_N n :
  (length (str_of_N n) <= 4300)%nat -> py_int U (str_of_N n) = Some (Z.of_N n).
Proof.
  intros Hlen. pose proof (str_of_N_digits n) as Hds.
  destruct (str_of_N_cons n) as (d & ds & E & Hd).
  unfold py_int, int_strip.
  rewrite (int_lstrip_digits (str_of_N n)) by done.
  rewrite int_lstrip_digits, rev_involutive
    by (rewrite forallb_forall in *; intros c Hc%in_rev; by apply Hds).
  pose proof (ascii_digit_range d Hd) as Hr.
  rewrite E.
  replace (d =? 45) with false by (symmetry; apply N.eqb_neq; lia).
  replace (d =? 43) with false by (symmetry; apply N.eqb_neq; lia).
  rewrite <- E. change 0%Z with (Z.of_N 0).
  rewrite int_digits_foldl; [|done|right; by rewrite E|done].
  assert (printable (Z.of_N n) = true) as Hp.
  { unfold printable. rewrite Zabs2N.id. by apply Nat.leb_le. }
  pose proof (int_of_str_of_N U n Hp) as Hint. unfold int_of_str in Hint.
  rewrite E in Hint. rewrite E.
  replace (length (d :: ds) <=? int_max_str_digits)%nat with true in Hint
    by (symmetry; apply Nat.leb_le; by rewrite <- E).
  by rewrite Hint.
Qed.

End RangeFacts.

(** X11: for every text and every number of videos,
    [parse_range_input] returns numbers that lie between 1 and
    [max_videos], in increasing order and without repetition. *)
Theorem parse_range_input_selection (U : unicode_db) (range_input : str)
    (max_videos : Z) :
  let result := range_scraper.parse_range_input U range_input max_videos in
  StronglySorted Z.lt result
  ∧ Forall (fun i => (1 <= i <= max_videos)%Z) result.
Proof.
  unfold range_scraper.parse_range_input. cbv zeta.
  case_bool_decide as Hall.
  - split.
    + destruct (decide (0 <= max_videos)%Z) as [Hm|Hm].
      * rewrite <- (Z2Nat.id max_videos) by done. apply StronglySorted_seqZ.
      * rewrite seqZ_nil by lia. constructor.
    + apply Forall_seqZ. intros j Hj. lia.
  - split.
    + apply StronglySorted_le_lt.
      * apply (StronglySorted_merge_sort Z.le).
      * rewrite merge_sort_Permutation. apply NoDup_elements.
    + apply Forall_forall. intros i Hi.
      rewrite merge_sort_Permutation in Hi. apply elem_of_elements in Hi.
      eapply add_parts_within; [|exact Hi]. intros j Hj. by apply elem_of_empty in Hj.
Qed.

Section RangeText.

Variable U : unicode_db.

Lemma digits_trimmed ds :
  ds ≠ [] -> forallb ascii_digit ds = true -> Report.trimmed ds = true.
Proof.
  intros Hne Hds. unfold Report.trimmed. apply andb_true_iff. split.
  - destruct ds as [|d ds]; [done|]. cbn [forallb] in Hds.
    apply andb_true_iff in Hds as [Hd _].
    by rewrite (ascii_digit_not_space d Hd).
  - destruct (last ds) as [z|] eqn:E; [|by apply last_None in E].
    apply last_Some in E as [l ->]. rewrite forallb_app in Hds.
    apply andb_true_iff in Hds as [_ Hz]. cbn [forallb] in Hz.
    apply andb_true_iff in Hz as [Hz _].
    by rewrite (ascii_digit_not_space z Hz).
Qed.

Lemma digits_below ds :
  forallb ascii_digit ds = true -> forallb (fun c => c <? 65) ds = true.
Proof.
  rewrite !forallb_forall. intros H c Hc.
  pose proof (ascii_digit_range c (H c Hc)). apply N.ltb_lt. lia.
Qed.

(** What the parts of the text of a range [a-b] are, for two numbers
    written in decimal digits. *)
Lemma range_text_parts (a b : N) :
  let s := str_of_N a ++ py "-" ++ str_of_N b in
  lower U (strip s) = s
  ∧ (s ∉ [py "0"; py "all"])
  ∧ strip <$> split_on 44 s = [s]
  ∧ bool_decide (45 ∈ s) && negb (startswith (py "-") s) = true
  ∧ simple_scraper.split_once 45 s = (str_of_N a, str_of_N b)
  ∧ strip (str_of_N a) = str_of_N a
  ∧ strip (str_of_N b) = str_of_N b.
Proof.
  intros s.
  pose proof (str_of_N_digits a) as Ha. pose proof (str_of_N_digits b) as Hb.
  destruct (str_of_N_cons a) as (d & ds & Ea & Hd).
  destruct (str_of_N_cons b) as (e & es & Eb & He).
  pose proof (ascii_digit_range d Hd) as Hdr.
  assert (Report.trimmed s = true) as Ht.
  { unfold s. apply trimmed_app.
    - rewrite Ea. by rewrite (ascii_digit_not_space d Hd).
    - change (py "-" ++ str_of_N b) with ([45] ++ str_of_N b). rewrite last_app.
      pose proof (digits_trimmed (str_of_N b)) as Htb.
      unfold Report.trimmed in Htb.
      destruct (last (str_of_N b)) as [z|] eqn:El.
      + apply andb_true_iff in Htb as [_ Htb]; [done|by rewrite Eb|done].
      + apply last_None in El. by rewrite Eb in El. }
  assert (strip s = s) as Hstrip by by apply strip_trimmed.
  split_and!.
  - rewrite Hstrip. apply lower_below. unfold s.
    rewrite !forallb_app.
    rewrite (digits_below (str_of_N a)), (digits_below (str_of_N b)) by done.
    reflexivity.
  - unfold s. rewrite Ea. intros [H|[H|H%elem_of_nil]%elem_of_cons]%elem_of_cons; [| |done].
    + change (py "0") with [48] in H. injection H as _ H. by destruct ds.
    + change (py "all") with [97; 108; 108] in H. injection H as Hd' _. lia.
  - rewrite split_on_absent;
      [change (strip <$> [s]) with [strip s]; by rewrite Hstrip|].
    unfold s. intros [H|[H|H]%elem_of_cons]%elem_of_app.
    + revert H. apply digits_without; [done|lia].
    + done.
    + revert H. apply digits_without; [done|lia].
  - apply andb_true_iff. split.
    + apply bool_decide_eq_true. unfold s. apply elem_of_app. right. by left.
    + unfold s. rewrite Ea. change (py "-") with [45]. cbn [app startswith].
      by replace (45 =? d) with false by (symmetry; apply N.eqb_neq; lia).
  - unfold s. change (py "-") with [45].
    apply (split_once_first 45). apply digits_without; [done|lia].
  - apply strip_trimmed, digits_trimmed; [by rewrite Ea|done].
  - apply strip_trimmed, digits_trimmed; [by rewrite Eb|done].
Qed.

End RangeText.

(** X12: a range [a-b] of two numbers written in decimal digits selects
    the numbers from the smaller to the larger end, whichever is written
    first, as far as they lie between 1 and [max_videos]. *)
Theorem parse_range_input_range (U : unicode_db) (a b : N) (max_videos i : Z) :
  (length (str_of_N a) <= 4300)%nat ->
  (length (str_of_N b) <= 4300)%nat ->
  i ∈ range_scraper.parse_range_input U (str_of_N a ++ py "-" ++ str_of_N b) max_videos
  ↔ (Z.min (Z.of_N a) (Z.of_N b) <= i <= Z.max (Z.of_N a) (Z.of_N b))%Z
    ∧ (1 <= i <= max_videos)%Z.
Proof.
  intros Ha Hb.
  destruct (range_text_parts U a b) as (Hlow & Hall & Hparts & Hdash & Hsplit & Hsa & Hsb).
  unfold range_scraper.parse_range_input. cbv zeta.
  rewrite Hlow, bool_decide_eq_false_2 by done.
  rewrite Hparts. cbn [foldl].
  rewrite merge_sort_Permutation, elem_of_elements.
  unfold range_scraper.add_part. rewrite Hdash, Hsplit, Hsa, Hsb.
  rewrite !py_int_str_of_N by done.
  destruct (Z.of_N b <? Z.of_N a)%Z eqn:E;
    rewrite elem_of_add_range', elem_of_empty;
    [apply Z.ltb_lt in E|apply Z.ltb_ge in E]; split.
  - intros [[]|[? ?]]. split; [lia|done].
  - intros [? ?]. right. split; [lia|done].
  - intros [[]|[? ?]]. split; [lia|done].
  - intros [? ?]. right. split; [lia|done].
Qed.

Lemma parse_range_input_range_witness :
  (3 ∈ range_scraper.parse_range_input ascii_db (py "5-2") 4)%Z
  ∧ (5 ∉ range_scraper.parse_range_input ascii_db (py "5-2") 4)%Z.
Proof.
  split.
  - apply (parse_range_input_range ascii_db 5 2 4 3);
      [vm_compute; lia|vm_compute; lia|lia].
  - intros H.
    apply (parse_range_input_range ascii_db 5 2 4 5) in H;
      [lia|vm_compute; lia|vm_compute; lia].
Defined.

(** ** The save of the image scraper (image_scraper.py) *)

Section ImageSave.

Import image_scraper.

Lemma write_file_eq p f fs :
  write_file p f fs
  = if bool_decide (p ∈ dirs fs) then (Raised OSError, fs)
    else (Returned tt, {| dirs := dirs fs; files := <[p := f]> (files fs) |}).
Proof. unfold write_file, bind, get, raise, modify. by case_bool_decide. Qed.

Lemma makedirs_eq p fs :
  makedirs p fs
  = if bool_decide (p = []) then (Raised OSError, fs)
    else if existsb (fun a => bool_decide (is_Some (files fs !! a))) (p :: ancestors p)
    then (Raised OSError, fs)
    else (Returned tt, {| dirs := list_to_set (p :: ancestors p) ∪ dirs fs;
                          files := files fs |}).
Proof.
  unfold makedirs, bind, get, raise, modify. case_bool_decide; [done|].
  by destruct (existsb _ _).
Qed.

(** The files that a piece of code leaves alone. *)
Lemma touches_only_ret {A} paths (a : A) : touches_only paths (ret a).
Proof. by intros fs p _. Qed.

Lemma touches_only_raise {A} paths e : touches_only (A := A) paths (raise e).
Proof. by intros fs p _. Qed.

Lemma touches_only_lift {A} paths (o : outcome A) : touches_only paths (lift o).
Proof. by intros fs p _. Qed.

Lemma touches_only_bind {A B} paths (m : M filesystem A) (k : A -> M filesystem B) :
  touches_only paths m -> (forall a, touches_only paths (k a)) ->
  touches_only paths (bind m k).
Proof.
  intros Hm Hk fs p Hp. unfold bind. specialize (Hm fs p Hp).
  destruct (m fs) as [[a|e] fs1]; cbn [snd] in *; [|done].
  by rewrite (Hk a fs1 p Hp).
Qed.

Lemma touches_only_try_except {A} paths (m : M filesystem A) h :
  touches_only paths m -> (forall e, touches_only paths (h e)) ->
  touches_only paths (try_except m h).
Proof.
  intros Hm Hh fs p Hp. unfold try_except. specialize (Hm fs p Hp).
  destruct (m fs) as [[a|e] fs1]; cbn [snd] in *; [done|].
  by rewrite (Hh e fs1 p Hp).
Qed.

Lemma touches_only_makedirs paths q : touches_only paths (makedirs q).
Proof.
  intros fs p _. rewrite makedirs_eq. case_bool_decide; [done|].
  by destruct (existsb _ _).
Qed.

Lemma touches_only_write_file paths q f : q ∈ paths -> touches_only paths (write_file q f).
Proof.
  intros Hq fs p Hp. rewrite write_file_eq. case_bool_decide; [done|].
  cbn [snd files]. rewrite lookup_insert_ne; [done|]. by intros ->.
Qed.

Lemma touches_only_json_dump paths q j : q ∈ paths -> touches_only paths (json_dump q j).
Proof.
  intros Hq. unfold json_dump. destruct (json_writable j).
  - by apply touches_only_write_file.
  - apply touches_only_bind; [by apply touches_only_write_file|].
    intros _. apply touches_only_raise.
Qed.

Lemma touches_only_write_csv paths q fieldnames rows :
  q ∈ paths -> touches_only paths (simple_scraper.write_csv q fieldnames rows).
Proof.
  intros Hq. unfold simple_scraper.write_csv.
  destruct (forallb encodable fieldnames); [|apply touches_only_raise].
  destruct (simple_scraper.writerows fieldnames rows) as [out ending].
  apply touches_only_bind; [by apply touches_only_write_file|].
  intros _. apply touches_only_lift.
Qed.

Lemma touches_only_summary paths images_data : touches_only paths (summary images_data).
Proof. intros fs p _. unfold summary. by destruct (existsb _ _). Qed.

Lemma summary_files images_data fs : files (summary images_data fs).2 = files fs.
Proof. unfold summary. by destruct (existsb _ _). Qed.

(** The folder of a category has no slash, and so no ancestor. *)
Lemma replace_slash s : 47 ∉ replace (py "/") (py "_") s.
Proof.
  unfold replace. induction s as [|c s IH]; cbn [replace_go]; [apply not_elem_of_nil|].
  change (py "/") with [47] in *. change (py "_") with [95] in *.
  cbn [startswith]. destruct (47 =? c) eqn:E; cbn [andb length Nat.sub app].
  - apply not_elem_of_cons. split; [done|]. destruct s; exact IH.
  - apply not_elem_of_cons. split; [|done]. apply N.eqb_neq in E. congruence.
Qed.

Lemma ancestors_from_no_slash p : forall before, 47 ∉ p -> ancestors_from before p = [].
Proof.
  induction p as [|c p IH]; intros before; [done|].
  intros [Hc Hp]%not_elem_of_cons. cbn [ancestors_from].
  replace (c =? 47) with false by (symmetry; apply N.eqb_neq; congruence).
  cbn [andb app]. by apply IH.
Qed.

(** The rows of images.csv can be written when the records can. *)
Lemma dict_get_writable (r : dict pyval) k v :
  json_writable (json_of_record r) = true -> dict_get r k = Some v -> writable v = true.
Proof.
  unfold json_of_record. cbn [json_writable].
  induction r as [|[k0 v0] r IH]; cbn [dict_get fmap list_fmap forallb fst snd]; [done|].
  intros [[_ Hv0]%andb_true_iff Hr]%andb_true_iff.
  case_bool_decide; [|by apply IH]. intros [= <-]. by destruct v0.
Qed.

Lemma dict_get_row_of image_data k :
  k ∈ fieldnames ->
  dict_get (row_of image_data) k = Some (get_default image_data k (PStr [])).
Proof.
  unfold row_of, fieldnames. intros Hk.
  repeat (apply elem_of_cons in Hk as [->|Hk]; [by vm_compute|]).
  by apply elem_of_nil in Hk.
Qed.

Lemma writerows_images images_data :
  Forall (fun r => json_writable (json_of_record r) = true) images_data ->
  simple_scraper.writerows fieldnames (row_of <$> images_data)
  = (csv_row <$> images_data, Returned tt).
Proof.
  intros Hw. rewrite writerows_all.
  - f_equal. rewrite <- list_fmap_compose. apply list_fmap_ext. intros _ r _.
    unfold compose, csv_row. apply list_fmap_ext. intros i k Hk.
    rewrite dict_get_row_of; [done|]. by eapply list_elem_of_lookup_2.
  - intros r k (r0 & -> & _)%list_elem_of_fmap Hk. unfold row_of, keys in Hk.
    rewrite <- list_fmap_compose in Hk. by rewrite list_fmap_id in Hk.
  - intros r k (r0 & -> & Hr)%list_elem_of_fmap.
    rewrite Forall_forall in Hw. specialize (Hw r0 Hr).
    destruct (dict_get (row_of r0) k) as [v|] eqn:Hv; [|done]. cbn [simple_scraper.cell_writable].
    unfold row_of in Hv. apply dict_get_Some_elem, list_elem_of_fmap in Hv as (k' & [= -> ->] & _).
    unfold get_default. destruct (dict_get r0 k') as [v|] eqn:Hv; [|done].
    by apply (dict_get_writable r0 k').
Qed.

(** The number of items of a list can be turned into text. *)
Lemma length_digits_go fuel : forall n acc,
  (length (digits_go fuel n acc) <= fuel + length acc)%nat.
Proof.
  induction fuel as [|fuel IH]; intros n acc; cbn [digits_go]; [lia|].
  destruct (n <? 10); cbn [length]; [lia|].
  etransitivity; [apply IH|]. cbn [length]. lia.
Qed.

Lemma pos_size_nat_le p : 2 ^ N.of_nat (Pos.size_nat p) <= 2 * N.pos p.
Proof.
  induction p as [p IH|p IH|]; cbn [Pos.size_nat];
    rewrite ?Nat2N.inj_succ, ?N.pow_succ_r'; lia.
Qed.

Lemma printable_length (n : nat) :
  N.of_nat n < 2 ^ 63 -> printable (Z.of_nat n) = true.
Proof.
  intros Hn. unfold printable. rewrite <- nat_N_Z, Zabs2N.id. apply Nat.leb_le.
  unfold str_of_N. etransitivity; [apply length_digits_go|].
  cbn [length]. unfold int_max_str_digits.
  assert (N.size_nat (N.of_nat n) <= 63)%nat; [|lia].
  destruct (N.of_nat n) as [|q] eqn:E; [cbn; lia|].
  cbn [N.size_nat]. pose proof (pos_size_nat_le q) as Hq.
  apply Nat.nlt_ge. intros Hlt.
  assert (2 ^ 64 <= 2 ^ N.of_nat (Pos.size_nat q)) as Hpow.
  { apply N.pow_le_mono_r; [done|lia]. }
  change (2 ^ 64) with (2 * 2 ^ 63) in Hpow. lia.
Qed.

End ImageSave.

(** X13: [save_images_data] never raises, whatever the records, the
    name of the category and the files are: a failure is logged and
    the function returns.  No file other than images.csv and
    images.json of the category folder is written. *)
Theorem save_images_data_never_raises (timestamp : str)
    (images_data : list (dict pyval)) (category_name : str) (fs : filesystem) :
  let category_folder :=
    replace (py "/") (py "_") (replace (py " ") (py "_") category_name) in
  exists fs',
    image_scraper.save_images_data timestamp images_data category_name fs
    = (Returned tt, fs')
    ∧ forall p,
        p ≠ path_join category_folder (py "images.csv") ->
        p ≠ path_join category_folder (py "images.json") ->
        files fs' !! p = files fs !! p.
Proof.
  intros category_folder.
  exists (image_scraper.save_images_data timestamp images_data category_name fs).2.
  split.
  - unfold image_scraper.save_images_data, try_except.
    by destruct (_ fs) as [[[]|e] fs1].
  - intros p Hcsv Hjson.
    apply (touches_only_try_except
             [path_join category_folder (py "images.csv");
              path_join category_folder (py "images.json")]);
      [|intros e; apply touches_only_ret
       |intros [->|[->|[]%elem_of_nil]%elem_of_cons]%elem_of_cons; done].
    case_bool_decide; [apply touches_only_ret|]. fold category_folder.
    apply touches_only_bind; [apply touches_only_makedirs|]. intros _.
    apply touches_only_bind;
      [apply touches_only_write_file, list_elem_of_here|]. intros _.
    apply touches_only_bind;
      [apply touches_only_write_csv, list_elem_of_here|]. intros _.
    apply touches_only_bind;
      [apply touches_only_json_dump, list_elem_of_further, list_elem_of_here|]. intros _.
    apply touches_only_summary.
Qed.

(** X14: the image scraper removes no duplicate.  When the folder can
    be made and the two files can be opened, and the records, the
    timestamp and the name of the category can be written (their text
    can be encoded, their integers are within the limit; a list has
    fewer than 2^63 items), images.json holds every record that was
    given, in the order given, with its provenance fields, and
    ['total_images'] is their number. *)
Theorem save_images_data_keeps_every_record (timestamp : str)
    (images_data : list (dict pyval)) (category_name : str) (fs : filesystem) :
  let category_folder :=
    replace (py "/") (py "_") (replace (py " ") (py "_") category_name) in
  let fs' := (image_scraper.save_images_data timestamp images_data category_name fs).2 in
  images_data ≠ [] ->
  category_folder ≠ [] ->
  files fs !! category_folder = None ->
  path_join category_folder (py "images.csv") ∉ {[category_folder]} ∪ dirs fs ->
  path_join category_folder (py "images.json") ∉ {[category_folder]} ∪ dirs fs ->
  encodable timestamp = true ->
  encodable category_name = true ->
  Forall (fun r => json_writable (json_of_record r) = true) images_data ->
  N.of_nat (length images_data) < 2 ^ 63 ->
  files fs' !! path_join category_folder (py "images.json")
  = Some (JsonFile (JObj [(py "timestamp", JStr timestamp);
                          (py "category", JStr category_name);
                          (py "total_images", JNum (Z.of_nat (length images_data)));
                          (py "images", JArr (json_of_record <$> images_data))])).
Proof.
  intros category_folder fs' Hne Hfolder Hfile Hcsv Hjson Hts Hcat Hrecords Hlen.
  unfold fs'.
  assert (ancestors category_folder = []) as Hanc.
  { apply ancestors_from_no_slash, replace_slash. }
  unfold image_scraper.save_images_data, try_except.
  rewrite bool_decide_eq_false_2 by done.
  fold category_folder. unfold bind at 1. rewrite makedirs_eq.
  rewrite bool_decide_eq_false_2 by done. rewrite Hanc. cbn [existsb].
  rewrite Hfile. rewrite bool_decide_eq_false_2 by (by intros [? ?]).
  cbn [orb].
  replace (list_to_set [category_folder] : gset str) with ({[category_folder]} : gset str)
    by (cbn; by rewrite union_empty_r_L).
  unfold bind at 1. rewrite write_file_eq. cbn [dirs files].
  rewrite bool_decide_eq_false_2 by done.
  unfold bind at 1. unfold simple_scraper.write_csv.
  replace (forallb encodable image_scraper.fieldnames) with true by by vm_compute.
  rewrite writerows_images by done.
  unfold bind at 1. rewrite write_file_eq. cbn [dirs files].
  rewrite bool_decide_eq_false_2 by done. unfold lift.
  unfold bind at 1. unfold json_dump.
  assert (json_writable
            (JObj [(py "timestamp", JStr timestamp); (py "category", JStr category_name);
                   (py "total_images", JNum (Z.of_nat (length images_data)));
                   (py "images", JArr (json_of_record <$> images_data))]) = true) as ->.
  { cbn [json_writable forallb]. rewrite Hts, Hcat, printable_length by done.
    replace (encodable (py "timestamp")) with true by by vm_compute.
    replace (encodable (py "category")) with true by by vm_compute.
    replace (encodable (py "total_images")) with true by by vm_compute.
    replace (encodable (py "images")) with true by by vm_compute.
    cbn [andb]. rewrite andb_true_r. apply forallb_forall.
    intros j Hj%list_elem_of_In%list_elem_of_fmap. destruct Hj as (r & -> & Hr).
    rewrite Forall_forall in Hrecords. by apply Hrecords. }
  rewrite write_file_eq. cbn [dirs files].
  rewrite bool_decide_eq_false_2 by done.
  set (fs2 := {| dirs := _; files := _ |}).
  pose proof (summary_files images_data fs2) as Hsum.
  destruct (image_scraper.summary images_data fs2) as [[[]|e] fs3] eqn:E;
    unfold ret; cbn [snd] in Hsum |- *; rewrite Hsum; unfold fs2; cbn [files];
    by rewrite lookup_insert_eq.
Qed.

Lemma save_images_data_keeps_every_record_witness :
  let fs' := (image_scraper.save_images_data (py "20260101_000000")
                [Scenario.image_record; Scenario.image_record] (py "Soul Mates")
                Scenario.empty_fs).2 in
  files fs' !! py "Soul_Mates/images.json"
  = Some (JsonFile (JObj [(py "timestamp", JStr (py "20260101_000000"));
                          (py "category", JStr (py "Soul Mates"));
                          (py "total_images", JNum 2);
                          (py "images", JArr [json_of_record Scenario.image_record;
                                              json_of_record Scenario.image_record])])).
Proof.
  apply (save_images_data_keeps_every_record (py "20260101_000000")
           [Scenario.image_record; Scenario.image_record] (py "Soul Mates")
           Scenario.empty_fs).
  - discriminate.
  - vm_compute. discriminate.
  - reflexivity.
  - apply (bool_decide_unpack _). vm_compute. reflexivity.
  - apply (bool_decide_unpack _). vm_compute. reflexivity.
  - vm_compute. reflexivity.
  - vm_compute. reflexivity.
  - repeat constructor.
  - vm_compute. reflexivity.
Defined.

(** ** The scan for subsections to scrape (auto_scraper.py) *)

Section ScanFacts.

Import auto_scraper.

Variable root_dir : str.

Import Scan.

Lemma scanned_refl s : scanned root_dir s s.
Proof. split; [done|]. exists []. by rewrite app_nil_r. Qed.

Lemma scanned_trans s1 s2 s3 : scanned root_dir s1 s2 -> scanned root_dir s2 s3 -> scanned root_dir s1 s3.
Proof.
  intros [F1 (n1 & M1 & P1)] [F2 (n2 & M2 & P2)]. split; [congruence|].
  exists (n1 ++ n2). split; [by rewrite M2, M1, app_assoc|by apply Forall_app].
Qed.

Lemma scan_subcategory_scanned cat subcat s :
  scanned root_dir s (scan_subcategory root_dir cat subcat s).2.
Proof.
  unfold scan_subcategory, lift, bind.
  destruct (json_get subcat (py "name") _) as [subcat_name|]; [|apply scanned_refl].
  destruct (json_get subcat (py "link") _) as [subcat_link|]; [|apply scanned_refl].
  destruct (json_truthy subcat_link) eqn:Ht; cbn [negb]; [|apply scanned_refl].
  destruct subcat_name as [| | |name| |]; try apply scanned_refl.
  unfold on_fs. rewrite check_videos_json_classify.
  destruct (Classification.classify _) as [st count].
  destruct (needs_scraping st) eqn:Hn; [|destruct s; apply scanned_refl].
  unfold append_entry, modify. cbn. split; [done|].
  eexists [_]. split; [done|]. constructor; [|constructor].
  split_and!; [|done|done]. cbn. intros ->. by vm_compute in Hn.
Qed.

Lemma scan_subcategories_scanned cat subs : forall s,
  scanned root_dir s (scan_subcategories root_dir cat subs s).2.
Proof.
  induction subs as [|subcat rest IH]; intros s; cbn [scan_subcategories].
  - apply scanned_refl.
  - unfold bind. pose proof (scan_subcategory_scanned cat subcat s) as H.
    destruct (scan_subcategory root_dir cat subcat s) as [[[]|e] s1]; [|done].
    eapply scanned_trans; [exact H|apply IH].
Qed.

End ScanFacts.

(** X15: the scan of the catalog index at the root never raises and
    changes no file; it only adds entries to the worklist, and every
    entry it adds has a link that is not empty, a status other than
    [populated], and the folder of its subsection below the root as
    its path -- also when the scan is cut short by an entry that cannot
    be read. *)
Theorem scan_root_metadata_lists_what_needs_scraping (root_dir : str)
    (s : auto_scraper.scan_state) :
  exists returned s',
    auto_scraper.scan_root_metadata root_dir s = (Returned returned, s')
    ∧ Scan.scanned root_dir s s'.
Proof.
  unfold auto_scraper.scan_root_metadata. cbv zeta.
  rewrite (bind_eq get _ s s s) by done.
  destruct (exists_ _ (auto_scraper.scan_fs s)); [|exists false, s; split; [done|apply scanned_refl]].
  unfold try_except, bind at 1, auto_scraper.on_fs. rewrite json_load_eq.
  destruct (files (auto_scraper.scan_fs s) !! _) as [[root_metadata| | |]|];
    try (destruct s; exists false; eexists; split; [done|apply scanned_refl]).
  assert ({| auto_scraper.scan_fs := auto_scraper.scan_fs s;
             auto_scraper.missing_subcategories := auto_scraper.missing_subcategories s |}
          = s) as -> by by destruct s.
  unfold bind at 1, lift.
  destruct (auto_scraper.json_get root_metadata (py "category_name") _) as [cat|];
    [|exists false, s; split; [done|apply scanned_refl]].
  unfold bind at 1.
  destruct (auto_scraper.json_get root_metadata (py "sub_categories") _) as [subs|];
    [|exists false, s; split; [done|apply scanned_refl]].
  unfold bind at 1.
  destruct (auto_scraper.json_iter subs) as [l|];
    [|exists false, s; split; [done|apply scanned_refl]].
  unfold bind.
  pose proof (scan_subcategories_scanned root_dir cat l s) as H.
  destruct (auto_scraper.scan_subcategories root_dir cat l s) as [[[]|e] s1];
    [exists true, s1|exists false, s1]; by split.
Qed.

(** ** The link of a subsection in a catalog index (range_scraper.py) *)

Section CatalogFacts.

Import auto_scraper metadata_updater Catalog.

(** What the loop has found: the first entry with this name and a link
    that is not empty; the entries before it are objects. *)
Lemma url_loop_found subcategory_name url : forall entries,
  url_loop entries subcategory_name = Returned (Some url) ->
  json_truthy url = true
  ∧ exists before fields after,
      entries = before ++ JObj fields :: after
      ∧ dict_get fields (py "name") = Some (JStr subcategory_name)
      ∧ dict_get fields (py "link") = Some url
      ∧ forall e, e ∈ before ->
          exists f, e = JObj f
            ∧ (dict_get f (py "name") ≠ Some (JStr subcategory_name)
               ∨ json_truthy (get_default f (py "link") (JStr [])) = false).
Proof.
  induction entries as [|e entries IH]; cbn [url_loop]; [done|].
  destruct e as [| | | | |f]; try done. cbn [json_get].
  assert (url_loop entries subcategory_name = Returned (Some url) ->
          (dict_get f (py "name") ≠ Some (JStr subcategory_name)
           ∨ json_truthy (get_default f (py "link") (JStr [])) = false) ->
          json_truthy url = true
          ∧ exists before fields after,
              JObj f :: entries = before ++ JObj fields :: after
              ∧ dict_get fields (py "name") = Some (JStr subcategory_name)
              ∧ dict_get fields (py "link") = Some url
              ∧ forall e, e ∈ before ->
                  exists f, e = JObj f
                    ∧ (dict_get f (py "name") ≠ Some (JStr subcategory_name)
                       ∨ json_truthy (get_default f (py "link") (JStr [])) = false)) as Hrest.
  { intros H Hf. destruct (IH H) as (Ht & before & fields & after & -> & Hn & Hl & Hb).
    split; [done|]. exists (JObj f :: before), fields, after.
    split_and!; try done.
    intros e [->|He]%elem_of_cons; [by exists f|by apply Hb]. }
  unfold get_default at 1.
  destruct (dict_get f (py "name")) as [name|] eqn:Hname; cbn [from_option id].
  - destruct name as [| | |t| |];
      try (intros H; apply Hrest; [done|by left]).
    case_bool_decide as Ht; [subst t|intros H; apply Hrest; [done|left; congruence]].
    destruct (json_truthy (get_default f (py "link") (JStr []))) eqn:Hurl.
    + intros [= <-]. split; [done|]. exists [], f, entries.
      split_and!; try done.
      * unfold get_default in *. destruct (dict_get f (py "link")); [done|].
        by vm_compute in Hurl.
      * intros e He. by apply elem_of_nil in He.
    + intros H. apply Hrest; [done|by right].
  - intros H. apply Hrest; [done|by left].
Qed.

(** The update of an entry changes no field but its count. *)
Lemma update_subcategory_other_fields video_data_map e e' k dflt :
  update_subcategory video_data_map e = Returned e' ->
  k ≠ py "video_count" ->
  json_get e' k dflt = json_get e k dflt.
Proof.
  unfold update_subcategory.
  destruct (subscript_name e) as [name|]; [|done].
  destruct (matching_data_of _ name) as [matching_data|]; [|done].
  destruct e as [| | | | |fields]; try done. intros [= <-] Hk.
  cbn [json_get]. unfold get_default. by rewrite dict_get_set_ne.
Qed.

Lemma update_subcategories_url_loop video_data_map subcategory_name l : forall l',
  update_subcategories video_data_map l = Returned l' ->
  url_loop l' subcategory_name = url_loop l subcategory_name.
Proof.
  induction l as [|e l IH]; cbn [update_subcategories]; intros l'.
  - by intros [= <-].
  - destruct (update_subcategory _ e) as [e'|] eqn:He; [|done].
    destruct (update_subcategories _ l) as [r|] eqn:Hr; [|done].
    intros [= <-]. cbn [url_loop].
    rewrite (update_subcategory_other_fields _ _ _ (py "name") JNull He) by done.
    rewrite (update_subcategory_other_fields _ _ _ (py "link") (JStr []) He) by done.
    by rewrite (IH _ eq_refl).
Qed.

End CatalogFacts.

(** X16: a link that [get_subcategory_url] returns is not empty and is
    the link of the first entry of the index's ['sub_categories'] that
    has the name asked for and a link that is not empty; the index is
    an object, its ['sub_categories'] a list, and the entries before
    that one are objects. *)
Theorem get_subcategory_url_is_the_first_link (category_metadata : option json)
    (subcategory_name : str) (url : json) :
  Catalog.get_subcategory_url category_metadata subcategory_name = Some url ->
  json_truthy url = true
  ∧ exists index before fields after,
      category_metadata = Some (JObj index)
      ∧ dict_get index (py "sub_categories") = Some (JArr (before ++ JObj fields :: after))
      ∧ dict_get fields (py "name") = Some (JStr subcategory_name)
      ∧ dict_get fields (py "link") = Some url
      ∧ forall e, e ∈ before ->
          exists f, e = JObj f
            ∧ (dict_get f (py "name") ≠ Some (JStr subcategory_name)
               ∨ json_truthy (get_default f (py "link") (JStr [])) = false).
Proof.
  unfold Catalog.get_subcategory_url.
  destruct category_metadata as [metadata|]; [|done].
  destruct (json_truthy metadata); cbn [negb]; [|done].
  destruct metadata as [| | | | |index]; try done. cbn [auto_scraper.json_get].
  unfold get_default.
  destruct (dict_get index (py "sub_categories")) as [subs|] eqn:Hsubs;
    cbn [from_option id]; [|done].
  destruct subs as [| | |t|entries|o]; try done; cbn [auto_scraper.json_iter].
  - destruct t as [|c t]; [done|]. cbn. done.
  - destruct (Catalog.url_loop entries subcategory_name) as [r|] eqn:Hloop; [|done].
    intros ->. destruct (url_loop_found _ _ _ Hloop) as (Ht & before & fields & after & -> & H).
    split; [done|]. by exists index, before, fields, after.
  - destruct o as [|[k v] o]; [done|]. cbn. done.
Qed.

Lemma get_subcategory_url_is_the_first_link_witness :
  json_truthy (JStr (py "https://site/b")) = true
  ∧ exists index before fields after,
      Some Scenario.catalog = Some (JObj index)
      ∧ dict_get index (py "sub_categories") = Some (JArr (before ++ JObj fields :: after))
      ∧ dict_get fields (py "name") = Some (JStr (py "B"))
      ∧ dict_get fields (py "link") = Some (JStr (py "https://site/b"))
      ∧ forall e, e ∈ before ->
          exists f, e = JObj f
            ∧ (dict_get f (py "name") ≠ Some (JStr (py "B"))
               ∨ json_truthy (get_default f (py "link") (JStr [])) = false).
Proof.
  apply (get_subcategory_url_is_the_first_link (Some Scenario.catalog) (py "B")
           (JStr (py "https://site/b"))).
  vm_compute. reflexivity.
Defined.

(** X17: a successful [update_metadata_json] changes no link of the
    index: whatever the name, [get_subcategory_url] gives on the index
    that was written what it gave on the index that was read. *)
Theorem update_metadata_json_keeps_the_links (metadata_path : str)
    (video_analyses : list metadata_updater.analysis) (fs fs' : filesystem) :
  metadata_updater.update_metadata_json metadata_path video_analyses fs
  = (Returned true, fs') ->
  exists metadata metadata',
    files fs !! metadata_path = Some (JsonFile metadata)
    ∧ files fs' !! metadata_path = Some (JsonFile metadata')
    ∧ forall subcategory_name,
        Catalog.get_subcategory_url (Some metadata') subcategory_name
        = Catalog.get_subcategory_url (Some metadata) subcategory_name.
Proof.
  intros (o & subs & subs' & Hfile & Hsubs & Hup & _ & _ & ->)%update_metadata_json_true.
  eexists _, _. split; [exact Hfile|]. split; [cbn [files]; by rewrite lookup_insert_eq|].
  intros subcategory_name. unfold Catalog.get_subcategory_url.
  assert (json_truthy (JObj o) = true) as -> by by destruct o.
  assert (json_truthy (JObj (dict_set o (py "sub_categories") subs')) = true) as ->.
  { destruct o as [|[k v] o]; [done|]. cbn [dict_set]. by case_bool_decide. }
  cbn [negb auto_scraper.json_get]. unfold get_default.
  rewrite dict_get_set_eq, Hsubs. cbn [from_option id].
  unfold metadata_updater.update_sub_categories_value in Hup.
  destruct subs as [| | |[|]|l|[|]]; try done; try by injection Hup as <-.
  destruct (metadata_updater.update_subcategories _ l) as [l'|] eqn:Hl; [|done].
  injection Hup as <-. cbn [auto_scraper.json_iter].
  by rewrite (update_subcategories_url_loop _ subcategory_name _ _ Hl).
Qed.

Lemma update_metadata_json_keeps_the_links_witness :
  exists metadata metadata',
    files Scenario.catalog_fs !! py "Cat/metadata.json" = Some (JsonFile metadata)
    ∧ files (metadata_updater.update_metadata_json (py "Cat/metadata.json")
               [Scenario.analysis_of_A] Scenario.catalog_fs).2 !! py "Cat/metadata.json"
      = Some (JsonFile metadata')
    ∧ forall subcategory_name,
        Catalog.get_subcategory_url (Some metadata') subcategory_name
        = Catalog.get_subcategory_url (Some metadata) subcategory_name.
Proof.
  apply (update_metadata_json_keeps_the_links (py "Cat/metadata.json")
           [Scenario.analysis_of_A] Scenario.catalog_fs).
  destruct (metadata_updater.update_metadata_json _ _ _) as [r f] eqn:E.
  assert (r = Returned true) as ->; [|done].
  apply (f_equal fst) in E. vm_compute in E. congruence.
Defined.

(** ** The count of a record file (metadata_updater.py, auto_scraper.py) *)

Section CountFacts.

Import simple_scraper.

(** The record file that a successful save leaves. *)
Lemma save_videos_data_json_file (U : unicode_db) videos_data category_name fs fs' :
  videos_data ≠ [] ->
  save_videos_data U videos_data category_name fs = (Returned tt, fs') ->
  files fs' !! path_join (folder_path_of U category_name) (py "videos.json")
  = Some (JsonFile (JArr (json_of_record <$> (filtered_video <$> unique_videos_of videos_data)))).
Proof.
  intros Hne Hsave. unfold save_videos_data in Hsave.
  rewrite bool_decide_eq_false_2 in Hsave by done.
  apply bind_returned in Hsave as ([] & fs1 & Hmk & Hsave).
  apply bind_returned in Hsave as ([] & fs2 & Hw1 & Hsave).
  apply bind_returned in Hsave as ([] & fs3 & Hw2 & Hsave).
  apply json_dump_returned in Hw1 as [_ Hw1]. apply write_file_returned in Hw2.
  assert (files fs' !! path_join (folder_path_of U category_name) (py "videos.json")
          = files fs3 !! path_join (folder_path_of U category_name) (py "videos.json")) as ->.
  { case_bool_decide; [by injection Hsave as <-|].
    apply write_csv_returned in Hsave.
    rewrite Hsave, lookup_insert_ne; [done|]. intros E. symmetry in E.
    by apply json_path_ne_csv_path in E. }
  rewrite Hw2, lookup_insert_ne, Hw1, lookup_insert_eq; [done|].
  intros E. symmetry in E. by apply json_path_ne_csv_path in E.
Qed.

(** The first record is always kept. *)
Lemma unique_videos_of_cons video rest :
  exists kept, unique_videos_of (video :: rest) = video :: kept.
Proof.
  unfold unique_videos_of. cbn [dedup_loop].
  rewrite (bool_decide_eq_true_2 (url_of video ∉ (∅ : gset pyval)))
    by apply not_elem_of_empty.
  destruct (truthy (url_of video)); cbn [andb negb];
    rewrite (dedup_loop_acc rest _ ([] ++ [video])); by eexists.
Qed.

Lemma unique_videos_of_length videos_data :
  (length (unique_videos_of videos_data) <= length videos_data)%nat.
Proof.
  destruct (dedup_loop_spec videos_data ∅ []) as (kept & E & Hsub & _).
  - intros v. by rewrite elem_of_empty, elem_of_nil.
  - apply NoDup_nil_2.
  - unfold unique_videos_of. rewrite E. cbn [app]. by apply sublist_length.
Qed.

End CountFacts.

(** X18: [analyze_videos_json] never raises and changes no file, and
    the count of its analysis is the count that [check_videos_json] of
    the automated scraper reports for the same path; it has no
    analysis exactly for the paths that the automated scraper calls
    missing or invalid. *)
Theorem analyze_videos_json_counts_as_the_scan (videos_json_path : str) (fs : filesystem) :
  exists analysis st count,
    Analysis.analyze_videos_json videos_json_path fs = (Returned analysis, fs)
    ∧ auto_scraper.check_videos_json videos_json_path fs = (Returned (st, count), fs)
    ∧ match analysis with
      | Some a =>
          metadata_updater.video_count a = Z.of_nat count
          ∧ st ∈ [auto_scraper.empty; auto_scraper.single_item; auto_scraper.populated]
      | None => st ∈ [auto_scraper.missing; auto_scraper.invalid] ∧ count = 0%nat
      end.
Proof.
  rewrite check_videos_json_classify.
  unfold Analysis.analyze_videos_json, try_except, bind. rewrite json_load_eq.
  unfold Classification.record_file_at.
  destruct (files fs !! videos_json_path) as [[j|rows|t|]|] eqn:E.
  - destruct j as [| | | |l|]; try (eexists None, _, _; split_and!; try done; set_solver).
    destruct l as [|? [|? [|? l]]]; eexists (Some _), _, _; split_and!; try done; set_solver.
  - eexists None, _, _; split_and!; try done; set_solver.
  - eexists None, _, _; split_and!; try done; set_solver.
  - eexists None, _, _; split_and!; try done; set_solver.
  - destruct (bool_decide (videos_json_path ∈ dirs fs));
      eexists None, _, _; split_and!; try done; set_solver.
Qed.

(** X19: the record file that a successful [save_videos_data] of a
    non-empty list leaves is counted by the updater and by the
    automated scraper as the number of deduplicated records, which is
    at least one and at most the number of records given; the
    automated scraper calls the subsection [populated] only when more
    than two records were kept. *)
Theorem saved_records_are_counted (U : unicode_db) (videos_data : list (dict pyval))
    (category_name : str) (fs fs' : filesystem) :
  videos_data ≠ [] ->
  simple_scraper.save_videos_data U videos_data category_name fs = (Returned tt, fs') ->
  let videos_json_path :=
    path_join (simple_scraper.folder_path_of U category_name) (py "videos.json") in
  let count := length (simple_scraper.unique_videos_of videos_data) in
  (1 <= count <= length videos_data)%nat
  ∧ Analysis.analyze_videos_json videos_json_path fs'
    = (Returned (Some {| metadata_updater.video_count := Z.of_nat count;
                         metadata_updater.subcategory_path :=
                           Analysis.parent_name videos_json_path;
                         metadata_updater.category_path :=
                           Analysis.grandparent_name videos_json_path |}), fs')
  ∧ auto_scraper.check_videos_json videos_json_path fs'
    = (Returned (if (count <=? 2)%nat then auto_scraper.single_item
                 else auto_scraper.populated, count), fs').
Proof.
  intros Hne Hsave videos_json_path count.
  pose proof (save_videos_data_json_file U _ _ _ _ Hne Hsave) as Hfile.
  fold videos_json_path in Hfile.
  assert (1 <= count <= length videos_data)%nat as Hcount.
  { split; [|apply unique_videos_of_length].
    destruct videos_data as [|video rest]; [done|].
    destruct (unique_videos_of_cons video rest) as [kept E].
    unfold count. rewrite E. cbn [length]. lia. }
  split; [done|]. split.
  - unfold Analysis.analyze_videos_json, try_except, bind.
    rewrite json_load_eq, Hfile. unfold ret. by rewrite !length_fmap.
  - rewrite check_videos_json_classify. unfold Classification.record_file_at.
    rewrite Hfile. cbn [Classification.classify]. rewrite !length_fmap.
    fold count. destruct count as [|[|[|n]]]; [lia|done..].
Qed.

Lemma saved_records_are_counted_witness :
  let fs' := (simple_scraper.save_videos_data ascii_db Scenario.scenario_E (py "Cat_Sub")
                Scenario.empty_fs).2 in
  let videos_json_path :=
    path_join (simple_scraper.folder_path_of ascii_db (py "Cat_Sub")) (py "videos.json") in
  let count := length (simple_scraper.unique_videos_of Scenario.scenario_E) in
  (1 <= count <= length Scenario.scenario_E)%nat
  ∧ Analysis.analyze_videos_json videos_json_path fs'
    = (Returned (Some {| metadata_updater.video_count := Z.of_nat count;
                         metadata_updater.subcategory_path :=
                           Analysis.parent_name videos_json_path;
                         metadata_updater.category_path :=
                           Analysis.grandparent_name videos_json_path |}), fs')
  ∧ auto_scraper.check_videos_json videos_json_path fs'
    = (Returned (if (count <=? 2)%nat then auto_scraper.single_item
                 else auto_scraper.populated, count), fs').
Proof.
  intros fs'.
  apply (saved_records_are_counted ascii_db Scenario.scenario_E (py "Cat_Sub")
           Scenario.empty_fs fs').
  - discriminate.
  - unfold fs'. destruct (simple_scraper.save_videos_data _ _ _ _) as [o f] eqn:E.
    assert (o = Returned tt) as ->; [|done].
    apply (f_equal fst) in E. vm_compute in E. congruence.
Defined.

(** ** A subsection scraped with retries (auto_scraper.py) *)

Section RetryFacts.

Import Retry.

Context {St : Type}.
Variable scrape_single_subcategory : json -> M St (list (dict pyval)).
Variable save_videos_data : list (dict pyval) -> str -> M St unit.
Variable category_name_of : auto_scraper.worklist_entry -> str.
Variable subcategory_info : auto_scraper.worklist_entry.
Variable max_retries : Z.

(** The loop returns; it returns [True] only from a scrape that gave
    records and a save that returned. *)
Lemma attempts_loop_returns attempts_left : forall attempt s,
  exists result s',
    attempts_loop scrape_single_subcategory save_videos_data category_name_of
      subcategory_info max_retries attempts_left attempt s = (Returned result, s')
    ∧ (result = true ->
       exists s1 s2 videos_data,
         scrape_single_subcategory (auto_scraper.url subcategory_info) s1
         = (Returned videos_data, s2)
         ∧ videos_data ≠ []
         ∧ save_videos_data videos_data (category_name_of subcategory_info) s2
           = (Returned tt, s')).
Proof.
  induction attempts_left as [|n IH]; intros attempt s; cbn [attempts_loop].
  - by exists false, s.
  - unfold bind at 1, try_except, bind at 1.
    destruct (scrape_single_subcategory _ s) as [[videos_data|e] s1] eqn:Hscrape.
    + case_bool_decide as Hempty; cbn [negb].
      * exists false, s1. by split.
      * unfold bind at 1.
        destruct (save_videos_data videos_data _ s1) as [[[]|e] s2] eqn:Hsave.
        -- exists true, s2. split; [done|]. intros _. by exists s, s1, videos_data.
        -- destruct (attempt <? max_retries)%Z; [apply IH|by exists false, s2].
    + destruct (attempt <? max_retries)%Z; [apply IH|by exists false, s1].
Qed.

(** The scrapes of a run, counted by [calls]. *)
Variable calls : St -> nat.
Hypothesis scrape_counted :
  forall u s, calls (scrape_single_subcategory u s).2 = S (calls s).
Hypothesis save_not_counted :
  forall videos_data name s, calls (save_videos_data videos_data name s).2 = calls s.


(** When every scrape raises, every attempt is made. *)
Hypothesis scrape_raises :
  forall u s, exists e, (scrape_single_subcategory u s).1 = Raised e.


End RetryFacts.

(** X20: [scrape_subcategory_with_retry] never raises, whatever the
    scraper does; it returns [True] only when a scrape has given a list
    of records that is not empty and the save of that list has
    returned, and its state is then the one that save has left. *)
Theorem scrape_subcategory_with_retry_never_raises {St : Type}
    (scrape_single_subcategory : json -> M St (list (dict pyval)))
    (save_videos_data : list (dict pyval) -> str -> M St unit)
    (category_name_of : auto_scraper.worklist_entry -> str)
    (subcategory_info : auto_scraper.worklist_entry) (max_retries : Z) (s : St) :
  exists result s',
    Retry.scrape_subcategory_with_retry scrape_single_subcategory save_videos_data
      category_name_of subcategory_info max_retries s = (Returned result, s')
    ∧ (result = true ->
       exists s1 s2 videos_data,
         scrape_single_subcategory (auto_scraper.url subcategory_info) s1
         = (Returned videos_data, s2)
         ∧ videos_data ≠ []
         ∧ save_videos_data videos_data (category_name_of subcategory_info) s2
           = (Returned tt, s')).
Proof. apply attempts_loop_returns. Qed.



(** X22: [load_subcategories_from_metadata] never raises and changes no
    file; what it returns is the empty list, unless the index of the
    folder is a JSON object, and then it is the value that the index
    holds under ['sub_categories']. *)
Theorem load_subcategories_from_metadata_is_safe (category_folder : str)
    (fs : filesystem) :
  exists subcategories,
    Catalog.load_subcategories_from_metadata category_folder fs
    = (Returned subcategories, fs)
    ∧ (subcategories ≠ JArr [] ->
       exists index,
         files fs !! path_join category_folder (py "metadata.json")
         = Some (JsonFile (JObj index))
         ∧ dict_get index (py "sub_categories") = Some subcategories).
Proof.
  unfold Catalog.load_subcategories_from_metadata. cbv zeta.
  rewrite (bind_eq get _ fs fs fs) by done.
  destruct (exists_ _ fs); cbn [negb]; [|by exists (JArr [])].
  unfold try_except, bind at 1. rewrite json_load_eq.
  destruct (files fs !! _) as [[data| | |]|] eqn:Hfile; try by exists (JArr []).
  destruct data as [| | | | |index]; try by exists (JArr []).
  unfold bind, lift. cbn [auto_scraper.json_get]. unfold get_default.
  destruct (dict_get index (py "sub_categories")) as [subs|] eqn:Hsubs;
    cbn [from_option id]; [|by exists (JArr [])].
  destruct subs; try (by exists (JArr []));
    (eexists; split; [done|]; intros _; by exists index).
Qed.
